(** * ProductCatalog: the similarity scoring engine

    A shallow embedding of [catalog/models.py], [catalog/views.py] and the
    management command [init_similarities.py], and the properties of the
    similarity store, the initializer, the recommendation selector and the
    feedback updater.

    Conventions of the embedding:
    - a Python [float] score is an exact rational ([Q]); [min] and [max]
      are Python's two-argument versions (module [Py]);
    - a [ForeignKey] field holds the primary key of the referenced row, so
      [self.product_a.id] reads the field itself;
    - the database is a record of tables (lists of rows in table order)
      and of the two primary-key sequences; Django runs in autocommit mode,
      so every write is committed when it is made;
    - a view or command is a computation in the monad [M]: it threads the
      database and may raise an exception, keeping the writes made so far. *)

From Stdlib Require Import ZArith QArith List Lia Lqa Bool String Permutation Sorted.
Import ListNotations.
Local Open Scope Z_scope.

(** ** Python arithmetic on scores *)

Module Py.

(** [x < y] *)
Definition ltb (x y : Q) : bool := negb (Qle_bool y x).

(** [min(a, b)]: the first argument unless the second is smaller. *)
Definition min (a b : Q) : Q := if ltb b a then b else a.

(** [max(a, b)]: the first argument unless the second is larger. *)
Definition max (a b : Q) : Q := if ltb a b then b else a.

(** [itertools.combinations(l, 2)] *)
Fixpoint combinations2 {A : Type} (l : list A) : list (A * A) :=
  match l with
  | [] => []
  | x :: t => map (pair x) t ++ combinations2 t
  end.

End Py.

(** ** models.py *)

Record Product : Type := mkProduct {
  id : Z;
  name : string;
  description : string;
  category : Z;
  tags : list Z
}.

(** [pk] is [None] for an instance that was never saved. *)
Record ProductSimilarity : Type := mkSim {
  pk : option Z;
  product_a : Z;
  product_b : Z;
  score : Q
}.

Record DB : Type := mkDB {
  products : list Product;
  similarities : list ProductSimilarity;
  product_seq : Z;
  similarity_seq : Z
}.

Definition set_similarities (db : DB) (l : list ProductSimilarity) (s : Z) : DB :=
  {| products := products db; similarities := l;
     product_seq := product_seq db; similarity_seq := s |}.

Definition set_score (r : ProductSimilarity) (s : Q) : ProductSimilarity :=
  {| pk := pk r; product_a := product_a r; product_b := product_b r; score := s |}.

Definition set_pk (r : ProductSimilarity) (k : Z) : ProductSimilarity :=
  {| pk := Some k; product_a := product_a r; product_b := product_b r; score := score r |}.

Definition swap_products (r : ProductSimilarity) : ProductSimilarity :=
  {| pk := pk r; product_a := product_b r; product_b := product_a r; score := score r |}.

(** ** Exceptions and the database monad *)

Inductive exn : Type :=
| DoesNotExist
| MultipleObjectsReturned
| IntegrityError
| Http404.

Inductive outcome (A : Type) : Type :=
| Return (a : A)
| Raise (e : exn).
Arguments Return {A} a.
Arguments Raise {A} e.

Definition M (A : Type) : Type := DB -> outcome A * DB.

Definition ret {A} (a : A) : M A := fun db => (Return a, db).

Definition raise {A} (e : exn) : M A := fun db => (Raise e, db).

Definition bind {A B} (c : M A) (k : A -> M B) : M B :=
  fun db =>
    match c db with
    | (Return a, db') => k a db'
    | (Raise e, db') => (Raise e, db')
    end.

(** [try c except e: h] *)
Definition try_except {A} (c : M A) (handles : exn -> bool) (h : M A) : M A :=
  fun db =>
    match c db with
    | (Raise e, db') => if handles e then h db' else (Raise e, db')
    | r => r
    end.

Definition read {A} (f : DB -> A) : M A := fun db => (Return (f db), db).

Notation "x <- c ;; k" := (bind c (fun x => k))
  (at level 61, c at next level, right associativity).
Notation "' pat <- c ;; k" := (bind c (fun x => match x with pat => k end))
  (at level 61, pat pattern, c at next level, right associativity).

Definition exn_eqb (e1 e2 : exn) : bool :=
  match e1, e2 with
  | DoesNotExist, DoesNotExist
  | MultipleObjectsReturned, MultipleObjectsReturned
  | IntegrityError, IntegrityError
  | Http404, Http404 => true
  | _, _ => false
  end.

(** ** The ORM: queries *)

(** [Model.objects.get(...)]: exactly one row must match. *)
Definition objects_get {A} (matches : A -> bool) (table : list A) : outcome A :=
  match filter matches table with
  | [] => Raise DoesNotExist
  | [x] => Return x
  | _ :: _ :: _ => Raise MultipleObjectsReturned
  end.

Definition Product_get (i : Z) : M Product :=
  fun db => (objects_get (fun p => id p =? i) (products db), db).

(** [pk=None] matches no row. *)
Definition Product_get_pk (i : option Z) : M Product :=
  match i with
  | Some k => Product_get k
  | None => raise DoesNotExist
  end.

Definition same_pair (a b : Z) (r : ProductSimilarity) : bool :=
  (product_a r =? a) && (product_b r =? b).

Definition has_pk (k : Z) (r : ProductSimilarity) : bool :=
  match pk r with
  | Some j => j =? k
  | None => false
  end.

(** [ProductSimilarity.objects.get(product_a=a, product_b=b)] *)
Definition Similarity_get (a b : Z) : M ProductSimilarity :=
  fun db => (objects_get (same_pair a b) (similarities db), db).

(** [ProductSimilarity.objects.get(product_a=a, product_b=b, score=s)] *)
Definition Similarity_get_score (a b : Z) (s : Q) : M ProductSimilarity :=
  fun db =>
    (objects_get (fun r => same_pair a b r && Qeq_bool (score r) s) (similarities db), db).

(** [get_object_or_404]: a missing row becomes [Http404]. *)
Definition get_object_or_404 {A} (c : M A) : M A :=
  try_except c (exn_eqb DoesNotExist) (raise Http404).

(** ** The ORM: writes

    [Model.save]: the row is checked against the foreign keys and against
    [unique_together = ('product_a', 'product_b')]; a violation raises
    [IntegrityError] and writes nothing. *)

Definition fk_ok (db : DB) (r : ProductSimilarity) : bool :=
  existsb (fun p => id p =? product_a r) (products db)
  && existsb (fun p => id p =? product_b r) (products db).

Definition insert_row (r : ProductSimilarity) (k : Z) : M ProductSimilarity :=
  fun db =>
    if existsb (has_pk k) (similarities db)
       || existsb (same_pair (product_a r) (product_b r)) (similarities db)
       || negb (fk_ok db r)
    then (Raise IntegrityError, db)
    else (Return (set_pk r k),
          set_similarities db (similarities db ++ [set_pk r k])
                           (Z.max (similarity_seq db) (k + 1))).

Definition update_row (r : ProductSimilarity) (k : Z) : M ProductSimilarity :=
  fun db =>
    if existsb (fun x => same_pair (product_a r) (product_b r) x && negb (has_pk k x))
               (similarities db)
       || negb (fk_ok db r)
    then (Raise IntegrityError, db)
    else (Return r,
          set_similarities db
            (map (fun x => if has_pk k x then r else x) (similarities db))
            (similarity_seq db)).

(** [super().save()]: an instance with a primary key updates its row, or is
    inserted when no row has that key; an instance without one is inserted
    under the next key of the sequence. *)
Definition Model_save (force_insert : bool) (r : ProductSimilarity) : M ProductSimilarity :=
  fun db =>
    match pk r with
    | None => insert_row r (similarity_seq db) db
    | Some k =>
        if negb force_insert && existsb (has_pk k) (similarities db)
        then update_row r k db
        else insert_row r k db
    end.

(** [ProductSimilarity.save] (models.py): swap the two products when they
    are out of order, then save. Returns the instance as it is afterwards. *)
Definition save (force_insert : bool) (self : ProductSimilarity) : M ProductSimilarity :=
  let self := if product_a self >? product_b self then swap_products self else self in
  Model_save force_insert self.

(** [ProductSimilarity.objects.create(product_a=a, product_b=b, score=s)] *)
Definition Similarity_create (a b : Z) (s : Q) : M ProductSimilarity :=
  save true {| pk := None; product_a := a; product_b := b; score := s |}.

(** [ProductSimilarity.objects.get_or_create(product_a=a, product_b=b, score=s)]:
    the lookup uses all three fields; a creation that hits the uniqueness
    constraint is followed by a second lookup, and the [IntegrityError] is
    raised again when that finds nothing. *)
Definition Similarity_get_or_create (a b : Z) (s : Q) : M (ProductSimilarity * bool) :=
  try_except
    (obj <- Similarity_get_score a b s ;; ret (obj, false))
    (exn_eqb DoesNotExist)
    (try_except
       (obj <- Similarity_create a b s ;; ret (obj, true))
       (exn_eqb IntegrityError)
       (try_except
          (obj <- Similarity_get_score a b s ;; ret (obj, false))
          (exn_eqb DoesNotExist)
          (raise IntegrityError))).

(** [product.delete()]: both foreign keys are [on_delete=CASCADE]. *)
Definition Product_delete (p : Product) : M unit :=
  fun db =>
    (Return tt,
     {| products := filter (fun x => negb (id x =? id p)) (products db);
        similarities :=
          filter (fun r => negb ((product_a r =? id p) || (product_b r =? id p)))
                 (similarities db);
        product_seq := product_seq db;
        similarity_seq := similarity_seq db |}).

(** ** management/commands/init_similarities.py *)

Module Command.

Fixpoint handle_loop (pairs : list (Product * Product)) (total_pairs new_created : Z)
  : M (Z * Z) :=
  match pairs with
  | [] => ret (total_pairs, new_created)
  | (prod1, prod2) :: rest =>
      let '(product_a, product_b) :=
        if id prod1 <? id prod2 then (prod1, prod2) else (prod2, prod1) in
      '(obj, created) <- Similarity_get_or_create (id product_a) (id product_b) 0.5 ;;
      handle_loop rest (total_pairs + 1)
                  (if created : bool then new_created + 1 else new_created)
  end.

(** Returns the two numbers of the final message:
    [Processed {total_pairs} pairs. Created {new_created} new similarities.] *)
Definition handle : M (Z * Z) :=
  products <- read products ;;
  handle_loop (Py.combinations2 products) 0 0.

End Command.

(** ** views.py *)

Record Response (A : Type) : Type := mkResponse {
  data : A;
  status : Z
}.
Arguments mkResponse {A} data status.
Arguments data {A} r.
Arguments status {A} r.

(** Fetch of the row a foreign key refers to. *)
Definition related (i : Z) : M Product := Product_get i.

Fixpoint for_each {A B} (f : A -> M B) (l : list A) : M (list B) :=
  match l with
  | [] => ret []
  | x :: t => y <- f x ;; ys <- for_each f t ;; ret (y :: ys)
  end.

Module ProductDetailView.

Definition involves (product : Product) (r : ProductSimilarity) : bool :=
  (product_a r =? id product) || (product_b r =? id product).

(** [order_by('-score')], as a stable insertion sort on table order. *)
Fixpoint insert_desc (r : ProductSimilarity) (l : list ProductSimilarity)
  : list ProductSimilarity :=
  match l with
  | [] => [r]
  | x :: t => if Py.ltb (score r) (score x) then x :: insert_desc r t else r :: x :: t
  end.

Definition order_by_score_desc (l : list ProductSimilarity) : list ProductSimilarity :=
  fold_right insert_desc [] l.

(** [filter(Q(product_a=product) | Q(product_b=product)).order_by('-score')[:3]] *)
Definition similarity_objs (product : Product) (db : DB) : list ProductSimilarity :=
  firstn 3 (order_by_score_desc (filter (involves product) (similarities db))).

Definition other_id (product : Product) (sim : ProductSimilarity) : Z :=
  if product_a sim =? id product then product_b sim else product_a sim.

Definition get (raw : option string) (pk : Z) : M (Response (Product * option (list Product))) :=
  product <- get_object_or_404 (Product_get pk) ;;
  if match raw with Some s => String.eqb s "1" | None => false end
  then ret (mkResponse (product, None) 200)
  else
    similarity_objs <- read (similarity_objs product) ;;
    recommended_products <- for_each (fun sim => related (other_id product sim)) similarity_objs ;;
    ret (mkResponse (product, Some recommended_products) 200).

End ProductDetailView.

Record FeedbackRequest : Type := mkFeedback {
  current_product_id : option Z;
  clicked_product_id : option Z;
  other_product_ids : option (list Z)
}.

Module UpdateSimilarityView.

Definition get_similarity_object (prod1 prod2 : Product) : M ProductSimilarity :=
  let '(product_a, product_b) :=
    if id prod1 <? id prod2 then (prod1, prod2) else (prod2, prod1) in
  get_object_or_404 (Similarity_get (id product_a) (id product_b)).

(** The clicked pair: [min(score + 0.1, 1.0)]. *)
Definition increase (cur_product clicked_product : Product) : M unit :=
  sim_obj <- get_similarity_object cur_product clicked_product ;;
  _ <- save false (set_score sim_obj (Py.min (score sim_obj + 0.1) 1.0)) ;;
  ret tt.

(** One unclicked pair: [max(score - 0.05, 0.0)]. *)
Definition decrease (cur_product other_product : Product) : M unit :=
  sim_obj <- get_similarity_object cur_product other_product ;;
  _ <- save false (set_score sim_obj (Py.max (score sim_obj - 0.05) 0.0)) ;;
  ret tt.

Fixpoint decrease_all (cur_product : Product) (other_products : list Product) : M unit :=
  match other_products with
  | [] => ret tt
  | other_product :: rest =>
      _ <- decrease cur_product other_product ;;
      decrease_all cur_product rest
  end.

(** [Product.objects.filter(pk__in=other_ids)] *)
Definition pk_in (other_ids : list Z) (db : DB) : list Product :=
  filter (fun p => existsb (Z.eqb (id p)) other_ids) (products db).

(** The queryset [other_products] is lazy: its query runs when the loop
    starts iterating, after the clicked pair was saved. *)
Definition post (request : FeedbackRequest) : M (Response unit) :=
  let cur_id := current_product_id request in
  let clicked_id := clicked_product_id request in
  let other_ids := match other_product_ids request with Some l => l | None => [] end in
  cur_product <- Product_get_pk cur_id ;;
  clicked_product <- Product_get_pk clicked_id ;;
  _ <- increase cur_product clicked_product ;;
  other_products <- read (pk_in other_ids) ;;
  _ <- decrease_all cur_product other_products ;;
  ret (mkResponse tt 204).

End UpdateSimilarityView.

(** The payload of a product creation or update. *)
Record ProductData : Type := mkData {
  d_name : string;
  d_description : string;
  d_category : Z;
  d_tags : list Z
}.

(** Modelled from the spec: [serializers.py] is not part of the sources at
    hand. [ProductWriteSerializer.save()] on creation inserts a product row
    whose identifier is "a unique integer identifier assigned on creation"
    (the next value of the key sequence); on update it rewrites the
    attributes of the row and keeps its identifier. The validation
    [is_valid] is a parameter of the views that use it. *)
Definition serializer_create (d : ProductData) : M Product :=
  fun db =>
    let p := {| id := product_seq db; name := d_name d; description := d_description d;
                category := d_category d; tags := d_tags d |} in
    (Return p,
     {| products := products db ++ [p]; similarities := similarities db;
        product_seq := product_seq db + 1; similarity_seq := similarity_seq db |}).

Definition serializer_update (instance : Product) (d : ProductData) : M Product :=
  fun db =>
    let p := {| id := id instance; name := d_name d; description := d_description d;
                category := d_category d; tags := d_tags d |} in
    (Return p,
     {| products := map (fun x => if id x =? id instance then p else x) (products db);
        similarities := similarities db;
        product_seq := product_seq db; similarity_seq := similarity_seq db |}).

Module CreateProductView.

Fixpoint link_all (new_product : Product) (others : list Product) : M unit :=
  match others with
  | [] => ret tt
  | other_product :: rest =>
      let '(product_a, product_b) :=
        if id new_product <? id other_product
        then (new_product, other_product) else (other_product, new_product) in
      _ <- Similarity_create (id product_a) (id product_b) 0.5 ;;
      link_all new_product rest
  end.

(** [Product.objects.exclude(id=new_product.id)] *)
Definition exclude (i : Z) (db : DB) : list Product :=
  filter (fun p => negb (id p =? i)) (products db).

Definition post (is_valid : ProductData -> DB -> bool) (request : ProductData)
  : M (Response (option Product)) :=
  valid <- read (is_valid request) ;;
  if valid : bool then
    new_product <- serializer_create request ;;
    others <- read (exclude (id new_product)) ;;
    _ <- link_all new_product others ;;
    ret (mkResponse (Some new_product) 201)
  else ret (mkResponse None 400).

End CreateProductView.

Module UpdateProductView.

Definition put (is_valid : ProductData -> DB -> bool) (request : ProductData) (pk : Z)
  : M (Response (option Product)) :=
  product <- get_object_or_404 (Product_get pk) ;;
  valid <- read (is_valid request) ;;
  if valid : bool then
    p <- serializer_update product request ;;
    ret (mkResponse (Some p) 200)
  else ret (mkResponse None 400).

End UpdateProductView.

Module DeleteProductView.

Definition delete (pk : Z) : M (Response unit) :=
  product <- get_object_or_404 (Product_get pk) ;;
  _ <- Product_delete product ;;
  ret (mkResponse tt 204).

End DeleteProductView.

(** ** Database constraints

    What the database enforces: primary keys are unique and come from the
    sequences, foreign keys refer to existing products, and
    [unique_together] holds. *)

Definition ids (db : DB) : list Z := map id (products db).

Definition pair_of (r : ProductSimilarity) : Z * Z := (product_a r, product_b r).

(** What a score update never changes. *)
Definition key (r : ProductSimilarity) : option Z * (Z * Z) := (pk r, pair_of r).

Record consistent (db : DB) : Prop := mkConsistent {
  unique_ids : NoDup (ids db);
  ids_below_seq : forall i, In i (ids db) -> i < product_seq db;
  keys_set : forall r, In r (similarities db) ->
             exists k, pk r = Some k /\ k < similarity_seq db;
  unique_pks : NoDup (map pk (similarities db));
  foreign_keys : forall r, In r (similarities db) ->
                 In (product_a r) (ids db) /\ In (product_b r) (ids db);
  unique_together : NoDup (map pair_of (similarities db))
}.

(** Invariant 1 of the similarity records: [product_a.id < product_b.id]. *)
Definition canonical (db : DB) : Prop :=
  forall r, In r (similarities db) -> product_a r < product_b r.

(** Both together: what every operation keeps. *)
Definition invariant (db : DB) : Prop := consistent db /\ canonical db.

(** The same, as executable checks. *)
Fixpoint nodupb {A} (eqb : A -> A -> bool) (l : list A) : bool :=
  match l with
  | [] => true
  | x :: t => negb (existsb (eqb x) t) && nodupb eqb t
  end.

Definition pair_eqb (p q : Z * Z) : bool := (fst p =? fst q) && (snd p =? snd q).

Definition opt_eqb (p q : option Z) : bool :=
  match p, q with
  | Some x, Some y => x =? y
  | None, None => true
  | _, _ => false
  end.

Definition consistentb (db : DB) : bool :=
  nodupb Z.eqb (ids db)
  && forallb (fun i => i <? product_seq db) (ids db)
  && forallb (fun r => match pk r with Some k => k <? similarity_seq db | None => false end)
             (similarities db)
  && nodupb opt_eqb (map pk (similarities db))
  && forallb (fk_ok db) (similarities db)
  && nodupb pair_eqb (map pair_of (similarities db)).

Definition canonicalb (db : DB) : bool :=
  forallb (fun r => product_a r <? product_b r) (similarities db).

(** The score stored for the pair [(a, b)], if a record exists. *)
Definition score_of (a b : Z) (db : DB) : option Q :=
  option_map score (find (same_pair a b) (similarities db)).

(** The canonical orientation of two product identifiers. *)
Definition lo (i j : Z) : Z := Z.min i j.
Definition hi (i j : Z) : Z := Z.max i j.

(** The database after the insertion of a record for the pair [(a, b)]. *)
Definition add_row (db : DB) (a b : Z) (s : Q) : DB :=
  set_similarities db
    (similarities db ++ [mkSim (Some (similarity_seq db)) a b s])
    (similarity_seq db + 1).

(** The records inserted for a list of pairs, keys taken from [k] on. *)
Fixpoint rows (ps : list (Z * Z)) (k : Z) (s : Q) : list ProductSimilarity :=
  match ps with
  | [] => []
  | (a, b) :: t => mkSim (Some k) a b s :: rows t (k + 1) s
  end.

(** The table after the score of the pair [(a, b)] went through [f]. *)
Definition adjust (a b : Z) (f : Q -> Q) (l : list ProductSimilarity)
  : list ProductSimilarity :=
  map (fun x => if same_pair a b x then set_score x (f (score x)) else x) l.

(** The two adjustments of the feedback updater, as functions of the score. *)
Definition inc (s : Q) : Q := Py.min (s + 0.1) 1.0.
Definition dec (s : Q) : Q := Py.max (s - 0.05) 0.0.

(** A feedback request with all three fields present. *)
Definition feedback (cur clicked : Z) (others : list Z) : FeedbackRequest :=
  mkFeedback (Some cur) (Some clicked) (Some others).

(** The record between [cur] and the product [o] exists in the table [l]. *)
Definition has_record (cur : Z) (l : list ProductSimilarity) (o : Product) : bool :=
  existsb (same_pair (lo cur (id o)) (hi cur (id o))) l.

(** The unclicked products reached before the first one without a record. *)
Fixpoint processed (cur : Z) (l : list ProductSimilarity) (others : list Product)
  : list Product :=
  match others with
  | [] => []
  | o :: t => if has_record cur l o then o :: processed cur l t else []
  end.

(** [x] is the record between [cur] and one of the products [done]. *)
Definition is_done (cur : Z) (done : list Product) (x : ProductSimilarity) : bool :=
  existsb (fun o => same_pair (lo cur (id o)) (hi cur (id o)) x) done.

(** The table after the records of [done] were decreased once each. *)
Definition decreased (cur : Z) (done : list Product) (l : list ProductSimilarity)
  : list ProductSimilarity :=
  map (fun x => if is_done cur done x then set_score x (dec (score x)) else x) l.

(** The identifiers of a pair of products, in canonical orientation. *)
Definition norm (pq : Product * Product) : Z * Z :=
  (lo (id (fst pq)) (id (snd pq)), hi (id (fst pq)) (id (snd pq))).

(** The pairs the command goes through: products of the catalog, with
    different identifiers. *)
Definition pairs_ok (db : DB) (ps : list (Product * Product)) : Prop :=
  forall pq, In pq ps ->
    In (id (fst pq)) (ids db) /\ In (id (snd pq)) (ids db) /\ id (fst pq) <> id (snd pq).

(** The pairs of the new product with the others. *)
Definition links (new_product : Product) (others : list Product) : list (Z * Z) :=
  map (fun o => (lo (id new_product) (id o), hi (id new_product) (id o))) others.

(** ** The operations of the system *)

Inductive operation : Type :=
| InitSimilarities
| ProductDetail (raw : option string) (pk : Z)
| UpdateSimilarity (request : FeedbackRequest)
| CreateProduct (request : ProductData)
| UpdateProduct (request : ProductData) (pk : Z)
| DeleteProduct (pk : Z).

(** The database an operation leaves, whether it answers or raises. *)
Definition run (is_valid : ProductData -> DB -> bool) (db : DB) (op : operation) : DB :=
  match op with
  | InitSimilarities => snd (Command.handle db)
  | ProductDetail raw pk => snd (ProductDetailView.get raw pk db)
  | UpdateSimilarity request => snd (UpdateSimilarityView.post request db)
  | CreateProduct request => snd (CreateProductView.post is_valid request db)
  | UpdateProduct request pk => snd (UpdateProductView.put is_valid request pk db)
  | DeleteProduct pk => snd (DeleteProductView.delete pk db)
  end.

(** ** Sample catalogs *)

Definition sample_product (i : Z) : Product := mkProduct i "item" "" 1 [].

(** Five products; product 1 has the scores 0.95, 0.5, 0.5 and 0.5 to
    the other four, and the remaining pairs are at the default. *)
Definition shop : DB :=
  {| products := map sample_product [1; 2; 3; 4; 5];
     similarities :=
       [ mkSim (Some 1) 1 2 0.95; mkSim (Some 2) 1 3 0.5; mkSim (Some 3) 1 4 0.5;
         mkSim (Some 4) 1 5 0.5; mkSim (Some 5) 2 3 0.5; mkSim (Some 6) 2 4 0.5;
         mkSim (Some 7) 2 5 0.5; mkSim (Some 8) 3 4 0.5; mkSim (Some 9) 3 5 0.5;
         mkSim (Some 10) 4 5 0.5 ];
     product_seq := 6;
     similarity_seq := 11 |}.

(** Three products of which only the pair (1, 2) has a record. *)
Definition sparse_shop : DB :=
  {| products := map sample_product [1; 2; 3];
     similarities := [ mkSim (Some 1) 1 2 0.5 ];
     product_seq := 4;
     similarity_seq := 2 |}.

(** Four products, listed out of order, and no record yet. *)
Definition new_shop : DB :=
  {| products := map sample_product [3; 1; 4; 2];
     similarities := [];
     product_seq := 5;
     similarity_seq := 1 |}.

(** Three products; feedback has moved the score of the pair (1, 2) away
    from the default, and the other pairs have no record. *)
Definition drifted_shop : DB :=
  {| products := map sample_product [1; 2; 3];
     similarities := [ mkSim (Some 1) 1 2 0.6 ];
     product_seq := 4;
     similarity_seq := 2 |}.

(** Five products; product 1 has the scores 0.9, 0.3, 0.7 and 0.5 to its
    four peers 2, 3, 4 and 5. *)
Definition ranked_shop : DB :=
  {| products := map sample_product [1; 2; 3; 4; 5];
     similarities :=
       [ mkSim (Some 1) 1 2 0.9; mkSim (Some 2) 1 3 0.3; mkSim (Some 3) 2 3 0.5;
         mkSim (Some 4) 1 4 0.7; mkSim (Some 5) 1 5 0.5; mkSim (Some 6) 4 5 1.0 ];
     product_seq := 6;
     similarity_seq := 7 |}.


(** ** views.py: the product list

    The query parameters of [ProductListView.get]: [category] and [search]
    are absent ([None]) or given, [tags] is the list of [getlist('tags')].
    The identifiers are taken as already converted to integers. *)

Record ListParams : Type := mkParams {
  q_category : option Z;
  q_tags : list Z;
  q_search : option string
}.

Definition Product_eq_dec (x y : Product) : {x = y} + {x <> y}.
Proof.
  decide equality;
    first [apply Z.eq_dec | apply string_dec | apply (list_eq_dec Z.eq_dec)].
Defined.

Module ProductListView.

(** [queryset.filter(tags__id=tag_id)]: a join with the tags of each
    product, which yields one row per matching tag. *)
Definition filter_tag (tag_id : Z) (queryset : list Product) : list Product :=
  flat_map (fun p => map (fun _ => p) (filter (Z.eqb tag_id) (tags p))) queryset.

(** [queryset.distinct()] *)
Definition distinct (queryset : list Product) : list Product :=
  nodup Product_eq_dec queryset.

(** The regular expression engine is a parameter: [re_escape] stands for
    [re.escape] and [iregex pattern text] for the case-insensitive search
    of [description__iregex]. A [search] that is the empty string is
    falsy, like an absent one. *)
Definition get (re_escape : string -> string) (iregex : string -> string -> bool)
    (params : ListParams) : M (Response (list Product)) :=
  queryset <- read products ;;
  let queryset :=
    match q_category params with
    | Some category_id => filter (fun p => category p =? category_id) queryset
    | None => queryset
    end in
  let queryset :=
    fold_left (fun queryset tag_id => filter_tag tag_id queryset) (q_tags params) queryset in
  let queryset :=
    match q_search params with
    | Some search =>
        if String.eqb search "" then queryset
        else
          let escaped_search := re_escape search in
          let pattern := ("(^|\s)" ++ escaped_search ++ "(\s|$)")%string in
          filter (fun p => iregex pattern (description p)) queryset
    | None => queryset
    end in
  ret (mkResponse (distinct queryset) 200).


End ProductListView.



(** Every two distinct products of the catalog have a record. *)
Definition complete (db : DB) : Prop :=
  forall p q, In p (products db) -> In q (products db) -> id p <> id q ->
  score_of (lo (id p) (id q)) (hi (id p) (id q)) db <> None.


(** * Proofs *)

(** The queries and writes are unfolded by hand, never by [simpl]. *)
Arguments Product_get : simpl never.
Arguments Similarity_get : simpl never.
Arguments Similarity_get_score : simpl never.
Arguments Similarity_create : simpl never.
Arguments Similarity_get_or_create : simpl never.
Arguments save : simpl never.
Arguments Model_save : simpl never.

(** ** The monad *)

Lemma bind_Return {A B} (c : M A) (k : A -> M B) db a db' :
  c db = (Return a, db') -> bind c k db = k a db'.
Proof. intros H. unfold bind. rewrite H. reflexivity. Qed.

Lemma bind_Raise {A B} (c : M A) (k : A -> M B) db e db' :
  c db = (Raise e, db') -> bind c k db = (Raise e, db').
Proof. intros H. unfold bind. rewrite H. reflexivity. Qed.

Lemma try_Return {A} (c h : M A) hs db a db' :
  c db = (Return a, db') -> try_except c hs h db = (Return a, db').
Proof. intros H. unfold try_except. rewrite H. reflexivity. Qed.

Lemma try_Raise {A} (c h : M A) hs db e db' :
  c db = (Raise e, db') ->
  try_except c hs h db = if hs e then h db' else (Raise e, db').
Proof. intros H. unfold try_except. rewrite H. reflexivity. Qed.

(** ** Lists *)

Lemma nodupb_sound {A} (eqb : A -> A -> bool) (l : list A) :
  (forall x y, x = y -> eqb x y = true) -> nodupb eqb l = true -> NoDup l.
Proof.
  intros Heq. induction l as [|x t IH]; simpl; intros H.
  - constructor.
  - apply andb_prop in H. destruct H as [Hx Ht]. constructor; auto.
    intros Hin. apply negb_true_iff in Hx.
    assert (existsb (eqb x) t = true) by (apply existsb_exists; exists x; auto).
    congruence.
Qed.

Lemma existsb_false {A} (f : A -> bool) (l : list A) :
  existsb f l = false <-> forall x, In x l -> f x = false.
Proof.
  induction l as [|y t IH]; simpl.
  - split; intros; [contradiction | reflexivity].
  - rewrite orb_false_iff, IH. split.
    + intros [Hy Ht] x [->|Hx]; auto.
    + intros H. split; [|intros x Hx]; apply H; auto.
Qed.

Lemma filter_none {A} (f : A -> bool) (l : list A) :
  (forall x, In x l -> f x = false) -> filter f l = [].
Proof.
  induction l as [|y t IH]; simpl; intros H; [reflexivity|].
  rewrite (H y) by auto. apply IH. intros x Hx. apply H. auto.
Qed.

(** A key that is unique in the table selects one row. *)
Lemma filter_unique {A K} (f : A -> K) (m : A -> bool) (l : list A) (x : A) :
  NoDup (map f l) -> In x l ->
  (forall y, In y l -> m y = true <-> f y = f x) ->
  filter m l = [x].
Proof.
  induction l as [|y t IH]; simpl; intros Hnd Hin Hm; [contradiction|].
  inversion Hnd as [|? ? Hnotin Hnd']; subst.
  destruct Hin as [->|Hin].
  - assert (Hx : m x = true) by (apply Hm; auto).
    rewrite Hx. f_equal. apply filter_none. intros z Hz.
    destruct (m z) eqn:Ez; [|reflexivity].
    exfalso. apply Hnotin.
    rewrite <- (proj1 (Hm z (or_intror Hz)) Ez). apply in_map. exact Hz.
  - destruct (m y) eqn:Ey.
    + exfalso. apply Hnotin.
      rewrite (proj1 (Hm y (or_introl eq_refl)) Ey). apply in_map. exact Hin.
    + apply IH; auto.
Qed.

Lemma NoDup_map_inj {A K} (f : A -> K) (l : list A) (x y : A) :
  NoDup (map f l) -> In x l -> In y l -> f x = f y -> x = y.
Proof.
  induction l as [|z t IH]; simpl; intros Hnd Hx Hy Hf; [contradiction|].
  inversion Hnd as [|? ? Hnotin Hnd']; subst.
  destruct Hx as [->|Hx], Hy as [->|Hy]; auto.
  - exfalso. apply Hnotin. rewrite Hf. apply in_map. exact Hy.
  - exfalso. apply Hnotin. rewrite <- Hf. apply in_map. exact Hx.
Qed.

Lemma find_map_key {A} (p : A -> bool) (g : A -> A) (l : list A) :
  (forall x, p (g x) = p x) -> find p (map g l) = option_map g (find p l).
Proof.
  intros Hp. induction l as [|y t IH]; simpl; [reflexivity|].
  rewrite Hp. destruct (p y); [reflexivity | exact IH].
Qed.

Lemma find_existsb {A} (p : A -> bool) (l : list A) :
  existsb p l = match find p l with Some _ => true | None => false end.
Proof.
  induction l as [|y t IH]; simpl; [reflexivity|].
  destruct (p y); [reflexivity | exact IH].
Qed.

Lemma same_pair_iff a b r : same_pair a b r = true <-> pair_of r = (a, b).
Proof.
  unfold same_pair, pair_of. rewrite andb_true_iff, !Z.eqb_eq.
  split; [intros [-> ->]; reflexivity | intros H; inversion H; auto].
Qed.

Lemma has_pk_iff k r : has_pk k r = true <-> pk r = Some k.
Proof.
  unfold has_pk. destruct (pk r) as [j|].
  - rewrite Z.eqb_eq. split; [intros ->; reflexivity | intros H; inversion H; reflexivity].
  - split; discriminate.
Qed.

Lemma in_ids_existsb db i : existsb (fun p => id p =? i) (products db) = true <-> In i (ids db).
Proof.
  unfold ids. rewrite existsb_exists, in_map_iff.
  split; intros [p [H1 H2]]; exists p.
  - apply Z.eqb_eq in H2. auto.
  - rewrite Z.eqb_eq. auto.
Qed.

Lemma fk_ok_iff db r :
  fk_ok db r = true <-> In (product_a r) (ids db) /\ In (product_b r) (ids db).
Proof. unfold fk_ok. rewrite andb_true_iff, !in_ids_existsb. reflexivity. Qed.

Lemma consistentb_sound db : consistentb db = true -> consistent db.
Proof.
  unfold consistentb. rewrite !andb_true_iff.
  intros [[[[[H1 H2] H3] H4] H5] H6].
  rewrite forallb_forall in H2, H3, H5. constructor.
  - apply (nodupb_sound Z.eqb); auto. intros x y ->. apply Z.eqb_refl.
  - intros i Hi. apply Z.ltb_lt. auto.
  - intros r Hr. specialize (H3 r Hr). destruct (pk r) as [k|]; [|discriminate].
    exists k. split; [reflexivity | apply Z.ltb_lt; exact H3].
  - apply (nodupb_sound opt_eqb); auto.
    intros [x|] y <-; simpl; [apply Z.eqb_refl | reflexivity].
  - intros r Hr. apply fk_ok_iff. auto.
  - apply (nodupb_sound pair_eqb); auto.
    intros x y <-. unfold pair_eqb. rewrite !Z.eqb_refl. reflexivity.
Qed.

Lemma canonicalb_sound db : canonicalb db = true -> canonical db.
Proof.
  unfold canonicalb, canonical. rewrite forallb_forall.
  intros H r Hr. apply Z.ltb_lt. auto.
Qed.

(** ** Queries on a consistent database *)

Lemma Product_get_found db p :
  consistent db -> In p (products db) -> Product_get (id p) db = (Return p, db).
Proof.
  intros C Hp. unfold Product_get, objects_get.
  rewrite (filter_unique id _ _ p); auto.
  - apply (unique_ids db C).
  - intros y _. apply Z.eqb_eq.
Qed.

Lemma Product_get_missing db i :
  ~ In i (ids db) -> Product_get i db = (Raise DoesNotExist, db).
Proof.
  intros Hi. unfold Product_get, objects_get. rewrite filter_none; auto.
  intros x Hx. apply Z.eqb_neq. intros <-. apply Hi. apply in_map. exact Hx.
Qed.

Lemma Product_get_inv db i o db' :
  Product_get i db = (o, db') ->
  db' = db /\ forall p, o = Return p -> In p (products db) /\ id p = i.
Proof.
  unfold Product_get, objects_get. intros H.
  destruct (filter _ _) as [|x [|y t]] eqn:E; inversion H; subst; split; auto;
    intros p Hp; inversion Hp; subst.
  assert (Hin : In p (filter (fun p => id p =? i) (products db')))
    by (rewrite E; left; reflexivity).
  apply filter_In in Hin. destruct Hin as [Hin Hid]. apply Z.eqb_eq in Hid. auto.
Qed.

Lemma same_pair_unique db a b r x :
  consistent db -> In r (similarities db) -> In x (similarities db) ->
  same_pair a b r = true -> same_pair a b x = true -> x = r.
Proof.
  intros C Hr Hx Er Ex. apply same_pair_iff in Er, Ex.
  apply (NoDup_map_inj pair_of (similarities db)); auto.
  - apply (unique_together db C).
  - congruence.
Qed.

Lemma Similarity_get_spec db a b :
  consistent db ->
  Similarity_get a b db =
  (match find (same_pair a b) (similarities db) with
   | Some r => Return r
   | None => Raise DoesNotExist
   end, db).
Proof.
  intros C. unfold Similarity_get, objects_get.
  destruct (find _ _) as [r|] eqn:E.
  - apply find_some in E. destruct E as [Hr Er].
    rewrite (filter_unique pair_of _ _ r); auto.
    + apply (unique_together db C).
    + intros y Hy. rewrite same_pair_iff. apply same_pair_iff in Er. rewrite Er. reflexivity.
  - rewrite filter_none; auto. intros x Hx. apply (find_none _ _ E). exact Hx.
Qed.

Lemma Similarity_get_score_spec db a b s :
  consistent db ->
  Similarity_get_score a b s db =
  (match find (same_pair a b) (similarities db) with
   | Some r => if Qeq_bool (score r) s then Return r else Raise DoesNotExist
   | None => Raise DoesNotExist
   end, db).
Proof.
  intros C. unfold Similarity_get_score, objects_get.
  destruct (find _ _) as [r|] eqn:E.
  - apply find_some in E. destruct E as [Hr Er].
    destruct (Qeq_bool (score r) s) eqn:Es.
    + rewrite (filter_unique pair_of _ _ r); auto.
      * apply (unique_together db C).
      * intros y Hy. split.
        -- intros H. apply andb_prop in H. destruct H as [H _].
           apply same_pair_iff in H, Er. congruence.
        -- intros H. assert (y = r) as ->.
           { apply (NoDup_map_inj pair_of (similarities db)); auto.
             apply (unique_together db C). }
           rewrite Er, Es. reflexivity.
    + rewrite filter_none; auto. intros x Hx.
      destruct (same_pair a b x) eqn:Ex; [|reflexivity].
      rewrite (same_pair_unique db a b r x C Hr Hx Er Ex), Es. reflexivity.
  - rewrite filter_none; auto. intros x Hx.
    rewrite (find_none _ _ E x Hx). reflexivity.
Qed.

(** ** Writes keep the database consistent *)

Lemma NoDup_snoc {A} (l : list A) (x : A) : NoDup l -> ~ In x l -> NoDup (l ++ [x]).
Proof.
  intros Hl Hx. apply (Permutation_NoDup (l := x :: l)).
  - apply Permutation_cons_append.
  - constructor; assumption.
Qed.

Lemma in_same_keys (l l' : list ProductSimilarity) r' :
  map key l' = map key l -> In r' l' -> exists r, In r l /\ key r = key r'.
Proof.
  intros Hk Hr. apply (in_map key) in Hr. rewrite Hk in Hr.
  apply in_map_iff in Hr. destruct Hr as [r [H1 H2]]. exists r. auto.
Qed.

Lemma same_keys_pk (l l' : list ProductSimilarity) :
  map key l' = map key l -> map pk l' = map pk l.
Proof.
  intros H. apply (f_equal (map fst)) in H. rewrite !map_map in H. exact H.
Qed.

Lemma same_keys_pair (l l' : list ProductSimilarity) :
  map key l' = map key l -> map pair_of l' = map pair_of l.
Proof.
  intros H. apply (f_equal (map snd)) in H. rewrite !map_map in H. exact H.
Qed.

Lemma consistent_same_keys db db' :
  ids db' = ids db -> product_seq db' = product_seq db ->
  similarity_seq db <= similarity_seq db' ->
  map key (similarities db') = map key (similarities db) ->
  consistent db -> consistent db'.
Proof.
  intros Hids Hs Hq Hk C.
  constructor.
  - rewrite Hids. apply (unique_ids db C).
  - rewrite Hids, Hs. apply (ids_below_seq db C).
  - intros r' Hr'. destruct (in_same_keys _ _ _ Hk Hr') as [r [Hr Heq]].
    destruct (keys_set db C r Hr) as [k [Hpk Hlt]].
    exists k. split; [|lia]. inversion Heq. congruence.
  - rewrite (same_keys_pk _ _ Hk). apply (unique_pks db C).
  - intros r' Hr'. destruct (in_same_keys _ _ _ Hk Hr') as [r [Hr Heq]].
    rewrite Hids. unfold key, pair_of in Heq. injection Heq as H1 H2 H3.
    rewrite <- H2, <- H3. apply (foreign_keys db C r Hr).
  - rewrite (same_keys_pair _ _ Hk). apply (unique_together db C).
Qed.

Lemma canonical_same_keys db db' :
  map key (similarities db') = map key (similarities db) ->
  canonical db -> canonical db'.
Proof.
  intros Hk C r' Hr'. destruct (in_same_keys _ _ _ Hk Hr') as [r [Hr Heq]].
  unfold key, pair_of in Heq. injection Heq as H1 H2 H3.
  rewrite <- H2, <- H3. apply C. exact Hr.
Qed.

Lemma adjust_keys a b f l : map key (adjust a b f l) = map key l.
Proof.
  unfold adjust. rewrite map_map. apply map_ext. intros x.
  destruct (same_pair a b x); reflexivity.
Qed.

Lemma consistent_add_row db a b s :
  consistent db -> In a (ids db) -> In b (ids db) ->
  find (same_pair a b) (similarities db) = None ->
  consistent (add_row db a b s).
Proof.
  intros C Ha Hb Hnone. constructor; simpl.
  - apply (unique_ids db C).
  - apply (ids_below_seq db C).
  - intros r Hr. apply in_app_or in Hr. destruct Hr as [Hr|[<-|[]]].
    + destruct (keys_set db C r Hr) as [k [Hk Hlt]]. exists k. split; [exact Hk | lia].
    + exists (similarity_seq db). split; [reflexivity | lia].
  - rewrite map_app. simpl. apply NoDup_snoc; [apply (unique_pks db C)|].
    intros Hin. apply in_map_iff in Hin. destruct Hin as [r [Hk Hr]].
    destruct (keys_set db C r Hr) as [k [Hk' Hlt]].
    rewrite Hk in Hk'. inversion Hk'. lia.
  - intros r Hr. apply in_app_or in Hr. destruct Hr as [Hr|[<-|[]]].
    + apply (foreign_keys db C r Hr).
    + simpl. auto.
  - rewrite map_app. simpl. apply NoDup_snoc; [apply (unique_together db C)|].
    intros Hin. apply in_map_iff in Hin. destruct Hin as [r [Hk Hr]].
    apply (proj2 (same_pair_iff a b r)) in Hk.
    rewrite (find_none _ _ Hnone r Hr) in Hk. discriminate.
Qed.

Lemma canonical_add_row db a b s :
  canonical db -> a < b -> canonical (add_row db a b s).
Proof.
  intros C Hab r Hr. simpl in Hr. apply in_app_or in Hr.
  destruct Hr as [Hr|[<-|[]]]; [apply C; exact Hr | exact Hab].
Qed.

(** ** What the writes do on a consistent database *)

Lemma gtb_false a b : a <= b -> (a >? b) = false.
Proof. intros H. rewrite Z.gtb_ltb. apply Z.ltb_ge. exact H. Qed.

(** Saving a stored record under a new score rewrites its row and nothing
    else. *)
Lemma save_adjust db r f :
  consistent db -> In r (similarities db) -> product_a r <= product_b r ->
  save false (set_score r (f (score r))) db =
  (Return (set_score r (f (score r))),
   set_similarities db
     (adjust (product_a r) (product_b r) f (similarities db)) (similarity_seq db)).
Proof.
  intros C Hr Hle. unfold save. simpl product_a. simpl product_b.
  rewrite (gtb_false _ _ Hle). unfold Model_save. simpl.
  destruct (keys_set db C r Hr) as [k [Hk Hlt]]. rewrite Hk.
  assert (Hex : existsb (has_pk k) (similarities db) = true).
  { apply existsb_exists. exists r. split; [exact Hr | apply has_pk_iff; exact Hk]. }
  rewrite Hex. simpl. unfold update_row. simpl.
  assert (Hsame : forall x, In x (similarities db) ->
            has_pk k x = same_pair (product_a r) (product_b r) x).
  { intros x Hx. destruct (has_pk k x) eqn:E1; destruct (same_pair _ _ x) eqn:E2; auto.
    - apply has_pk_iff in E1.
      assert (x = r) as -> by
        (apply (NoDup_map_inj pk (similarities db)); auto;
         [apply (unique_pks db C) | congruence]).
      unfold same_pair in E2. rewrite !Z.eqb_refl in E2. discriminate.
    - assert (x = r) as ->.
      { apply (same_pair_unique db (product_a r) (product_b r)); auto.
        unfold same_pair. rewrite !Z.eqb_refl. reflexivity. }
      apply has_pk_iff in Hk. congruence. }
  assert (Hu : existsb (fun x => same_pair (product_a r) (product_b r) x && negb (has_pk k x))
                 (similarities db) = false).
  { apply existsb_false. intros x Hx. rewrite (Hsame x Hx).
    destruct (same_pair _ _ x); reflexivity. }
  rewrite Hu. simpl.
  assert (Hfk : fk_ok db (set_score r (f (score r))) = true).
  { apply fk_ok_iff. simpl. apply (foreign_keys db C r Hr). }
  rewrite Hfk. simpl. f_equal. f_equal. unfold adjust. apply map_ext_in.
  intros x Hx. rewrite (Hsame x Hx). destruct (same_pair _ _ x) eqn:E; [|reflexivity].
  assert (x = r) as ->; [|reflexivity].
  apply (same_pair_unique db (product_a r) (product_b r)); auto.
  unfold same_pair. rewrite !Z.eqb_refl. reflexivity.
Qed.

Lemma Similarity_create_spec db a b s :
  consistent db -> a <= b -> In a (ids db) -> In b (ids db) ->
  Similarity_create a b s db =
  match find (same_pair a b) (similarities db) with
  | Some _ => (Raise IntegrityError, db)
  | None => (Return (mkSim (Some (similarity_seq db)) a b s), add_row db a b s)
  end.
Proof.
  intros C Hle Ha Hb. unfold Similarity_create, save. simpl.
  rewrite (gtb_false _ _ Hle). unfold Model_save, insert_row. simpl.
  assert (Hpk : existsb (has_pk (similarity_seq db)) (similarities db) = false).
  { apply existsb_false. intros x Hx. destruct (has_pk _ x) eqn:E; [|reflexivity].
    apply has_pk_iff in E. destruct (keys_set db C x Hx) as [k [Hk Hlt]].
    rewrite E in Hk. inversion Hk. lia. }
  rewrite Hpk, find_existsb. simpl.
  destruct (find _ _); [reflexivity|].
  assert (Hfk : fk_ok db (mkSim None a b s) = true) by (apply fk_ok_iff; simpl; auto).
  rewrite Hfk. simpl. unfold add_row, set_pk. simpl.
  rewrite Z.max_r by lia. reflexivity.
Qed.

Lemma get_or_create_spec db a b s :
  consistent db -> a <= b -> In a (ids db) -> In b (ids db) ->
  Similarity_get_or_create a b s db =
  match find (same_pair a b) (similarities db) with
  | Some r => if Qeq_bool (score r) s then (Return (r, false), db)
              else (Raise IntegrityError, db)
  | None => (Return (mkSim (Some (similarity_seq db)) a b s, true), add_row db a b s)
  end.
Proof.
  intros C Hle Ha Hb. unfold Similarity_get_or_create.
  pose proof (Similarity_get_score_spec db a b s C) as Hget.
  pose proof (Similarity_create_spec db a b s C Hle Ha Hb) as Hcreate.
  destruct (find _ _) as [r|] eqn:E; [destruct (Qeq_bool (score r) s) eqn:Es|].
  - apply try_Return. rewrite (bind_Return _ _ _ _ _ Hget). reflexivity.
  - rewrite (try_Raise _ _ _ _ DoesNotExist db) by (apply (bind_Raise _ _ _ _ _ Hget)).
    cbn [exn_eqb].
    rewrite (try_Raise _ _ _ _ IntegrityError db) by (apply (bind_Raise _ _ _ _ _ Hcreate)).
    cbn [exn_eqb].
    rewrite (try_Raise _ _ _ _ DoesNotExist db) by (apply (bind_Raise _ _ _ _ _ Hget)).
    reflexivity.
  - rewrite (try_Raise _ _ _ _ DoesNotExist db) by (apply (bind_Raise _ _ _ _ _ Hget)).
    cbn [exn_eqb]. apply try_Return. rewrite (bind_Return _ _ _ _ _ Hcreate). reflexivity.
Qed.

(** ** The feedback updater, step by step *)

Lemma set_similarities_same db :
  set_similarities db (similarities db) (similarity_seq db) = db.
Proof. destruct db; reflexivity. Qed.

Lemma existsb_same_keys a b (l l' : list ProductSimilarity) :
  map key l' = map key l -> existsb (same_pair a b) l' = existsb (same_pair a b) l.
Proof.
  intros Hk. apply same_keys_pair in Hk.
  assert (E : forall m, existsb (same_pair a b) m
                        = existsb (pair_eqb (a, b)) (map pair_of m)).
  { induction m as [|x t IH]; simpl; [reflexivity|]. rewrite IH. f_equal.
    unfold same_pair, pair_eqb, pair_of. simpl.
    rewrite (Z.eqb_sym (product_a x)), (Z.eqb_sym (product_b x)). reflexivity. }
  rewrite !E, Hk. reflexivity.
Qed.

Lemma lo_le_hi i j : lo i j <= hi i j.
Proof. unfold lo, hi. lia. Qed.

Lemma lo_hi_inj c i j : lo c i = lo c j -> hi c i = hi c j -> i = j.
Proof. unfold lo, hi. lia. Qed.

Lemma get_similarity_object_spec db p q :
  consistent db ->
  UpdateSimilarityView.get_similarity_object p q db =
  (match find (same_pair (lo (id p) (id q)) (hi (id p) (id q))) (similarities db) with
   | Some r => Return r
   | None => Raise Http404
   end, db).
Proof.
  intros C. unfold UpdateSimilarityView.get_similarity_object, get_object_or_404.
  assert (E : (let '(product_a, product_b) :=
                 if id p <? id q then (p, q) else (q, p) in
               try_except (Similarity_get (id product_a) (id product_b))
                          (exn_eqb DoesNotExist) (raise Http404))
              = try_except (Similarity_get (lo (id p) (id q)) (hi (id p) (id q)))
                           (exn_eqb DoesNotExist) (raise Http404)).
  { unfold lo, hi. destruct (Z.ltb_spec (id p) (id q)).
    - rewrite Z.min_l, Z.max_r by lia. reflexivity.
    - rewrite Z.min_r, Z.max_l by lia. reflexivity. }
  rewrite E. pose proof (Similarity_get_spec db (lo (id p) (id q)) (hi (id p) (id q)) C) as Hg.
  destruct (find _ _).
  - apply try_Return. exact Hg.
  - rewrite (try_Raise _ _ _ _ _ _ Hg). reflexivity.
Qed.

(** One adjustment: the record of the pair goes through [f], or the lookup
    raises [Http404] and nothing is written. *)
Lemma adjust_spec (f : Q -> Q) db p q :
  consistent db ->
  (sim_obj <- UpdateSimilarityView.get_similarity_object p q ;;
   _ <- save false (set_score sim_obj (f (score sim_obj))) ;;
   ret tt) db =
  match find (same_pair (lo (id p) (id q)) (hi (id p) (id q))) (similarities db) with
  | Some _ =>
      (Return tt,
       set_similarities db
         (adjust (lo (id p) (id q)) (hi (id p) (id q)) f (similarities db))
         (similarity_seq db))
  | None => (Raise Http404, db)
  end.
Proof.
  intros C. pose proof (get_similarity_object_spec db p q C) as Hg.
  destruct (find _ _) as [r|] eqn:E.
  - rewrite (bind_Return _ _ _ _ _ Hg).
    apply find_some in E. destruct E as [Hr Er]. apply same_pair_iff in Er.
    injection Er as Ha Hb.
    assert (Hle : product_a r <= product_b r) by (rewrite Ha, Hb; apply lo_le_hi).
    rewrite (bind_Return _ _ _ _ _ (save_adjust db r f C Hr Hle)).
    rewrite Ha, Hb. reflexivity.
  - apply (bind_Raise _ _ _ _ _ Hg).
Qed.

Lemma processed_incl cur l others o : In o (processed cur l others) -> In o others.
Proof.
  induction others as [|x t IH]; simpl; [auto|].
  destruct (has_record cur l x); simpl; [|contradiction].
  intros [->|H]; auto.
Qed.

Lemma decreased_nil cur l : decreased cur [] l = l.
Proof. unfold decreased. simpl. apply map_id. Qed.

(** Decreasing one more record first. *)
Lemma decreased_cons cur o done l :
  ~ In (id o) (map id done) ->
  decreased cur done (adjust (lo cur (id o)) (hi cur (id o)) dec l)
  = decreased cur (o :: done) l.
Proof.
  intros Hnew. unfold decreased, adjust. rewrite map_map. apply map_ext. intros x.
  unfold is_done. simpl.
  destruct (same_pair (lo cur (id o)) (hi cur (id o)) x) eqn:Eo; simpl; [|reflexivity].
  assert (Hd : existsb (fun o0 => same_pair (lo cur (id o0)) (hi cur (id o0)) x) done = false).
  { apply existsb_false. intros o' Ho'.
    destruct (same_pair (lo cur (id o')) (hi cur (id o')) x) eqn:Eo'; [|reflexivity].
    exfalso. apply Hnew. apply same_pair_iff in Eo, Eo'. rewrite Eo in Eo'.
    injection Eo' as H1 H2. rewrite (lo_hi_inj cur _ _ H1 H2). apply in_map. exact Ho'. }
  match goal with
  | |- (if ?c then _ else _) = _ =>
      change c with
        (existsb (fun o0 => same_pair (lo cur (id o0)) (hi cur (id o0)) x) done)
  end.
  rewrite Hd. reflexivity.
Qed.

Lemma has_record_same_keys cur (l l' : list ProductSimilarity) o :
  map key l' = map key l -> has_record cur l' o = has_record cur l o.
Proof. intros Hk. unfold has_record. apply existsb_same_keys. exact Hk. Qed.

Lemma processed_same_keys cur (l l' : list ProductSimilarity) others :
  map key l' = map key l -> processed cur l' others = processed cur l others.
Proof.
  intros Hk. induction others as [|o t IH]; simpl; [reflexivity|].
  rewrite (has_record_same_keys cur l l' o Hk), IH. reflexivity.
Qed.

Lemma all_records_same_keys cur (l l' : list ProductSimilarity) others :
  map key l' = map key l ->
  forallb (has_record cur l') others = forallb (has_record cur l) others.
Proof.
  intros Hk. induction others as [|o t IH]; simpl; [reflexivity|].
  rewrite (has_record_same_keys cur l l' o Hk), IH. reflexivity.
Qed.

(** The loop over the unclicked products: every product before the first
    one without a record has its record decreased once; the loop stops
    with [Http404] at that product, and what was written stays. *)
Lemma decrease_all_spec cur others :
  forall db, consistent db -> NoDup (map id others) ->
  UpdateSimilarityView.decrease_all cur others db =
  (if forallb (has_record (id cur) (similarities db)) others
   then Return tt else Raise Http404,
   set_similarities db
     (decreased (id cur) (processed (id cur) (similarities db) others) (similarities db))
     (similarity_seq db)).
Proof.
  induction others as [|o t IH]; intros db C Hnd.
  - simpl. rewrite decreased_nil, set_similarities_same. reflexivity.
  - cbn [UpdateSimilarityView.decrease_all forallb processed map].
    inversion Hnd as [|? ? Hnotin Hnd']; subst.
    pose proof (adjust_spec dec db cur o C) as Hstep.
    unfold has_record at 1 3. rewrite find_existsb.
    destruct (find _ _) as [r|] eqn:E.
    + rewrite (bind_Return _ _ _ tt _ Hstep).
      set (l1 := adjust (lo (id cur) (id o)) (hi (id cur) (id o)) dec (similarities db)).
      assert (Hk : map key l1 = map key (similarities db)) by apply adjust_keys.
      assert (C1 : consistent (set_similarities db l1 (similarity_seq db))).
      { apply (consistent_same_keys db); auto. simpl. lia. }
      rewrite (IH _ C1 Hnd'). simpl similarities. simpl similarity_seq.
      rewrite (all_records_same_keys _ _ _ _ Hk), (processed_same_keys _ _ _ _ Hk).
      cbn [andb]. f_equal. unfold l1. rewrite decreased_cons; [reflexivity|].
      intros Hin. apply Hnotin. apply in_map_iff in Hin. destruct Hin as [o' [Hid Ho']].
      rewrite <- Hid. apply in_map. apply (processed_incl _ _ _ _ Ho').
    + rewrite (bind_Raise _ _ _ _ _ Hstep). cbn [andb].
      rewrite decreased_nil, set_similarities_same. reflexivity.
Qed.

Lemma pk_in_NoDup db other_ids :
  consistent db -> NoDup (map id (UpdateSimilarityView.pk_in other_ids db)).
Proof.
  intros C. unfold UpdateSimilarityView.pk_in.
  pose proof (unique_ids db C) as H. unfold ids in H.
  induction (products db) as [|p t IH]; simpl; [constructor|].
  inversion H as [|? ? Hnotin Hnd]; subst.
  destruct (existsb _ other_ids); simpl; auto.
  constructor; auto. intros Hin. apply Hnotin.
  apply in_map_iff in Hin. destruct Hin as [q [Hq Hin]].
  apply filter_In in Hin. rewrite <- Hq. apply in_map. tauto.
Qed.

Lemma pk_in_iff db other_ids o :
  In o (UpdateSimilarityView.pk_in other_ids db)
  <-> In o (products db) /\ In (id o) other_ids.
Proof.
  unfold UpdateSimilarityView.pk_in. rewrite filter_In, existsb_exists.
  split; intros [H1 H2]; split; auto.
  - destruct H2 as [i [Hi He]]. apply Z.eqb_eq in He. rewrite He. exact Hi.
  - exists (id o). split; [exact H2 | apply Z.eqb_refl].
Qed.

(** The whole view on a consistent database. *)
Lemma post_spec db cur clicked other_ids :
  consistent db -> In cur (products db) -> In clicked (products db) ->
  UpdateSimilarityView.post (feedback (id cur) (id clicked) other_ids) db =
  match find (same_pair (lo (id cur) (id clicked)) (hi (id cur) (id clicked)))
             (similarities db) with
  | None => (Raise Http404, db)
  | Some _ =>
      let others := UpdateSimilarityView.pk_in other_ids db in
      (if forallb (has_record (id cur) (similarities db)) others
       then Return (mkResponse tt 204) else Raise Http404,
       set_similarities db
         (decreased (id cur) (processed (id cur) (similarities db) others)
            (adjust (lo (id cur) (id clicked)) (hi (id cur) (id clicked)) inc
               (similarities db)))
         (similarity_seq db))
  end.
Proof.
  intros C Hcur Hclk. unfold UpdateSimilarityView.post, feedback.
  cbn [current_product_id clicked_product_id other_product_ids Product_get_pk].
  rewrite (bind_Return _ _ _ _ _ (Product_get_found db cur C Hcur)).
  rewrite (bind_Return _ _ _ _ _ (Product_get_found db clicked C Hclk)).
  pose proof (adjust_spec inc db cur clicked C) as Hstep.
  destruct (find _ _) as [r|] eqn:E.
  - rewrite (bind_Return _ _ _ tt _ Hstep).
    set (l1 := adjust (lo (id cur) (id clicked)) (hi (id cur) (id clicked)) inc
                 (similarities db)).
    assert (Hk : map key l1 = map key (similarities db)) by apply adjust_keys.
    assert (C1 : consistent (set_similarities db l1 (similarity_seq db))).
    { apply (consistent_same_keys db); auto. simpl. lia. }
    unfold bind at 1. unfold read at 1.
    change (UpdateSimilarityView.pk_in other_ids (set_similarities db l1 (similarity_seq db)))
      with (UpdateSimilarityView.pk_in other_ids db).
    unfold bind.
    rewrite (decrease_all_spec cur _ _ C1 (pk_in_NoDup db other_ids C)).
    simpl similarities. simpl similarity_seq.
    rewrite (all_records_same_keys _ _ _ _ Hk), (processed_same_keys _ _ _ _ Hk).
    cbv zeta. destruct (forallb _ _); reflexivity.
  - apply (bind_Raise _ _ _ _ _ Hstep).
Qed.

(** ** Scores after a feedback call *)

Lemma decreased_keys cur done l : map key (decreased cur done l) = map key l.
Proof.
  unfold decreased. rewrite map_map. apply map_ext. intros x.
  destruct (is_done cur done x); reflexivity.
Qed.

Lemma score_of_find a b db s :
  score_of a b db = Some s <->
  exists r, find (same_pair a b) (similarities db) = Some r /\ score r = s.
Proof.
  unfold score_of. destruct (find _ _) as [r|]; simpl; split.
  - intros H. inversion H. eauto.
  - intros [r' [H1 H2]]. inversion H1. subst. reflexivity.
  - discriminate.
  - intros [r' [H1 _]]. discriminate.
Qed.

Lemma score_of_final db cur l h done a b q :
  score_of a b
    (set_similarities db (decreased cur done (adjust l h inc (similarities db))) q)
  = option_map
      (fun x => let y := if same_pair l h x then inc (score x) else score x in
                if is_done cur done x then dec y else y)
      (find (same_pair a b) (similarities db)).
Proof.
  unfold score_of, decreased, adjust. simpl. rewrite map_map, find_map_key.
  - destruct (find _ _) as [x|]; simpl; [|reflexivity]. f_equal.
    destruct (same_pair l h x); destruct (is_done cur done x) eqn:E;
      unfold is_done, same_pair in *; simpl; rewrite ?E; reflexivity.
  - intros x. destruct (same_pair l h x);
      match goal with |- context [if ?c then _ else _] => destruct c end; reflexivity.
Qed.

Lemma is_done_iff cur done x :
  is_done cur done x = true <->
  exists o, In o done /\ pair_of x = (lo cur (id o), hi cur (id o)).
Proof.
  unfold is_done. rewrite existsb_exists.
  split; intros [o [H1 H2]]; exists o; split; auto; apply same_pair_iff; exact H2.
Qed.

Lemma processed_all cur l others :
  forallb (has_record cur l) others = true -> processed cur l others = others.
Proof.
  induction others as [|o t IH]; simpl; [reflexivity|].
  intros H. apply andb_prop in H. destruct H as [H1 H2].
  rewrite H1, IH; auto.
Qed.

Lemma inc_bounds s : (0 <= s -> 0 <= inc s /\ inc s <= 1)%Q.
Proof.
  intros H. unfold inc, Py.min, Py.ltb.
  destruct (Qle_bool (s + 0.1) 1.0) eqn:E; simpl.
  - apply Qle_bool_iff in E. split; lra.
  - split; lra.
Qed.

Lemma dec_bounds s : (s <= 1 -> 0 <= dec s /\ dec s <= 1)%Q.
Proof.
  intros H. unfold dec, Py.max, Py.ltb.
  destruct (Qle_bool 0.0 (s - 0.05)) eqn:E; simpl.
  - apply Qle_bool_iff in E. split; lra.
  - split; lra.
Qed.

Lemma all_records db cur other_ids :
  (forall o, In o (products db) -> In (id o) other_ids ->
             score_of (lo (id cur) (id o)) (hi (id cur) (id o)) db <> None) ->
  forallb (has_record (id cur) (similarities db))
          (UpdateSimilarityView.pk_in other_ids db) = true.
Proof.
  intros H. apply forallb_forall. intros o Ho. apply pk_in_iff in Ho.
  destruct Ho as [Ho Hin]. specialize (H o Ho Hin).
  unfold has_record. rewrite find_existsb. unfold score_of in H.
  destruct (find _ _); [reflexivity | exfalso; apply H; reflexivity].
Qed.

(** A call whose records all exist answers 204; its writes are the
    increase of the clicked pair followed by one decrease per unclicked
    product. *)
Lemma post_ok db cur clicked other_ids s :
  consistent db -> In cur (products db) -> In clicked (products db) ->
  score_of (lo (id cur) (id clicked)) (hi (id cur) (id clicked)) db = Some s ->
  (forall o, In o (products db) -> In (id o) other_ids ->
             score_of (lo (id cur) (id o)) (hi (id cur) (id o)) db <> None) ->
  UpdateSimilarityView.post (feedback (id cur) (id clicked) other_ids) db =
  (Return (mkResponse tt 204),
   set_similarities db
     (decreased (id cur) (UpdateSimilarityView.pk_in other_ids db)
        (adjust (lo (id cur) (id clicked)) (hi (id cur) (id clicked)) inc
           (similarities db)))
     (similarity_seq db)).
Proof.
  intros C Hcur Hclk Hs Hall. rewrite (post_spec db cur clicked other_ids C Hcur Hclk).
  apply score_of_find in Hs. destruct Hs as [r [Hr _]]. rewrite Hr. cbv zeta.
  pose proof (all_records db cur other_ids Hall) as Hf.
  rewrite Hf, (processed_all _ _ _ Hf). reflexivity.
Qed.

(** The record of the pair [(cur, o)] is among the decreased ones exactly
    when [o] is one of the unclicked products. *)
Lemma is_done_pk_in db cur o other_ids r :
  In o (products db) ->
  pair_of r = (lo (id cur) (id o), hi (id cur) (id o)) ->
  is_done (id cur) (UpdateSimilarityView.pk_in other_ids db) r = true
  <-> In (id o) other_ids.
Proof.
  intros Ho Hr. rewrite is_done_iff. split.
  - intros [o' [Ho' Hp]]. apply pk_in_iff in Ho'. rewrite Hr in Hp.
    injection Hp as H1 H2. rewrite (lo_hi_inj _ _ _ H1 H2). tauto.
  - intros Hin. exists o. split; [apply pk_in_iff; auto | exact Hr].
Qed.

Lemma is_done_incl cur done done' x :
  (forall o, In o done -> In o done') ->
  is_done cur done x = true -> is_done cur done' x = true.
Proof.
  intros Hincl. rewrite !is_done_iff. intros [o [H1 H2]]. exists o. auto.
Qed.

Lemma same_pair_refl r : same_pair (product_a r) (product_b r) r = true.
Proof. unfold same_pair. rewrite !Z.eqb_refl. reflexivity. Qed.

Lemma found_pair a b l r : find (same_pair a b) l = Some r -> pair_of r = (a, b).
Proof. intros H. apply find_some in H. apply same_pair_iff. tauto. Qed.

(** The final score of the clicked pair and of an unclicked pair. *)
Lemma final_clicked db cur clicked other_ids s q :
  In clicked (products db) ->
  score_of (lo (id cur) (id clicked)) (hi (id cur) (id clicked)) db = Some s ->
  score_of (lo (id cur) (id clicked)) (hi (id cur) (id clicked))
    (set_similarities db
       (decreased (id cur) (UpdateSimilarityView.pk_in other_ids db)
          (adjust (lo (id cur) (id clicked)) (hi (id cur) (id clicked)) inc
             (similarities db))) q)
  = Some (if existsb (Z.eqb (id clicked)) other_ids then dec (inc s) else inc s).
Proof.
  intros Hclk Hs. rewrite score_of_final.
  apply score_of_find in Hs. destruct Hs as [r [Hr <-]]. rewrite Hr. simpl.
  pose proof (found_pair _ _ _ _ Hr) as Hp.
  rewrite (proj2 (same_pair_iff _ _ r) Hp).
  pose proof (is_done_pk_in db cur clicked other_ids r Hclk Hp) as Hd.
  destruct (existsb (Z.eqb (id clicked)) other_ids) eqn:E.
  - rewrite (proj2 Hd); [reflexivity|].
    apply existsb_exists in E. destruct E as [i [Hi He]].
    apply Z.eqb_eq in He. rewrite He. exact Hi.
  - destruct (is_done _ _ r) eqn:E'; [|reflexivity].
    exfalso. pose proof (proj1 Hd eq_refl) as Hin.
    rewrite existsb_false in E. specialize (E _ Hin). rewrite Z.eqb_refl in E. discriminate.
Qed.

Lemma final_unclicked db cur clicked o other_ids so q :
  In o (products db) -> In (id o) other_ids -> id o <> id clicked ->
  score_of (lo (id cur) (id o)) (hi (id cur) (id o)) db = Some so ->
  score_of (lo (id cur) (id o)) (hi (id cur) (id o))
    (set_similarities db
       (decreased (id cur) (UpdateSimilarityView.pk_in other_ids db)
          (adjust (lo (id cur) (id clicked)) (hi (id cur) (id clicked)) inc
             (similarities db))) q)
  = Some (dec so).
Proof.
  intros Ho Hin Hne Hs. rewrite score_of_final.
  apply score_of_find in Hs. destruct Hs as [r [Hr <-]]. rewrite Hr. simpl.
  pose proof (found_pair _ _ _ _ Hr) as Hp.
  rewrite (proj2 (is_done_pk_in db cur o other_ids r Ho Hp) Hin).
  destruct (same_pair _ _ r) eqn:E; [|reflexivity].
  exfalso. apply same_pair_iff in E. rewrite Hp in E. injection E as H1 H2.
  apply Hne. apply (lo_hi_inj _ _ _ H1 H2).
Qed.

Lemma final_bounds cur done l h l0 :
  (forall r, In r l0 -> 0 <= score r /\ score r <= 1)%Q ->
  (forall r, In r (decreased cur done (adjust l h inc l0)) ->
             0 <= score r /\ score r <= 1)%Q.
Proof.
  intros H r Hr. unfold decreased, adjust in Hr. rewrite map_map in Hr.
  apply in_map_iff in Hr. destruct Hr as [x [<- Hx]]. specialize (H x Hx).
  destruct (same_pair l h x); destruct (is_done _ _ _); simpl; auto.
  - apply dec_bounds. apply inc_bounds. tauto.
  - apply inc_bounds. tauto.
  - apply dec_bounds. tauto.
Qed.

Lemma existsb_eqb_In i l : existsb (Z.eqb i) l = true <-> In i l.
Proof.
  rewrite existsb_exists. split.
  - intros [j [Hj He]]. apply Z.eqb_eq in He. rewrite He. exact Hj.
  - intros H. exists i. split; [exact H | apply Z.eqb_refl].
Qed.

(** The unclicked identifiers only matter through the products they select. *)
Lemma pk_in_ext db l l' :
  (forall p, In p (products db) -> (In (id p) l <-> In (id p) l')) ->
  UpdateSimilarityView.pk_in l db = UpdateSimilarityView.pk_in l' db.
Proof.
  intros H. unfold UpdateSimilarityView.pk_in. apply filter_ext_in. intros p Hp.
  specialize (H p Hp). rewrite <- !existsb_eqb_In in H.
  destruct (existsb (Z.eqb (id p)) l), (existsb (Z.eqb (id p)) l'); auto.
  - symmetry. apply H. reflexivity.
  - apply H. reflexivity.
Qed.

Ltac sample_db := apply consistentb_sound; vm_compute; reflexivity.

Ltac sample_in := simpl; repeat (first [left; reflexivity | right]).

(** C1. A feedback call whose pair records all exist answers 204 and
    leaves the record of (current, clicked) at [min(score + 0.1, 1.0)] and
    the record of (current, o), for every unclicked product [o], at
    [max(score - 0.05, 0.0)] (when the clicked product is also listed as
    unclicked, its record goes through both adjustments in that order);
    a clicked score of 0.95 becomes exactly 1.0; and scores that were
    within [0, 1] before the call are within [0, 1] after it. *)
Theorem feedback_adjusts_scores db cur clicked other_ids s :
  consistent db -> In cur (products db) -> In clicked (products db) ->
  score_of (lo (id cur) (id clicked)) (hi (id cur) (id clicked)) db = Some s ->
  (forall o, In o (products db) -> In (id o) other_ids ->
             score_of (lo (id cur) (id o)) (hi (id cur) (id o)) db <> None) ->
  exists db',
    UpdateSimilarityView.post (feedback (id cur) (id clicked) other_ids) db
    = (Return (mkResponse tt 204), db')
    /\ (~ In (id clicked) other_ids ->
        score_of (lo (id cur) (id clicked)) (hi (id cur) (id clicked)) db'
        = Some (Py.min (s + 0.1) 1.0))
    /\ (In (id clicked) other_ids ->
        score_of (lo (id cur) (id clicked)) (hi (id cur) (id clicked)) db'
        = Some (Py.max (Py.min (s + 0.1) 1.0 - 0.05) 0.0))
    /\ (forall o so,
          In o (products db) -> In (id o) other_ids -> id o <> id clicked ->
          score_of (lo (id cur) (id o)) (hi (id cur) (id o)) db = Some so ->
          score_of (lo (id cur) (id o)) (hi (id cur) (id o)) db'
          = Some (Py.max (so - 0.05) 0.0))
    /\ (s = 0.95%Q -> ~ In (id clicked) other_ids ->
        score_of (lo (id cur) (id clicked)) (hi (id cur) (id clicked)) db'
        = Some 1.0%Q)
    /\ ((forall r, In r (similarities db) -> 0 <= score r /\ score r <= 1)%Q ->
        (forall r, In r (similarities db') -> 0 <= score r /\ score r <= 1)%Q).
Proof.
  intros C Hcur Hclk Hs Hall. eexists. split.
  { apply (post_ok db cur clicked other_ids s); assumption. }
  pose proof (final_clicked db cur clicked other_ids s (similarity_seq db) Hclk Hs) as Hc.
  assert (Hno : ~ In (id clicked) other_ids ->
                existsb (Z.eqb (id clicked)) other_ids = false).
  { intros Hn. destruct (existsb _ _) eqn:E; [|reflexivity].
    apply existsb_eqb_In in E. contradiction. }
  repeat split.
  - intros Hn. rewrite Hc, (Hno Hn). reflexivity.
  - intros Hin. rewrite Hc, (proj2 (existsb_eqb_In _ _) Hin). reflexivity.
  - intros o so Ho Hin Hne Hso. apply (final_unclicked db cur clicked o); assumption.
  - intros -> Hn. rewrite Hc, (Hno Hn). reflexivity.
  - apply (final_bounds _ _ _ _ _ H r H0).
  - apply (final_bounds _ _ _ _ _ H r H0).
Qed.

Lemma feedback_adjusts_scores_witness :
  exists db',
    UpdateSimilarityView.post (feedback 1 2 [3; 4]) shop = (Return (mkResponse tt 204), db')
    /\ score_of 1 2 shop = Some 0.95%Q
    /\ score_of 1 2 db' = Some 1.0%Q
    /\ score_of 1 3 db' = Some (Py.max (0.5 - 0.05) 0.0).
Proof.
  destruct (feedback_adjusts_scores shop (sample_product 1) (sample_product 2) [3; 4] 0.95)
    as [db' [Hpost [_ [_ [Hothers [Hcap _]]]]]].
  - sample_db.
  - sample_in.
  - sample_in.
  - reflexivity.
  - intros o Ho Hin. simpl in Ho.
    repeat (destruct Ho as [<-|Ho]; [try discriminate; simpl in Hin; lia|]).
    contradiction.
  - exists db'. split; [exact Hpost|]. split; [reflexivity|]. split.
    + apply Hcap; [reflexivity | simpl; lia].
    + apply (Hothers (sample_product 3) 0.5%Q); [sample_in | simpl; lia | discriminate | reflexivity].
Defined.

(** C4, as stated, fails: in [sparse_shop] the pair (1, 2) has a record
    and the pair (1, 3) has none; the call with clicked product 2 and
    unclicked product 3 raises [Http404], and the increase of the pair
    (1, 2) stays written. *)
Lemma feedback_partial_application :
  exists db',
    UpdateSimilarityView.post (feedback 1 2 [3]) sparse_shop = (Raise Http404, db')
    /\ score_of 1 3 sparse_shop = None
    /\ score_of 1 2 sparse_shop = Some 0.5%Q
    /\ score_of 1 2 db' = Some (Py.min (0.5 + 0.1) 1.0)
    /\ score_of 1 2 db' <> score_of 1 2 sparse_shop.
Proof.
  eexists. split; [vm_compute; reflexivity|].
  repeat split; try reflexivity. discriminate.
Qed.

(** C4, amended. Every adjustment looks its record up and never creates
    one: whatever the outcome, the call leaves the products and the keys
    and pairs of the records as they were. A missing record raises
    [Http404], and the call is not atomic: when the record of the clicked
    pair is missing nothing is written; when that record exists and the
    record of some unclicked product is missing, the call raises
    [Http404] and the increase of the clicked pair stays written. *)
Theorem feedback_missing_record db cur clicked other_ids :
  consistent db -> In cur (products db) -> In clicked (products db) ->
  let call := UpdateSimilarityView.post (feedback (id cur) (id clicked) other_ids) db in
  (products (snd call) = products db
   /\ map key (similarities (snd call)) = map key (similarities db))
  /\ (score_of (lo (id cur) (id clicked)) (hi (id cur) (id clicked)) db = None ->
      call = (Raise Http404, db))
  /\ (forall s o,
        score_of (lo (id cur) (id clicked)) (hi (id cur) (id clicked)) db = Some s ->
        ~ In (id clicked) other_ids ->
        In o (products db) -> In (id o) other_ids ->
        score_of (lo (id cur) (id o)) (hi (id cur) (id o)) db = None ->
        fst call = Raise Http404
        /\ score_of (lo (id cur) (id clicked)) (hi (id cur) (id clicked)) (snd call)
           = Some (Py.min (s + 0.1) 1.0)).
Proof.
  intros C Hcur Hclk call. unfold call.
  rewrite (post_spec db cur clicked other_ids C Hcur Hclk).
  unfold score_of at 1 2.
  destruct (find _ _) as [r|] eqn:E; cbv zeta.
  - split; [|split].
    + simpl. rewrite decreased_keys, adjust_keys. auto.
    + discriminate.
    + simpl fst. simpl snd. intros s o Hs Hn Ho Hin Hnone.
      injection Hs as <-. split.
      * assert (Hf : forallb (has_record (id cur) (similarities db))
                       (UpdateSimilarityView.pk_in other_ids db) = false).
        { destruct (forallb _ _) eqn:F; [|reflexivity].
          rewrite forallb_forall in F.
          specialize (F o (proj2 (pk_in_iff db other_ids o) (conj Ho Hin))).
          unfold has_record in F. rewrite find_existsb in F.
          unfold score_of in Hnone.
          destruct (find (same_pair (lo (id cur) (id o)) (hi (id cur) (id o)))
                         (similarities db));
            [discriminate Hnone | discriminate F]. }
        rewrite Hf. reflexivity.
      * rewrite score_of_final, E. simpl.
        pose proof (found_pair _ _ _ _ E) as Hp.
        rewrite (proj2 (same_pair_iff _ _ r) Hp).
        destruct (is_done _ _ r) eqn:D; [|reflexivity].
        exfalso. apply Hn.
        apply (is_done_incl _ _ (UpdateSimilarityView.pk_in other_ids db)) in D.
        -- apply (is_done_pk_in db cur clicked other_ids r Hclk Hp). exact D.
        -- apply processed_incl.
  - split; [|split]; auto. intros s o Hs. discriminate.
Qed.

Lemma feedback_missing_record_witness :
  fst (UpdateSimilarityView.post (feedback 1 2 [3]) sparse_shop) = Raise Http404
  /\ score_of 1 2 (snd (UpdateSimilarityView.post (feedback 1 2 [3]) sparse_shop))
     = Some (Py.min (0.5 + 0.1) 1.0).
Proof.
  refine (proj2 (proj2 (feedback_missing_record sparse_shop (sample_product 1)
                          (sample_product 2) [3] _ _ _))
                0.5%Q (sample_product 3) _ _ _ _ _).
  - sample_db.
  - sample_in.
  - sample_in.
  - reflexivity.
  - simpl. lia.
  - sample_in.
  - sample_in.
  - reflexivity.
Defined.

(** A pair that is neither the clicked one nor the pair of a selected
    unclicked product keeps its score. *)
Lemma final_untouched db cur l h done other_ids a b q :
  (forall o, In o done -> In o (UpdateSimilarityView.pk_in other_ids db)) ->
  (a, b) <> (l, h) ->
  (forall o, In o (products db) -> In (id o) other_ids ->
             (a, b) <> (lo (id cur) (id o), hi (id cur) (id o))) ->
  score_of a b
    (set_similarities db (decreased (id cur) done (adjust l h inc (similarities db))) q)
  = score_of a b db.
Proof.
  intros Hdone Hnc Hno. rewrite score_of_final. unfold score_of.
  destruct (find (same_pair a b) (similarities db)) as [x|] eqn:E; [|reflexivity].
  simpl. f_equal. pose proof (found_pair _ _ _ _ E) as Hp.
  destruct (same_pair l h x) eqn:E1.
  { exfalso. apply Hnc. apply same_pair_iff in E1. congruence. }
  destruct (is_done (id cur) done x) eqn:E2; [|reflexivity].
  exfalso. apply is_done_iff in E2. destruct E2 as [o [Ho Hpo]].
  apply Hdone, pk_in_iff in Ho. destruct Ho as [Ho Hin].
  apply (Hno o Ho Hin). congruence.
Qed.

(** C10. The unclicked identifiers select products. Repeating
    identifiers already listed ([dups]) and adding identifiers of no
    product ([missing]) never changes what the call does, whatever its
    outcome. When the records of the call exist, the call with such a
    list answers 204 (no error, also when the list holds unknown
    identifiers only); the record of every existing product whose
    identifier occurs in the list, however often, is decreased once; and
    no other pair than the clicked one and those changes its score, so an
    unknown identifier causes no decrement. *)
Theorem unclicked_ids_select_products db cur clicked other_ids dups missing :
  consistent db -> In cur (products db) -> In clicked (products db) ->
  (forall i, In i dups -> In i other_ids) ->
  (forall i, In i missing -> ~ In i (ids db)) ->
  UpdateSimilarityView.post
    (feedback (id cur) (id clicked) (other_ids ++ dups ++ missing)) db
  = UpdateSimilarityView.post (feedback (id cur) (id clicked) other_ids) db
  /\ forall s,
       score_of (lo (id cur) (id clicked)) (hi (id cur) (id clicked)) db = Some s ->
       (forall p, In p (products db) -> In (id p) other_ids ->
                  score_of (lo (id cur) (id p)) (hi (id cur) (id p)) db <> None) ->
       exists db',
         UpdateSimilarityView.post
           (feedback (id cur) (id clicked) (other_ids ++ dups ++ missing)) db
         = (Return (mkResponse tt 204), db')
         /\ UpdateSimilarityView.post (feedback (id cur) (id clicked) other_ids) db
            = (Return (mkResponse tt 204), db')
         /\ (forall o so,
               In o (products db) -> In (id o) (other_ids ++ dups ++ missing) ->
               id o <> id clicked ->
               score_of (lo (id cur) (id o)) (hi (id cur) (id o)) db = Some so ->
               score_of (lo (id cur) (id o)) (hi (id cur) (id o)) db'
               = Some (Py.max (so - 0.05) 0.0))
         /\ (forall a b,
               (a, b) <> (lo (id cur) (id clicked), hi (id cur) (id clicked)) ->
               (forall o, In o (products db) -> In (id o) (other_ids ++ dups ++ missing) ->
                          (a, b) <> (lo (id cur) (id o), hi (id cur) (id o))) ->
               score_of a b db' = score_of a b db).
Proof.
  intros C Hcur Hclk Hdup Hmiss.
  assert (Hlisted : forall p, In p (products db) ->
            (In (id p) (other_ids ++ dups ++ missing) <-> In (id p) other_ids)).
  { intros p Hp. rewrite !in_app_iff. split; [|tauto].
    intros [H|[H|H]]; auto. exfalso. apply (Hmiss _ H). apply in_map. exact Hp. }
  assert (Hext : UpdateSimilarityView.pk_in (other_ids ++ dups ++ missing) db
                 = UpdateSimilarityView.pk_in other_ids db)
    by (apply pk_in_ext; exact Hlisted).
  assert (Hsame : UpdateSimilarityView.post
                    (feedback (id cur) (id clicked) (other_ids ++ dups ++ missing)) db
                  = UpdateSimilarityView.post (feedback (id cur) (id clicked) other_ids) db).
  { rewrite !(post_spec db cur clicked _ C Hcur Hclk), Hext. reflexivity. }
  split; [exact Hsame|].
  intros s Hs Hall. eexists. rewrite Hsame.
  split; [apply (post_ok db cur clicked other_ids s); assumption|].
  split; [apply (post_ok db cur clicked other_ids s); assumption|]. split.
  - intros o so Ho Hin Hne Hso. apply (final_unclicked db cur clicked o); auto.
    apply (Hlisted o Ho). exact Hin.
  - intros a b Hnc Hno. apply (final_untouched db cur _ _ _ other_ids); auto.
    intros o Ho Hin. apply (Hno o Ho). apply (Hlisted o Ho). exact Hin.
Qed.

Lemma unclicked_ids_select_products_witness :
  (exists db',
     UpdateSimilarityView.post (feedback 1 2 ([3; 4] ++ [3; 3] ++ [9; 77])) shop
     = (Return (mkResponse tt 204), db')
     /\ UpdateSimilarityView.post (feedback 1 2 [3; 4]) shop
        = (Return (mkResponse tt 204), db')
     /\ score_of 1 3 db' = Some (Py.max (0.5 - 0.05) 0.0))
  /\ (exists db',
        UpdateSimilarityView.post (feedback 1 2 ([] ++ [] ++ [77])) shop
        = (Return (mkResponse tt 204), db')
        /\ score_of 1 3 db' = score_of 1 3 shop).
Proof.
  split.
  - destruct (proj2 (unclicked_ids_select_products shop (sample_product 1)
                       (sample_product 2) [3; 4] [3; 3] [9; 77]
                       ltac:(sample_db) ltac:(sample_in) ltac:(sample_in)
                       ltac:(simpl; intros i H; lia) ltac:(simpl; intros i H; lia))
                0.95%Q eq_refl) as [db' [H1 [H2 [H3 _]]]].
    + intros p Hp Hin. simpl in Hp.
      repeat (destruct Hp as [<-|Hp]; [try discriminate; simpl in Hin; lia|]).
      contradiction.
    + exists db'. split; [exact H1|]. split; [exact H2|].
      apply (H3 (sample_product 3) 0.5%Q); [sample_in | simpl; lia | discriminate | reflexivity].
  - destruct (proj2 (unclicked_ids_select_products shop (sample_product 1)
                       (sample_product 2) [] [] [77]
                       ltac:(sample_db) ltac:(sample_in) ltac:(sample_in)
                       ltac:(simpl; intros i H; lia) ltac:(simpl; intros i H; lia))
                0.95%Q eq_refl) as [db' [H1 [_ [_ H4]]]].
    + intros p Hp Hin. simpl in Hin. contradiction.
    + exists db'. split; [exact H1|]. apply H4; [discriminate|].
      intros o Ho Hin. simpl in Ho, Hin.
      repeat (destruct Ho as [<-|Ho]; [simpl in Hin; lia|]). contradiction.
Defined.

(** ** The save path *)

Lemma find_unique db r :
  consistent db -> In r (similarities db) ->
  find (same_pair (product_a r) (product_b r)) (similarities db) = Some r.
Proof.
  intros C Hr. destruct (find _ _) as [x|] eqn:E.
  - apply find_some in E. destruct E as [Hx Ex]. f_equal.
    apply (same_pair_unique db (product_a r) (product_b r)); auto.
    apply same_pair_refl.
  - apply (find_none _ _ E) in Hr. rewrite same_pair_refl in Hr. discriminate.
Qed.

(** An instance that [save] returns is oriented and is a row of the table. *)
Lemma Model_save_stored fi r db r' db' :
  Model_save fi r db = (Return r', db') ->
  product_a r' = product_a r /\ product_b r' = product_b r /\ score r' = score r
  /\ In r' (similarities db')
  /\ (forall x, In x (similarities db') -> In x (similarities db) \/ x = r').
Proof.
  unfold Model_save, insert_row, update_row.
  destruct (pk r) as [k|] eqn:Ek.
  - destruct (negb fi && existsb (has_pk k) (similarities db)) eqn:Eu.
    + destruct (_ || _); intros H; inversion H; subst; clear H.
      apply andb_prop in Eu. destruct Eu as [_ Eu].
      apply existsb_exists in Eu. destruct Eu as [x [Hx Ex]].
      repeat split; auto; simpl.
      * apply in_map_iff. exists x. rewrite Ex. auto.
      * intros y Hy. apply in_map_iff in Hy. destruct Hy as [z [Hz Hin]].
        destruct (has_pk k z); subst; auto.
    + destruct (_ || _); intros H; inversion H; subst; clear H.
      repeat split; auto; simpl.
      * apply in_or_app. right. left. reflexivity.
      * intros y Hy. apply in_app_or in Hy. destruct Hy as [Hy|[<-|[]]]; auto.
  - destruct (_ || _); intros H; inversion H; subst; clear H.
    repeat split; auto; simpl.
    + apply in_or_app. right. left. reflexivity.
    + intros y Hy. apply in_app_or in Hy. destruct Hy as [Hy|[<-|[]]]; auto.
Qed.

Lemma save_oriented fi r db r' db' :
  save fi r db = (Return r', db') ->
  product_a r' = Z.min (product_a r) (product_b r)
  /\ product_b r' = Z.max (product_a r) (product_b r)
  /\ score r' = score r
  /\ In r' (similarities db')
  /\ (forall x, In x (similarities db') -> In x (similarities db) \/ x = r').
Proof.
  unfold save. intros H. apply Model_save_stored in H.
  destruct H as [Ha [Hb [Hs [Hin Hothers]]]].
  rewrite Ha, Hb, Hs. rewrite Z.gtb_ltb.
  destruct (Z.ltb_spec (product_b r) (product_a r)); simpl;
    repeat split; auto; lia.
Qed.

(** C8, as stated, fails: saving the record of the pair (1, 2) under the
    score 1.5 succeeds and stores 1.5. *)
Lemma save_stores_out_of_bounds_score :
  exists r db',
    save false (mkSim (Some 1) 1 2 1.5) sparse_shop = (Return r, db')
    /\ score_of 1 2 db' = Some 1.5%Q
    /\ ~ (1.5 <= 1)%Q.
Proof.
  eexists. eexists. split; [vm_compute; reflexivity|].
  split; [reflexivity|]. intros H. unfold Qle in H. simpl in H. lia.
Qed.

(** C8, amended. [save] does not look at the score: saving a stored
    record under any score at all succeeds and stores that score as it is,
    neither rejected nor clamped -- so saving a score within [0, 1]
    succeeds, and so does saving one outside. *)
Theorem save_stores_any_score db r s :
  consistent db -> canonical db -> In r (similarities db) ->
  exists db',
    save false (set_score r s) db = (Return (set_score r s), db')
    /\ score_of (product_a r) (product_b r) db' = Some s
    /\ map key (similarities db') = map key (similarities db).
Proof.
  intros C Hcan Hr.
  assert (Hle : product_a r <= product_b r) by (specialize (Hcan r Hr); lia).
  pose proof (save_adjust db r (fun _ => s) C Hr Hle) as Hsave.
  eexists. split; [exact Hsave|]. split.
  - unfold score_of, adjust. simpl. rewrite find_map_key.
    + rewrite (find_unique db r C Hr). simpl. rewrite same_pair_refl. reflexivity.
    + intros x. destruct (same_pair (product_a r) (product_b r) x) eqn:E;
        exact E.
  - simpl. apply adjust_keys.
Qed.

Lemma save_stores_any_score_witness :
  exists db',
    save false (mkSim (Some 1) 1 2 (-3)) sparse_shop
    = (Return (mkSim (Some 1) 1 2 (-3)), db')
    /\ score_of 1 2 db' = Some (-3)%Q.
Proof.
  destruct (save_stores_any_score sparse_shop (mkSim (Some 1) 1 2 0.5) (-3))
    as [db' [H1 [H2 _]]].
  - sample_db.
  - apply canonicalb_sound. reflexivity.
  - sample_in.
  - exists db'. split; [exact H1 | exact H2].
Defined.

(** ** The initializer, pair by pair *)

Lemma find_app {A} (p : A -> bool) (l l' : list A) :
  find p (l ++ l') = match find p l with Some x => Some x | None => find p l' end.
Proof.
  induction l as [|y t IH]; simpl; [reflexivity|].
  destruct (p y); [reflexivity | exact IH].
Qed.

Lemma handle_loop_cons p q rest t c db :
  Command.handle_loop ((p, q) :: rest) t c db =
  bind (Similarity_get_or_create (lo (id p) (id q)) (hi (id p) (id q)) 0.5)
       (fun oc => Command.handle_loop rest (t + 1)
                    (if snd oc then c + 1 else c)) db.
Proof.
  cbn [Command.handle_loop]. unfold lo, hi.
  destruct (Z.ltb_spec (id p) (id q)).
  - rewrite Z.min_l, Z.max_r by lia. unfold bind.
    destruct (Similarity_get_or_create _ _ _ db) as [[[obj created]|e] db1]; reflexivity.
  - rewrite Z.min_r, Z.max_l by lia. unfold bind.
    destruct (Similarity_get_or_create _ _ _ db) as [[[obj created]|e] db1]; reflexivity.
Qed.

Lemma lo_lt_hi i j : i <> j -> lo i j < hi i j.
Proof. unfold lo, hi. lia. Qed.

Lemma lo_hi_in db i j : In i (ids db) -> In j (ids db) ->
  In (lo i j) (ids db) /\ In (hi i j) (ids db).
Proof.
  unfold lo, hi. intros Hi Hj.
  destruct (Z.le_ge_cases i j).
  - rewrite Z.min_l, Z.max_r by lia. auto.
  - rewrite Z.min_r, Z.max_l by lia. auto.
Qed.

(** What one run of the loop does, whatever its outcome: it only appends
    records, at the default score, for pairs of the list that had none. *)
Lemma handle_loop_appends ps :
  forall db t c, consistent db -> canonical db -> pairs_ok db ps ->
  exists new,
    similarities (snd (Command.handle_loop ps t c db)) = similarities db ++ new
    /\ products (snd (Command.handle_loop ps t c db)) = products db
    /\ product_seq (snd (Command.handle_loop ps t c db)) = product_seq db
    /\ consistent (snd (Command.handle_loop ps t c db))
    /\ canonical (snd (Command.handle_loop ps t c db))
    /\ (forall x, In x new ->
          score x = 0.5%Q
          /\ find (same_pair (product_a x) (product_b x)) (similarities db) = None
          /\ In (pair_of x) (map norm ps))
    /\ (forall t' c', fst (Command.handle_loop ps t c db) = Return (t', c') ->
          t' = t + Z.of_nat (List.length ps) /\ c' = c + Z.of_nat (List.length new)).
Proof.
  induction ps as [|[p q] rest IH]; intros db t c C Hcan Hok.
  - exists []. simpl. rewrite app_nil_r.
    do 5 (split; [solve [auto]|]). split.
    + intros x [].
    + intros t' c' H. inversion H. split; lia.
  - rewrite handle_loop_cons.
    destruct (Hok (p, q) (or_introl eq_refl)) as [Hp [Hq Hne]]. simpl in Hp, Hq, Hne.
    destruct (lo_hi_in db _ _ Hp Hq) as [Hlo Hhi].
    pose proof (lo_le_hi (id p) (id q)) as Hle.
    pose proof (get_or_create_spec db _ _ 0.5 C Hle Hlo Hhi) as Hg.
    assert (Hok' : pairs_ok db rest) by (intros pq Hpq; apply Hok; right; exact Hpq).
    destruct (find (same_pair (lo (id p) (id q)) (hi (id p) (id q))) (similarities db))
      as [r|] eqn:E; [destruct (Qeq_bool (score r) 0.5) eqn:Es|].
    + rewrite (bind_Return _ _ _ _ _ Hg). cbn [snd].
      destruct (IH db (t + 1) c C Hcan Hok') as [new [H1 [H2 [H3 [H4 [H5 [H6 H7]]]]]]].
      exists new. do 5 (split; [solve [auto]|]). split.
      * intros x H. destruct (H6 x H) as [Ha [Hb Hc]].
        split; [exact Ha|]. split; [exact Hb|]. right. exact Hc.
      * intros t' c' H. destruct (H7 _ _ H). simpl List.length.
        rewrite Nat2Z.inj_succ. split; lia.
    + rewrite (bind_Raise _ _ _ _ _ Hg). exists []. simpl. rewrite app_nil_r.
      do 5 (split; [solve [auto]|]). split.
      * intros x [].
      * intros t' c' H. discriminate H.
    + rewrite (bind_Return _ _ _ _ _ Hg). cbn [snd].
      set (db1 := add_row db (lo (id p) (id q)) (hi (id p) (id q)) 0.5).
      assert (C1 : consistent db1) by (apply consistent_add_row; auto).
      assert (Hcan1 : canonical db1)
        by (apply canonical_add_row; auto; apply lo_lt_hi; exact Hne).
      destruct (IH db1 (t + 1) (c + 1) C1 Hcan1 Hok')
        as [new [H1 [H2 [H3 [H4 [H5 [H6 H7]]]]]]].
      exists (mkSim (Some (similarity_seq db)) (lo (id p) (id q)) (hi (id p) (id q)) 0.5
              :: new).
      split; [rewrite H1; simpl similarities; rewrite <- app_assoc; reflexivity|].
      do 4 (split; [solve [auto]|]). split.
      * intros x [<-|H]; [split; [reflexivity|]; split; [exact E | left; reflexivity]|].
        destruct (H6 x H) as [Ha [Hb Hc]].
        split; [exact Ha|]. split; [|right; exact Hc].
        simpl in Hb. rewrite find_app in Hb.
        destruct (find (same_pair (product_a x) (product_b x)) (similarities db));
          [discriminate Hb | reflexivity].
      * intros t' c' H. destruct (H7 _ _ H). simpl List.length.
        rewrite !Nat2Z.inj_succ. split; lia.
Qed.

Lemma combinations2_in {A} (l : list A) p q :
  In (p, q) (Py.combinations2 l) -> In p l /\ In q l.
Proof.
  induction l as [|x t IH]; simpl; [contradiction|].
  intros H. apply in_app_or in H. destruct H as [H|H].
  - apply in_map_iff in H. destruct H as [y [Hy Hin]]. inversion Hy; subst. auto.
  - destruct (IH H). auto.
Qed.

Lemma combinations2_ids (l : list Product) p q :
  NoDup (map id l) -> In (p, q) (Py.combinations2 l) -> id p <> id q.
Proof.
  induction l as [|x t IH]; simpl; [contradiction|].
  intros Hnd H. inversion Hnd as [|? ? Hnotin Hnd']; subst.
  apply in_app_or in H. destruct H as [H|H]; [|apply IH; assumption].
  apply in_map_iff in H. destruct H as [y [Hy Hin]]. inversion Hy; subst.
  intros Heq. apply Hnotin. rewrite Heq. apply in_map. exact Hin.
Qed.

Lemma combinations2_ok db : consistent db -> pairs_ok db (Py.combinations2 (products db)).
Proof.
  intros C [p q] H. simpl. destruct (combinations2_in _ _ _ H) as [Hp Hq].
  split; [apply in_map; exact Hp|]. split; [apply in_map; exact Hq|].
  apply (combinations2_ids (products db)); [apply (unique_ids db C) | exact H].
Qed.

(** A pair that has a record at the default score is found, not created. *)
Lemma get_or_create_found db a b l new r :
  consistent db -> a <= b -> In a (ids db) -> In b (ids db) ->
  similarities db = l ++ new ->
  find (same_pair a b) l = Some r -> Qeq_bool (score r) 0.5 = true ->
  Similarity_get_or_create a b 0.5 db = (Return (r, false), db).
Proof.
  intros C Hle Ha Hb Hl Hf Hs. rewrite (get_or_create_spec db a b 0.5 C Hle Ha Hb).
  rewrite Hl, find_app, Hf, Hs. reflexivity.
Qed.

(** Running the loop again, from the database the first run left, writes
    nothing: every pair the first run went through is found. *)
Lemma handle_loop_again ps :
  forall db t c, consistent db -> canonical db -> pairs_ok db ps ->
  forall t2 c2,
    snd (Command.handle_loop ps t2 c2 (snd (Command.handle_loop ps t c db)))
    = snd (Command.handle_loop ps t c db)
    /\ (forall t' c', fst (Command.handle_loop ps t c db) = Return (t', c') ->
          fst (Command.handle_loop ps t2 c2 (snd (Command.handle_loop ps t c db)))
          = Return (t2 + Z.of_nat (List.length ps), c2))
    /\ (forall e, fst (Command.handle_loop ps t c db) = Raise e ->
          fst (Command.handle_loop ps t2 c2 (snd (Command.handle_loop ps t c db)))
          = Raise e).
Proof.
  induction ps as [|[p q] rest IH]; intros db t c C Hcan Hok t2 c2.
  - simpl. split; [reflexivity|]. split; [|discriminate].
    intros t' c' _. rewrite Z.add_0_r. reflexivity.
  - rewrite (handle_loop_cons p q rest t c db).
    destruct (Hok (p, q) (or_introl eq_refl)) as [Hp [Hq Hne]]. simpl in Hp, Hq, Hne.
    destruct (lo_hi_in db _ _ Hp Hq) as [Hlo Hhi].
    pose proof (lo_le_hi (id p) (id q)) as Hle.
    pose proof (get_or_create_spec db _ _ 0.5 C Hle Hlo Hhi) as Hg.
    assert (Hok' : pairs_ok db rest) by (intros pq Hpq; apply Hok; right; exact Hpq).
    destruct (find (same_pair (lo (id p) (id q)) (hi (id p) (id q))) (similarities db))
      as [r|] eqn:E; [destruct (Qeq_bool (score r) 0.5) eqn:Es|].
    + rewrite (bind_Return _ _ _ _ _ Hg). cbn [snd].
      destruct (handle_loop_appends rest db (t + 1) c C Hcan Hok')
        as [new [H1 [H2 [_ [H4 _]]]]].
      destruct (IH db (t + 1) c C Hcan Hok' (t2 + 1) c2) as [I1 [I2 I3]].
      set (dbR := snd (Command.handle_loop rest (t + 1) c db)) in *.
      assert (Hids : ids dbR = ids db) by (unfold ids; rewrite H2; reflexivity).
      rewrite (handle_loop_cons p q rest t2 c2 dbR).
      rewrite (bind_Return _ _ _ _ _
                 (get_or_create_found dbR _ _ _ new r H4 Hle
                    ltac:(rewrite Hids; exact Hlo) ltac:(rewrite Hids; exact Hhi) H1 E Es)).
      cbn [snd]. split; [exact I1|]. split; [|exact I3].
      intros t' c' H. rewrite (I2 _ _ H). simpl List.length.
      rewrite Nat2Z.inj_succ. f_equal. f_equal. lia.
    + rewrite (bind_Raise _ _ _ _ _ Hg). cbn [snd fst].
      rewrite (handle_loop_cons p q rest t2 c2 db), (bind_Raise _ _ _ _ _ Hg).
      split; [reflexivity|]. split; [discriminate|]. intros e He. exact He.
    + rewrite (bind_Return _ _ _ _ _ Hg). cbn [snd].
      set (row := mkSim (Some (similarity_seq db)) (lo (id p) (id q)) (hi (id p) (id q)) 0.5).
      set (db1 := add_row db (lo (id p) (id q)) (hi (id p) (id q)) 0.5).
      assert (C1 : consistent db1) by (apply consistent_add_row; auto).
      assert (Hcan1 : canonical db1)
        by (apply canonical_add_row; auto; apply lo_lt_hi; exact Hne).
      destruct (handle_loop_appends rest db1 (t + 1) (c + 1) C1 Hcan1 Hok')
        as [new [H1 [H2 [_ [H4 _]]]]].
      destruct (IH db1 (t + 1) (c + 1) C1 Hcan1 Hok' (t2 + 1) c2) as [I1 [I2 I3]].
      set (dbR := snd (Command.handle_loop rest (t + 1) (c + 1) db1)) in *.
      assert (Hids : ids dbR = ids db) by (unfold ids; rewrite H2; reflexivity).
      assert (Hrow : find (same_pair (lo (id p) (id q)) (hi (id p) (id q)))
                       (similarities db1) = Some row).
      { simpl. rewrite find_app, E. simpl. unfold same_pair. simpl.
        rewrite !Z.eqb_refl. reflexivity. }
      rewrite (handle_loop_cons p q rest t2 c2 dbR).
      rewrite (bind_Return _ _ _ _ _
                 (get_or_create_found dbR _ _ _ new row H4 Hle
                    ltac:(rewrite Hids; exact Hlo) ltac:(rewrite Hids; exact Hhi)
                    H1 Hrow eq_refl)).
      cbn [snd]. split; [exact I1|]. split; [|exact I3].
      intros t' c' H. rewrite (I2 _ _ H). simpl List.length.
      rewrite Nat2Z.inj_succ. f_equal. f_equal. lia.
Qed.

Lemma norm_sym p q : norm (q, p) = norm (p, q).
Proof. unfold norm, lo, hi. simpl. rewrite Z.min_comm, Z.max_comm. reflexivity. Qed.

Lemma combinations2_complete {A} (l : list A) p q :
  In p l -> In q l -> p <> q ->
  In (p, q) (Py.combinations2 l) \/ In (q, p) (Py.combinations2 l).
Proof.
  induction l as [|x t IH]; simpl; [contradiction|].
  intros [->|Hp] [->|Hq] Hne.
  - contradiction.
  - left. apply in_or_app. left. apply in_map. exact Hq.
  - right. apply in_or_app. left. apply in_map. exact Hp.
  - destruct (IH Hp Hq Hne); [left | right]; apply in_or_app; right; assumption.
Qed.

(** A run that completes leaves a record for every pair it went through. *)
Lemma handle_loop_fills ps :
  forall db t c, consistent db -> canonical db -> pairs_ok db ps ->
  forall t' c', fst (Command.handle_loop ps t c db) = Return (t', c') ->
  forall pq, In pq ps ->
    find (same_pair (fst (norm pq)) (snd (norm pq)))
         (similarities (snd (Command.handle_loop ps t c db))) <> None.
Proof.
  induction ps as [|[p q] rest IH]; intros db t c C Hcan Hok t' c' Hret pq Hpq;
    [contradiction|].
  rewrite handle_loop_cons in Hret |- *.
  destruct (Hok (p, q) (or_introl eq_refl)) as [Hp [Hq Hne]]. simpl in Hp, Hq, Hne.
  destruct (lo_hi_in db _ _ Hp Hq) as [Hlo Hhi].
  pose proof (get_or_create_spec db _ _ 0.5 C (lo_le_hi _ _) Hlo Hhi) as Hg.
  assert (Hok' : pairs_ok db rest) by (intros x Hx; apply Hok; right; exact Hx).
  destruct (find (same_pair (lo (id p) (id q)) (hi (id p) (id q))) (similarities db))
    as [r|] eqn:E; [destruct (Qeq_bool (score r) 0.5) eqn:Es|].
  - rewrite (bind_Return _ _ _ _ _ Hg) in Hret |- *. cbn [snd] in Hret |- *.
    destruct Hpq as [<-|Hpq]; [|apply (IH db (t + 1) c C Hcan Hok' t' c' Hret pq Hpq)].
    destruct (handle_loop_appends rest db (t + 1) c C Hcan Hok') as [new [H1 _]].
    rewrite H1, find_app. cbn [norm fst snd]. rewrite E. discriminate.
  - rewrite (bind_Raise _ _ _ _ _ Hg) in Hret. discriminate Hret.
  - rewrite (bind_Return _ _ _ _ _ Hg) in Hret |- *. cbn [snd] in Hret |- *.
    set (db1 := add_row db (lo (id p) (id q)) (hi (id p) (id q)) 0.5) in *.
    assert (C1 : consistent db1) by (apply consistent_add_row; auto).
    assert (Hcan1 : canonical db1)
      by (apply canonical_add_row; auto; apply lo_lt_hi; exact Hne).
    destruct Hpq as [<-|Hpq];
      [|apply (IH db1 (t + 1) (c + 1) C1 Hcan1 Hok' t' c' Hret pq Hpq)].
    destruct (handle_loop_appends rest db1 (t + 1) (c + 1) C1 Hcan1 Hok') as [new [H1 _]].
    rewrite H1, find_app. cbn [norm fst snd]. unfold db1 at 1. simpl similarities.
    rewrite find_app, E. cbn [find]. unfold same_pair. cbn [product_a product_b].
    rewrite !Z.eqb_refl. discriminate.
Qed.

Lemma handle_unfold db :
  Command.handle db = Command.handle_loop (Py.combinations2 (products db)) 0 0 db.
Proof. reflexivity. Qed.

(** C3. Re-running the initializer: whatever the records and scores in
    the catalog, a run only appends records (the existing ones, scores
    included, stay as they are), the appended ones are at the default
    score and are for pairs that had no record, and no pair has two
    records afterwards; a run that completes leaves a record for every
    two distinct products; a second run in a row leaves the database
    exactly as the first left it, and when the first run reports
    [(total, created)] the second reports [(total, 0)]. (A run stops with
    [IntegrityError] at a pair whose record has another score than the
    default; the second run then stops at the same pair, having written
    nothing.) *)
Theorem init_similarities_idempotent db :
  consistent db -> canonical db ->
  let first := Command.handle db in
  let second := Command.handle (snd first) in
  (exists new,
     similarities (snd first) = similarities db ++ new
     /\ (forall x, In x new ->
           score x = 0.5%Q /\ score_of (product_a x) (product_b x) db = None))
  /\ NoDup (map pair_of (similarities (snd first)))
  /\ canonical (snd first)
  /\ (forall t c, fst first = Return (t, c) ->
        forall p q, In p (products db) -> In q (products db) -> id p <> id q ->
        score_of (lo (id p) (id q)) (hi (id p) (id q)) (snd first) <> None)
  /\ snd second = snd first
  /\ (forall t c, fst first = Return (t, c) -> fst second = Return (t, 0))
  /\ (forall e, fst first = Raise e -> fst second = Raise e).
Proof.
  intros C Hcan first second.
  pose proof (combinations2_ok db C) as Hok.
  destruct (handle_loop_appends _ db 0 0 C Hcan Hok)
    as [new [H1 [H2 [_ [H4 [H5 [H6 H7]]]]]]].
  destruct (handle_loop_again _ db 0 0 C Hcan Hok 0 0) as [I1 [I2 I3]].
  pose proof (handle_loop_fills _ db 0 0 C Hcan Hok) as Hfill.
  assert (Hsecond : second
            = Command.handle_loop (Py.combinations2 (products db)) 0 0 (snd first)).
  { unfold second. rewrite handle_unfold. unfold first. rewrite handle_unfold, H2.
    reflexivity. }
  rewrite Hsecond. unfold first. rewrite handle_unfold.
  split; [|split; [|split; [|split; [|split; [|split]]]]].
  - exists new. split; [exact H1|]. intros x Hx. destruct (H6 x Hx) as [Ha [Hb _]].
    split; [exact Ha|]. unfold score_of. rewrite Hb. reflexivity.
  - apply (unique_together _ H4).
  - exact H5.
  - intros t c Hret p q Hp Hq Hne.
    assert (Hpq : p <> q) by (intros ->; apply Hne; reflexivity).
    assert (Hfind : find (same_pair (lo (id p) (id q)) (hi (id p) (id q)))
                      (similarities
                         (snd (Command.handle_loop (Py.combinations2 (products db))
                                 0 0 db))) <> None).
    { destruct (combinations2_complete (products db) p q Hp Hq Hpq) as [H|H].
      - apply (Hfill t c Hret (p, q) H).
      - pose proof (Hfill t c Hret (q, p) H) as Hf. rewrite norm_sym in Hf. exact Hf. }
    unfold score_of. destruct (find _ _); [discriminate | contradiction].
  - exact I1.
  - intros t c H. rewrite (I2 t c H). destruct (H7 t c H) as [-> _]. reflexivity.
  - exact I3.
Qed.

Lemma init_similarities_idempotent_witness :
  snd (Command.handle (snd (Command.handle sparse_shop))) = snd (Command.handle sparse_shop)
  /\ fst (Command.handle sparse_shop) = Return (3, 2)
  /\ fst (Command.handle (snd (Command.handle sparse_shop))) = Return (3, 0)
  /\ snd (Command.handle (snd (Command.handle shop))) = snd (Command.handle shop)
  /\ fst (Command.handle (snd (Command.handle shop))) = Raise IntegrityError.
Proof.
  destruct (init_similarities_idempotent sparse_shop) as [_ [_ [_ [_ [H1 [H2 _]]]]]].
  - sample_db.
  - apply canonicalb_sound. reflexivity.
  - destruct (init_similarities_idempotent shop) as [_ [_ [_ [_ [H3 [_ H4]]]]]].
    + sample_db.
    + apply canonicalb_sound. reflexivity.
    + split; [exact H1|]. split; [reflexivity|]. split; [apply (H2 3 2); reflexivity|].
      split; [exact H3|]. apply H4. reflexivity.
Defined.

(** ** A first run on a catalog without records *)

Lemma rows_length ps k s : List.length (rows ps k s) = List.length ps.
Proof.
  revert k. induction ps as [|[a b] t IH]; intros k; simpl; [reflexivity|].
  rewrite IH. reflexivity.
Qed.

Lemma rows_find ps k s a b :
  In (a, b) ps -> exists r, find (same_pair a b) (rows ps k s) = Some r /\ score r = s.
Proof.
  revert k. induction ps as [|[a' b'] t IH]; intros k; simpl; [contradiction|].
  intros H. destruct (same_pair a b (mkSim (Some k) a' b' s)) eqn:E.
  - eexists. split; reflexivity.
  - destruct H as [H|H]; [|apply IH; exact H].
    inversion H; subst. unfold same_pair in E. simpl in E.
    rewrite !Z.eqb_refl in E. discriminate.
Qed.

Lemma combinations2_length {A} (l : list A) :
  2 * Z.of_nat (List.length (Py.combinations2 l))
  = Z.of_nat (List.length l) * (Z.of_nat (List.length l) - 1).
Proof.
  induction l as [|x t IH]; [reflexivity|].
  cbn [Py.combinations2 List.length].
  rewrite length_app, length_map, Nat2Z.inj_add, Nat2Z.inj_succ. nia.
Qed.

Lemma combinations2_count {A} (l : list A) :
  Z.of_nat (List.length l) * (Z.of_nat (List.length l) - 1) / 2
  = Z.of_nat (List.length (Py.combinations2 l)).
Proof.
  rewrite <- combinations2_length, Z.mul_comm. apply Z.div_mul. lia.
Qed.

(** Every unordered pair of distinct products occurs once. *)
Lemma combinations2_NoDup (l : list Product) :
  NoDup (map id l) -> NoDup (map norm (Py.combinations2 l)).
Proof.
  induction l as [|x t IH]; simpl; intros Hnd; [constructor|].
  inversion Hnd as [|? ? Hnotin Hnd']; subst.
  rewrite map_app, map_map. apply NoDup_app.
  - apply Finite.Injective_map_NoDup_in; [|apply (NoDup_map_inv id); exact Hnd'].
    intros y y' Hy Hy' Heq. unfold norm in Heq. simpl in Heq. injection Heq as H1 H2.
    apply (NoDup_map_inj id t); auto. apply (lo_hi_inj _ _ _ H1 H2).
  - apply IH. exact Hnd'.
  - intros ab H1 H2. apply in_map_iff in H1. destruct H1 as [y [<- Hy]].
    apply in_map_iff in H2. destruct H2 as [[p q] [Heq Hpq]].
    destruct (combinations2_in _ _ _ Hpq) as [Hp Hq].
    apply (in_map id) in Hp, Hq.
    unfold norm, lo, hi in Heq. simpl in Heq. injection Heq as H1 H2.
    assert (id x = id p \/ id x = id q) as [E|E] by lia; rewrite E in Hnotin; contradiction.
Qed.

(** Pairs without a record are all created, in order. *)
Lemma handle_loop_fresh ps :
  forall db t c, consistent db -> pairs_ok db ps -> NoDup (map norm ps) ->
  (forall pq, In pq ps ->
     find (same_pair (fst (norm pq)) (snd (norm pq))) (similarities db) = None) ->
  Command.handle_loop ps t c db =
  (Return (t + Z.of_nat (List.length ps), c + Z.of_nat (List.length ps)),
   set_similarities db
     (similarities db ++ rows (map norm ps) (similarity_seq db) 0.5)
     (similarity_seq db + Z.of_nat (List.length ps))).
Proof.
  induction ps as [|[p q] rest IH]; intros db t c C Hok Hnd Hfresh.
  - simpl. rewrite app_nil_r, !Z.add_0_r, set_similarities_same. reflexivity.
  - rewrite handle_loop_cons.
    destruct (Hok (p, q) (or_introl eq_refl)) as [Hp [Hq Hne]]. simpl in Hp, Hq, Hne.
    destruct (lo_hi_in db _ _ Hp Hq) as [Hlo Hhi].
    pose proof (lo_le_hi (id p) (id q)) as Hle.
    pose proof (get_or_create_spec db _ _ 0.5 C Hle Hlo Hhi) as Hg.
    pose proof (Hfresh (p, q) (or_introl eq_refl)) as E. simpl in E.
    rewrite E in Hg. rewrite (bind_Return _ _ _ _ _ Hg). cbn [snd].
    inversion Hnd as [|? ? Hnotin Hnd']; subst.
    rewrite IH; auto.
    + simpl List.length. rewrite Nat2Z.inj_succ. unfold add_row, set_similarities.
      simpl. rewrite <- app_assoc. simpl.
      f_equal; [f_equal; f_equal; lia | f_equal; lia].
    + apply consistent_add_row; auto.
    + intros pq Hpq. apply Hok. right. exact Hpq.
    + intros pq Hpq. unfold add_row, set_similarities. cbn [similarities].
      rewrite find_app, (Hfresh pq (or_intror Hpq)). cbn [find].
      destruct (same_pair _ _ _) eqn:Es; [|reflexivity].
      exfalso. apply Hnotin. apply same_pair_iff in Es. unfold pair_of in Es.
      cbn [product_a product_b] in Es.
      assert (Hn : norm pq = norm (p, q))
        by (rewrite (surjective_pairing (norm pq)); symmetry; exact Es).
      rewrite <- Hn. apply in_map. exact Hpq.
Qed.

(** C6. On a catalog of N products without records, the initializer
    reports N(N-1)/2 pairs processed and N(N-1)/2 records created, and
    leaves exactly that many records: each at the default score 0.5, each
    between two products of the catalog with [product_a < product_b] (no
    self-pair), no pair twice, and one for every two distinct products. *)
Theorem init_similarities_complete db :
  consistent db -> similarities db = [] ->
  let N := Z.of_nat (List.length (products db)) in
  exists db',
    Command.handle db = (Return (N * (N - 1) / 2, N * (N - 1) / 2), db')
    /\ Z.of_nat (List.length (similarities db')) = N * (N - 1) / 2
    /\ (forall r, In r (similarities db') ->
          score r = 0.5%Q /\ product_a r < product_b r
          /\ In (product_a r) (ids db) /\ In (product_b r) (ids db))
    /\ NoDup (map pair_of (similarities db'))
    /\ (forall p q, In p (products db) -> In q (products db) -> id p <> id q ->
          score_of (lo (id p) (id q)) (hi (id p) (id q)) db' = Some 0.5%Q).
Proof.
  intros C Hempty N.
  pose proof (combinations2_ok db C) as Hok.
  assert (Hcan : canonical db) by (intros r Hr; rewrite Hempty in Hr; contradiction).
  pose proof (combinations2_NoDup (products db) (unique_ids db C)) as Hnd.
  assert (Hfresh : forall pq, In pq (Py.combinations2 (products db)) ->
            find (same_pair (fst (norm pq)) (snd (norm pq))) (similarities db) = None)
    by (intros pq _; rewrite Hempty; reflexivity).
  pose proof (handle_loop_fresh _ db 0 0 C Hok Hnd Hfresh) as Hrun.
  destruct (handle_loop_appends _ db 0 0 C Hcan Hok)
    as [new [H1 [H2 [_ [H4 [H5 [H6 _]]]]]]].
  rewrite Hrun in H1, H2, H4, H5. cbn [snd] in H1, H2, H4, H5.
  set (db' := set_similarities db
                (similarities db ++
                 rows (map norm (Py.combinations2 (products db))) (similarity_seq db) 0.5)
                (similarity_seq db
                 + Z.of_nat (List.length (Py.combinations2 (products db))))) in *.
  exists db'. rewrite handle_unfold. split.
  { rewrite Hrun. unfold N. rewrite combinations2_count. reflexivity. }
  assert (Hrows : similarities db'
                  = rows (map norm (Py.combinations2 (products db))) (similarity_seq db) 0.5)
    by (unfold db'; simpl; rewrite Hempty; reflexivity).
  split; [|split; [|split]].
  - rewrite Hrows, rows_length, length_map.
    unfold N. rewrite combinations2_count. reflexivity.
  - intros r Hr. split; [|split; [apply (H5 r Hr) | apply (foreign_keys _ H4 r Hr)]].
    rewrite H1, Hempty in Hr. apply (H6 r Hr).
  - apply (unique_together _ H4).
  - intros p q Hp Hq Hne. unfold score_of. rewrite Hrows.
    assert (Hin : In (lo (id p) (id q), hi (id p) (id q))
                     (map norm (Py.combinations2 (products db)))).
    { assert (Hpq : p <> q) by (intros ->; apply Hne; reflexivity).
      destruct (combinations2_complete (products db) p q Hp Hq Hpq) as [H|H].
      - apply (in_map norm) in H. exact H.
      - apply (in_map norm) in H. rewrite norm_sym in H. exact H. }
    destruct (rows_find _ (similarity_seq db) 0.5%Q _ _ Hin) as [r [Hf Hs]].
    rewrite Hf. simpl. rewrite Hs. reflexivity.
Qed.

Lemma init_similarities_complete_witness :
  exists db',
    Command.handle new_shop = (Return (6, 6), db')
    /\ Z.of_nat (List.length (similarities db')) = 6
    /\ score_of 1 3 db' = Some 0.5%Q
    /\ score_of 2 4 db' = Some 0.5%Q.
Proof.
  destruct (init_similarities_complete new_shop) as [db' [H1 [H2 [_ [_ H5]]]]].
  - sample_db.
  - reflexivity.
  - exists db'. split; [exact H1|]. split; [exact H2|]. split.
    + apply (H5 (sample_product 3) (sample_product 1)); [sample_in | sample_in | discriminate].
    + apply (H5 (sample_product 4) (sample_product 2)); [sample_in | sample_in | discriminate].
Defined.

(** ** A failing creation *)

Lemma handle_loop_app ps1 ps2 :
  forall db t c,
  Command.handle_loop (ps1 ++ ps2) t c db =
  bind (Command.handle_loop ps1 t c)
       (fun tc => Command.handle_loop ps2 (fst tc) (snd tc)) db.
Proof.
  induction ps1 as [|[p q] rest IH]; intros db t c.
  - reflexivity.
  - rewrite <- app_comm_cons, handle_loop_cons. unfold bind.
    rewrite handle_loop_cons. unfold bind.
    destruct (Similarity_get_or_create _ _ _ db) as [[oc|e] db1]; [|reflexivity].
    rewrite IH. reflexivity.
Qed.

Lemma find_none_all {A} (p : A -> bool) (l : list A) :
  (forall x, In x l -> p x = false) -> find p l = None.
Proof.
  induction l as [|y t IH]; simpl; intros H; [reflexivity|].
  rewrite (H y) by auto. apply IH. intros x Hx. apply H. auto.
Qed.

Lemma NoDup_app_disjoint {A} (l1 l2 : list A) x :
  NoDup (l1 ++ l2) -> In x l1 -> In x l2 -> False.
Proof.
  induction l1 as [|a t IH]; simpl; intros Hnd H1 H2; [contradiction|].
  inversion Hnd as [|? ? Hnotin Hnd']; subst.
  destruct H1 as [->|H1]; [|apply IH; assumption].
  apply Hnotin. apply in_or_app. right. exact H2.
Qed.

(** With every stored score at the default, no creation fails. *)
Lemma handle_loop_all_default ps :
  forall db t c, consistent db -> canonical db -> pairs_ok db ps ->
  (forall r, In r (similarities db) -> Qeq_bool (score r) 0.5 = true) ->
  exists c' db',
    Command.handle_loop ps t c db = (Return (t + Z.of_nat (List.length ps), c'), db').
Proof.
  induction ps as [|[p q] rest IH]; intros db t c C Hcan Hok Hdef.
  - exists c, db. simpl. rewrite Z.add_0_r. reflexivity.
  - rewrite handle_loop_cons.
    destruct (Hok (p, q) (or_introl eq_refl)) as [Hp [Hq Hne]]. simpl in Hp, Hq, Hne.
    destruct (lo_hi_in db _ _ Hp Hq) as [Hlo Hhi].
    pose proof (lo_le_hi (id p) (id q)) as Hle.
    pose proof (get_or_create_spec db _ _ 0.5 C Hle Hlo Hhi) as Hg.
    assert (Hok' : pairs_ok db rest) by (intros pq Hpq; apply Hok; right; exact Hpq).
    simpl List.length. rewrite Nat2Z.inj_succ.
    replace (t + Z.succ (Z.of_nat (List.length rest)))
      with (t + 1 + Z.of_nat (List.length rest)) by lia.
    destruct (find (same_pair (lo (id p) (id q)) (hi (id p) (id q))) (similarities db))
      as [r|] eqn:E.
    + apply find_some in E. destruct E as [Hr _]. rewrite (Hdef r Hr) in Hg.
      rewrite (bind_Return _ _ _ _ _ Hg). cbn [snd]. apply IH; auto.
    + rewrite (bind_Return _ _ _ _ _ Hg). cbn [snd]. apply IH; auto.
      * apply consistent_add_row; auto.
      * apply canonical_add_row; auto. apply lo_lt_hi. exact Hne.
      * intros r Hr. simpl in Hr. apply in_app_or in Hr.
        destruct Hr as [Hr|[<-|[]]]; [apply Hdef; exact Hr | reflexivity].
Qed.

(** C9, as stated, fails: in [drifted_shop] the creation for the pair
    (1, 2) fails, the run stops there with [IntegrityError] and no
    counts, and the pairs (1, 3) and (2, 3) are left without a record. *)
Lemma init_similarities_aborts :
  exists db',
    Command.handle drifted_shop = (Raise IntegrityError, db')
    /\ score_of 1 3 db' = None
    /\ score_of 2 3 db' = None.
Proof. eexists. split; [vm_compute; reflexivity|]. split; reflexivity. Qed.

(** C9, amended. A failing creation aborts the run at that pair: when
    the pairs before [(p, q)] went through and the creation for [(p, q)]
    raises [e], the command raises [e], reports nothing, keeps what the
    earlier pairs wrote, and creates no record for a later pair that had
    none. When every stored score is the default, no creation fails: all
    pairs are processed and the counts are reported. *)
Theorem init_similarities_stops_at_failure db ps1 p q ps2 t c db1 e :
  consistent db -> canonical db ->
  Py.combinations2 (products db) = ps1 ++ (p, q) :: ps2 ->
  Command.handle_loop ps1 0 0 db = (Return (t, c), db1) ->
  fst (Similarity_get_or_create (lo (id p) (id q)) (hi (id p) (id q)) 0.5 db1) = Raise e ->
  Command.handle db = (Raise e, db1)
  /\ (forall pq, In pq ps2 ->
        score_of (fst (norm pq)) (snd (norm pq)) db = None ->
        score_of (fst (norm pq)) (snd (norm pq)) db1 = None)
  /\ forall db0,
       consistent db0 -> canonical db0 ->
       (forall r, In r (similarities db0) -> Qeq_bool (score r) 0.5 = true) ->
       exists created db',
         Command.handle db0
         = (Return (Z.of_nat (List.length (Py.combinations2 (products db0))), created), db').
Proof.
  intros C Hcan Hps Hrun Hfail.
  pose proof (combinations2_ok db C) as Hok. rewrite Hps in Hok.
  assert (Hok1 : pairs_ok db ps1)
    by (intros pq Hpq; apply Hok; apply in_or_app; left; exact Hpq).
  destruct (handle_loop_appends ps1 db 0 0 C Hcan Hok1)
    as [new [H1 [H2 [_ [H4 [_ [H6 _]]]]]]].
  rewrite Hrun in H1, H2, H4. cbn [snd] in H1, H2, H4.
  assert (Hids : ids db1 = ids db) by (unfold ids; rewrite H2; reflexivity).
  assert (Hmid : In (p, q) (ps1 ++ (p, q) :: ps2))
    by (apply in_or_app; right; left; reflexivity).
  destruct (Hok (p, q) Hmid) as [Hp [Hq Hne]].
  simpl in Hp, Hq, Hne. rewrite <- Hids in Hp, Hq.
  destruct (lo_hi_in db1 _ _ Hp Hq) as [Hlo Hhi].
  pose proof (get_or_create_spec db1 _ _ 0.5 H4 (lo_le_hi _ _) Hlo Hhi) as Hg.
  assert (Hg' : Similarity_get_or_create (lo (id p) (id q)) (hi (id p) (id q)) 0.5 db1
                = (Raise e, db1)).
  { rewrite Hg in Hfail |- *.
    destruct (find _ _) as [r|]; [destruct (Qeq_bool (score r) 0.5)|];
      simpl in Hfail; try discriminate Hfail.
    inversion Hfail. reflexivity. }
  split; [|split].
  - rewrite handle_unfold, Hps, handle_loop_app.
    rewrite (bind_Return _ _ _ _ _ Hrun). cbn [fst snd].
    rewrite handle_loop_cons. apply (bind_Raise _ _ _ _ _ Hg').
  - intros pq Hpq. unfold score_of. rewrite H1, find_app.
    destruct (find _ (similarities db)); [discriminate|]. intros _.
    rewrite find_none_all; [reflexivity|]. intros x Hx.
    destruct (same_pair _ _ x) eqn:Es; [|reflexivity]. exfalso.
    destruct (H6 x Hx) as [_ [_ Hin]].
    apply same_pair_iff in Es. rewrite Es, <- surjective_pairing in Hin.
    pose proof (combinations2_NoDup (products db) (unique_ids db C)) as Hnd.
    rewrite Hps, map_app in Hnd.
    apply (NoDup_app_disjoint _ _ (norm pq) Hnd Hin). apply in_map. right. exact Hpq.
  - intros db0 C0 Hcan0 Hdef.
    destruct (handle_loop_all_default _ db0 0 0 C0 Hcan0 (combinations2_ok db0 C0) Hdef)
      as [c' [db' H]].
    exists c', db'. rewrite handle_unfold, H. reflexivity.
Qed.

Lemma init_similarities_stops_at_failure_witness :
  Command.handle drifted_shop = (Raise IntegrityError, drifted_shop)
  /\ exists created db', Command.handle sparse_shop = (Return (3, created), db').
Proof.
  destruct (init_similarities_stops_at_failure drifted_shop []
              (sample_product 1) (sample_product 2)
              [(sample_product 1, sample_product 3); (sample_product 2, sample_product 3)]
              0 0 drifted_shop IntegrityError) as [H1 [_ H3]].
  - sample_db.
  - apply canonicalb_sound. reflexivity.
  - reflexivity.
  - reflexivity.
  - reflexivity.
  - split; [exact H1|]. apply (H3 sparse_shop).
    + sample_db.
    + apply canonicalb_sound. reflexivity.
    + intros r [<-|[]]. reflexivity.
Defined.

(** ** Linking a new product *)

Lemma rows_in ps k s r : In r (rows ps k s) -> score r = s /\ In (pair_of r) ps.
Proof.
  revert k. induction ps as [|[a b] t IH]; intros k; simpl; [contradiction|].
  intros [<-|H]; [split; [reflexivity | left; reflexivity]|].
  destruct (IH _ H). auto.
Qed.

Lemma link_all_cons new_product o rest db :
  CreateProductView.link_all new_product (o :: rest) db =
  bind (Similarity_create (lo (id new_product) (id o)) (hi (id new_product) (id o)) 0.5)
       (fun _ => CreateProductView.link_all new_product rest) db.
Proof.
  cbn [CreateProductView.link_all]. unfold lo, hi.
  destruct (Z.ltb_spec (id new_product) (id o)).
  - rewrite Z.min_l, Z.max_r by lia. reflexivity.
  - rewrite Z.min_r, Z.max_l by lia. reflexivity.
Qed.

Lemma link_all_fresh new_product others :
  forall db, consistent db -> In (id new_product) (ids db) ->
  (forall o, In o others -> In (id o) (ids db)) ->
  NoDup (map id others) ->
  (forall o, In o others ->
     find (same_pair (lo (id new_product) (id o)) (hi (id new_product) (id o)))
          (similarities db) = None) ->
  CreateProductView.link_all new_product others db =
  (Return tt,
   set_similarities db
     (similarities db ++ rows (links new_product others) (similarity_seq db) 0.5)
     (similarity_seq db + Z.of_nat (List.length others))).
Proof.
  induction others as [|o rest IH]; intros db C Hnew Hin Hnd Hfresh.
  - simpl. rewrite app_nil_r, Z.add_0_r, set_similarities_same. reflexivity.
  - rewrite link_all_cons.
    assert (Ho : In (id o) (ids db)) by (apply Hin; left; reflexivity).
    destruct (lo_hi_in db _ _ Hnew Ho) as [Hlo Hhi].
    pose proof (Similarity_create_spec db _ _ 0.5 C (lo_le_hi _ _) Hlo Hhi) as Hc.
    rewrite (Hfresh o (or_introl eq_refl)) in Hc.
    rewrite (bind_Return _ _ _ _ _ Hc).
    inversion Hnd as [|? ? Hnotin Hnd']; subst.
    rewrite IH; auto.
    + simpl List.length. rewrite Nat2Z.inj_succ. unfold add_row, set_similarities.
      simpl. rewrite <- app_assoc. simpl.
      f_equal. f_equal. lia.
    + apply consistent_add_row; auto. apply Hfresh. left. reflexivity.
    + intros o' Ho'. apply Hin. right. exact Ho'.
    + intros o' Ho'. unfold add_row, set_similarities. cbn [similarities].
      rewrite find_app, (Hfresh o' (or_intror Ho')). cbn [find].
      destruct (same_pair _ _ _) eqn:Es; [|reflexivity].
      exfalso. apply Hnotin. apply same_pair_iff in Es. unfold pair_of in Es.
      cbn [product_a product_b] in Es. injection Es as H1 H2.
      rewrite (lo_hi_inj _ _ _ H1 H2). apply in_map. exact Ho'.
Qed.

Lemma serializer_create_consistent db d :
  consistent db -> consistent (snd (serializer_create d db)).
Proof.
  intros C. constructor; simpl.
  - unfold ids. simpl. rewrite map_app. simpl. apply NoDup_snoc; [apply (unique_ids db C)|].
    intros H. apply (ids_below_seq db C) in H. lia.
  - unfold ids. simpl. rewrite map_app. simpl. intros i Hi. apply in_app_or in Hi.
    destruct Hi as [Hi|[<-|[]]]; [apply (ids_below_seq db C) in Hi|]; lia.
  - apply (keys_set db C).
  - apply (unique_pks db C).
  - intros r Hr. unfold ids. simpl. rewrite map_app.
    destruct (foreign_keys db C r Hr). split; apply in_or_app; left; assumption.
  - apply (unique_together db C).
Qed.

Lemma exclude_new db d :
  consistent db ->
  CreateProductView.exclude (product_seq db) (snd (serializer_create d db)) = products db.
Proof.
  intros C. unfold CreateProductView.exclude. simpl. rewrite filter_app. simpl.
  rewrite Z.eqb_refl. simpl. rewrite app_nil_r.
  pose proof (ids_below_seq db C) as H. unfold ids in H.
  induction (products db) as [|p t IH]; simpl; [reflexivity|].
  assert (Hp : id p < product_seq db) by (apply H; left; reflexivity).
  replace (id p =? product_seq db) with false by (symmetry; apply Z.eqb_neq; lia).
  simpl. f_equal. apply IH. intros i Hi. apply H. right. exact Hi.
Qed.

(** No record mentions an identifier the sequence has not given out. *)
Lemma unused_id_fresh db a b :
  consistent db -> product_seq db <= b -> find (same_pair a b) (similarities db) = None.
Proof.
  intros C Hb. apply find_none_all. intros x Hx.
  destruct (same_pair a b x) eqn:E; [|reflexivity]. exfalso.
  apply same_pair_iff in E. injection E as _ E2.
  destruct (foreign_keys db C x Hx) as [_ H]. rewrite E2 in H.
  apply (ids_below_seq db C) in H. lia.
Qed.

(** The whole creation view, when the payload is valid. *)
Lemma create_post_spec is_valid request db :
  consistent db -> is_valid request db = true ->
  let new_product :=
    {| id := product_seq db; name := d_name request;
       description := d_description request; category := d_category request;
       tags := d_tags request |} in
  CreateProductView.post is_valid request db =
  (Return (mkResponse (Some new_product) 201),
   {| products := products db ++ [new_product];
      similarities := similarities db
                      ++ rows (links new_product (products db)) (similarity_seq db) 0.5;
      product_seq := product_seq db + 1;
      similarity_seq := similarity_seq db + Z.of_nat (List.length (products db)) |}).
Proof.
  intros C Hvalid new_product.
  pose proof (serializer_create_consistent db request C) as C1.
  pose proof (exclude_new db request C) as Hex.
  assert (Hlink := link_all_fresh new_product (products db)
                     (snd (serializer_create request db)) C1).
  unfold CreateProductView.post, bind, read. rewrite Hvalid.
  change (serializer_create request db)
    with (Return new_product, snd (serializer_create request db)).
  cbv beta iota. change (id new_product) with (product_seq db). rewrite Hex.
  rewrite Hlink.
  - reflexivity.
  - unfold ids. simpl. rewrite map_app. apply in_or_app. right. left. reflexivity.
  - intros o Ho. unfold ids. simpl. rewrite map_app. apply in_or_app. left.
    apply in_map. exact Ho.
  - apply (unique_ids db C).
  - intros o Ho. simpl similarities. apply (unused_id_fresh db _ _ C).
    unfold hi. simpl id. lia.
Qed.

Lemma rows_pairs ps k s : map pair_of (rows ps k s) = ps.
Proof.
  revert k. induction ps as [|[a b] t IH]; intros k; simpl; [reflexivity|].
  rewrite IH. reflexivity.
Qed.

Lemma links_NoDup new_product others :
  NoDup (map id others) -> NoDup (links new_product others).
Proof.
  intros H. unfold links.
  rewrite <- (map_map id (fun i => (lo (id new_product) i, hi (id new_product) i))).
  apply Finite.Injective_map_NoDup; [|exact H].
  intros i j Hij. injection Hij as H1 H2. apply (lo_hi_inj _ _ _ H1 H2).
Qed.

(** C7. Creating a product in a catalog of M products (with a valid
    payload) answers 201 and appends exactly M similarity records: one for
    each existing product, in table order, pairing it with the new product
    at the default score 0.5; none pairs the new product with itself, and
    no two are for the same pair. *)
Theorem new_product_linkage is_valid request db :
  consistent db -> is_valid request db = true ->
  exists new_product db' new_rows,
    CreateProductView.post is_valid request db
    = (Return (mkResponse (Some new_product) 201), db')
    /\ products db' = products db ++ [new_product]
    /\ ~ In (id new_product) (ids db)
    /\ similarities db' = similarities db ++ new_rows
    /\ List.length new_rows = List.length (products db)
    /\ map pair_of new_rows = links new_product (products db)
    /\ NoDup (map pair_of new_rows)
    /\ (forall r, In r new_rows ->
          score r = 0.5%Q /\ product_a r < product_b r
          /\ exists o, In o (products db)
                       /\ product_a r = lo (id new_product) (id o)
                       /\ product_b r = hi (id new_product) (id o)).
Proof.
  intros C Hvalid.
  pose proof (create_post_spec is_valid request db C Hvalid) as Hpost.
  cbv zeta in Hpost. eexists. eexists. eexists. split; [exact Hpost|].
  set (new_product := {| id := product_seq db; name := d_name request;
                         description := d_description request;
                         category := d_category request; tags := d_tags request |}).
  assert (Hnew : ~ In (id new_product) (ids db))
    by (intros H; apply (ids_below_seq db C) in H; simpl in H; lia).
  split; [reflexivity|]. split; [exact Hnew|]. split; [reflexivity|].
  split; [rewrite rows_length; unfold links; apply length_map|].
  split; [apply rows_pairs|].
  split; [rewrite rows_pairs; apply links_NoDup; apply (unique_ids db C)|].
  intros r Hr. apply rows_in in Hr. destruct Hr as [Hs Hp].
  split; [exact Hs|]. unfold links in Hp. apply in_map_iff in Hp.
  destruct Hp as [o [Ho Hin]]. unfold pair_of in Ho. injection Ho as Ha Hb.
  split.
  - rewrite <- Ha, <- Hb. apply lo_lt_hi. intros Heq.
    pose proof (ids_below_seq db C _ (in_map id _ _ Hin)) as Hlt.
    simpl in Heq. lia.
  - exists o. auto.
Qed.

Lemma new_product_linkage_witness :
  exists new_product db' new_rows,
    CreateProductView.post (fun _ _ => true) (mkData "lamp" "" 1 []) sparse_shop
    = (Return (mkResponse (Some new_product) 201), db')
    /\ similarities db' = similarities sparse_shop ++ new_rows
    /\ List.length new_rows = 3%nat.
Proof.
  destruct (new_product_linkage (fun _ _ => true) (mkData "lamp" "" 1 []) sparse_shop)
    as [new_product [db' [new_rows [H1 [_ [_ [H4 [H5 _]]]]]]]].
  - sample_db.
  - reflexivity.
  - exists new_product, db', new_rows. auto.
Defined.

(** ** The recommendation selector *)



Lemma insert_desc_perm r l : Permutation (ProductDetailView.insert_desc r l) (r :: l).
Proof.
  induction l as [|x t IH]; simpl; [reflexivity|].
  destruct (Py.ltb (score r) (score x)); [|reflexivity].
  rewrite IH. apply perm_swap.
Qed.

Lemma order_by_perm l : Permutation (ProductDetailView.order_by_score_desc l) l.
Proof.
  induction l as [|x t IH]; simpl; [reflexivity|].
  rewrite insert_desc_perm. constructor. exact IH.
Qed.




Lemma Product_get_id db i :
  consistent db -> In i (ids db) ->
  exists p, In p (products db) /\ id p = i /\ Product_get i db = (Return p, db).
Proof.
  intros C Hi. apply in_map_iff in Hi. destruct Hi as [p [Hp Hin]].
  exists p. split; [exact Hin|]. split; [exact Hp|].
  rewrite <- Hp. apply Product_get_found; assumption.
Qed.

Lemma for_each_related db (f : ProductSimilarity -> Z) l :
  consistent db -> (forall sim, In sim l -> In (f sim) (ids db)) ->
  exists recs,
    for_each (fun sim => related (f sim)) l db = (Return recs, db)
    /\ map id recs = map f l
    /\ forall p, In p recs -> In p (products db).
Proof.
  intros C. induction l as [|sim t IH]; intros Hin.
  - exists []. simpl. split; [reflexivity|]. split; [reflexivity | intros p []].
  - destruct (Product_get_id db (f sim) C (Hin sim (or_introl eq_refl)))
      as [p [Hp [Hid Hget]]].
    destruct (IH (fun s Hs => Hin s (or_intror Hs))) as [recs [H1 [H2 H3]]].
    exists (p :: recs). cbn [for_each]. unfold related at 1.
    rewrite (bind_Return _ _ _ _ _ Hget), (bind_Return _ _ _ _ _ H1).
    split; [reflexivity|]. split; [simpl; rewrite Hid, H2; reflexivity|].
    intros q [<-|Hq]; auto.
Qed.

Lemma involved_in db product r :
  In r (filter (ProductDetailView.involves product) (similarities db)) ->
  In r (similarities db) /\ (product_a r = id product \/ product_b r = id product).
Proof.
  intros H. apply filter_In in H. destruct H as [Hr Hi]. split; [exact Hr|].
  unfold ProductDetailView.involves in Hi. apply orb_prop in Hi.
  destruct Hi as [Hi|Hi]; apply Z.eqb_eq in Hi; auto.
Qed.




(** ** Every operation keeps the constraints and the orientation *)

Lemma get_object_or_404_Product db i :
  (exists p, In p (products db) /\ id p = i
             /\ get_object_or_404 (Product_get i) db = (Return p, db))
  \/ (exists e, get_object_or_404 (Product_get i) db = (Raise e, db)).
Proof.
  unfold get_object_or_404, try_except.
  destruct (Product_get i db) as [o db'] eqn:E.
  destruct (Product_get_inv db i o db' E) as [-> H].
  destruct o as [p|e].
  - left. exists p. destruct (H p eq_refl). auto.
  - right. destruct (exn_eqb DoesNotExist e); eexists; reflexivity.
Qed.

Lemma for_each_readonly db (f : ProductSimilarity -> Z) l :
  snd (for_each (fun sim => related (f sim)) l db) = db.
Proof.
  induction l as [|sim t IH]; [reflexivity|].
  cbn [for_each]. unfold bind at 1. unfold related at 1.
  destruct (Product_get (f sim) db) as [o db'] eqn:E.
  destruct (Product_get_inv db (f sim) o db' E) as [-> _].
  destruct o as [p|e]; [|reflexivity].
  unfold bind. destruct (for_each _ t db) as [[ys|e] db']; simpl in IH |- *; exact IH.
Qed.

Lemma detail_readonly raw pk db : snd (ProductDetailView.get raw pk db) = db.
Proof.
  unfold ProductDetailView.get.
  destruct (get_object_or_404_Product db pk) as [[p [_ [_ H]]]|[e H]].
  - rewrite (bind_Return _ _ _ _ _ H).
    destruct (match raw with Some s => String.eqb s "1" | None => false end);
      [reflexivity|].
    unfold bind at 1. unfold read.
    pose proof (for_each_readonly db (ProductDetailView.other_id p)
                  (ProductDetailView.similarity_objs p db)) as Hr.
    unfold bind.
    destruct (for_each _ _ db) as [[ys|e] db']; simpl in Hr |- *; exact Hr.
  - rewrite (bind_Raise _ _ _ _ _ H). reflexivity.
Qed.

Lemma post_keeps_keys db request :
  consistent db ->
  ids (snd (UpdateSimilarityView.post request db)) = ids db
  /\ product_seq (snd (UpdateSimilarityView.post request db)) = product_seq db
  /\ similarity_seq (snd (UpdateSimilarityView.post request db)) = similarity_seq db
  /\ map key (similarities (snd (UpdateSimilarityView.post request db)))
     = map key (similarities db).
Proof.
  intros C. destruct request as [oc ok others].
  assert (Hunfold : forall c, oc = Some c -> forall e,
            Product_get c db = (Raise e, db) ->
            UpdateSimilarityView.post (mkFeedback oc ok others) db = (Raise e, db)).
  { intros c -> e E. unfold UpdateSimilarityView.post.
    cbn [current_product_id Product_get_pk]. apply (bind_Raise _ _ _ _ _ E). }
  destruct oc as [c|]; [|auto].
  destruct (Product_get c db) as [o db'] eqn:E1.
  destruct (Product_get_inv db c o db' E1) as [-> H1].
  destruct o as [p|e]; [|rewrite (Hunfold c eq_refl e E1); auto].
  destruct (H1 p eq_refl) as [Hp <-]. clear Hunfold.
  assert (Hunfold : forall k, ok = Some k -> forall e,
            Product_get k db = (Raise e, db) ->
            UpdateSimilarityView.post (mkFeedback (Some (id p)) ok others) db
            = (Raise e, db)).
  { intros k -> e E. unfold UpdateSimilarityView.post.
    cbn [current_product_id clicked_product_id Product_get_pk].
    rewrite (bind_Return _ _ _ _ _ E1). apply (bind_Raise _ _ _ _ _ E). }
  destruct ok as [k|].
  - destruct (Product_get k db) as [o db'] eqn:E2.
    destruct (Product_get_inv db k o db' E2) as [-> H2].
    destruct o as [q|e]; [|rewrite (Hunfold k eq_refl e E2); auto].
    destruct (H2 q eq_refl) as [Hq <-].
    change (UpdateSimilarityView.post
              (mkFeedback (Some (id p)) (Some (id q)) others) db)
      with (UpdateSimilarityView.post
              (feedback (id p) (id q) (match others with Some l => l | None => [] end))
              db).
    rewrite (post_spec db p q _ C Hp Hq).
    destruct (find _ _); [|auto]. cbv zeta. cbn [snd].
    simpl. rewrite decreased_keys, adjust_keys. auto.
  - unfold UpdateSimilarityView.post.
    cbn [current_product_id clicked_product_id Product_get_pk].
    rewrite (bind_Return _ _ _ _ _ E1). auto.
Qed.

Lemma invariant_post db request :
  invariant db -> invariant (snd (UpdateSimilarityView.post request db)).
Proof.
  intros [C Hcan]. destruct (post_keeps_keys db request C) as [H1 [H2 [H3 H4]]].
  split.
  - apply (consistent_same_keys db); auto. lia.
  - apply (canonical_same_keys db); auto.
Qed.

Lemma invariant_handle db : invariant db -> invariant (snd (Command.handle db)).
Proof.
  intros [C Hcan]. rewrite handle_unfold.
  destruct (handle_loop_appends _ db 0 0 C Hcan (combinations2_ok db C))
    as [new [_ [_ [_ [H4 [H5 _]]]]]].
  split; assumption.
Qed.

Lemma add_rows_invariant ps s :
  forall db, invariant db -> NoDup ps ->
  (forall ab, In ab ps ->
     In (fst ab) (ids db) /\ In (snd ab) (ids db) /\ fst ab < snd ab
     /\ find (same_pair (fst ab) (snd ab)) (similarities db) = None) ->
  invariant (set_similarities db
               (similarities db ++ rows ps (similarity_seq db) s)
               (similarity_seq db + Z.of_nat (List.length ps))).
Proof.
  induction ps as [|[a b] t IH]; intros db [C Hcan] Hnd Hps.
  - simpl. rewrite app_nil_r, Z.add_0_r, set_similarities_same. split; assumption.
  - inversion Hnd as [|? ? Hnotin Hnd']; subst.
    destruct (Hps (a, b) (or_introl eq_refl)) as [Ha [Hb [Hlt Hnone]]].
    simpl in Ha, Hb, Hlt, Hnone.
    assert (I1 : invariant (add_row db a b s))
      by (split; [apply consistent_add_row | apply canonical_add_row]; auto).
    specialize (IH (add_row db a b s) I1 Hnd').
    replace (set_similarities db
               (similarities db ++ rows ((a, b) :: t) (similarity_seq db) s)
               (similarity_seq db + Z.of_nat (List.length ((a, b) :: t))))
      with (set_similarities (add_row db a b s)
              (similarities (add_row db a b s)
               ++ rows t (similarity_seq (add_row db a b s)) s)
              (similarity_seq (add_row db a b s) + Z.of_nat (List.length t))).
    + apply IH. intros ab Hab.
      destruct (Hps ab (or_intror Hab)) as [Ha' [Hb' [Hlt' Hnone']]].
      split; [exact Ha'|]. split; [exact Hb'|]. split; [exact Hlt'|].
      unfold add_row, set_similarities. cbn [similarities].
      rewrite find_app, Hnone'. cbn [find].
      destruct (same_pair _ _ _) eqn:E; [|reflexivity].
      exfalso. apply Hnotin. apply same_pair_iff in E. unfold pair_of in E.
      cbn [product_a product_b] in E. rewrite E, <- surjective_pairing. exact Hab.
    + unfold add_row, set_similarities. simpl List.length. rewrite Nat2Z.inj_succ.
      simpl. rewrite <- app_assoc. simpl. f_equal. lia.
Qed.

Lemma invariant_create is_valid request db :
  invariant db -> invariant (snd (CreateProductView.post is_valid request db)).
Proof.
  intros [C Hcan]. destruct (is_valid request db) eqn:Hvalid.
  - rewrite (create_post_spec is_valid request db C Hvalid). cbv zeta. cbn [snd].
    set (new_product := {| id := product_seq db; name := d_name request;
                           description := d_description request;
                           category := d_category request; tags := d_tags request |}).
    pose proof (serializer_create_consistent db request C) as C1.
    assert (I1 : invariant (snd (serializer_create request db))) by (split; assumption).
    pose proof (add_rows_invariant (links new_product (products db)) 0.5 _ I1
                  (links_NoDup new_product (products db) (unique_ids db C))) as H.
    unfold links at 3 in H. rewrite length_map in H. apply H.
    intros ab Hab. unfold links in Hab. apply in_map_iff in Hab.
    destruct Hab as [o [<- Ho]]. cbn [fst snd].
    pose proof (ids_below_seq db C _ (in_map id _ _ Ho)) as Hlt.
    assert (Hin : forall i, i = id o \/ i = product_seq db ->
                  In i (ids (snd (serializer_create request db)))).
    { intros i Hi. unfold ids. simpl. rewrite map_app. apply in_or_app. simpl.
      destruct Hi as [->| ->]; [left; apply in_map; exact Ho | right; left; reflexivity]. }
    unfold lo, hi. simpl id.
    rewrite Z.min_r, Z.max_l by lia.
    split; [apply Hin; left; reflexivity|]. split; [apply Hin; right; reflexivity|].
    split; [lia|]. simpl similarities. apply (unused_id_fresh db _ _ C). lia.
  - unfold CreateProductView.post, bind, read. rewrite Hvalid. split; assumption.
Qed.

Lemma invariant_update is_valid request pk db :
  invariant db -> invariant (snd (UpdateProductView.put is_valid request pk db)).
Proof.
  intros [C Hcan]. unfold UpdateProductView.put.
  destruct (get_object_or_404_Product db pk) as [[p [_ [_ H]]]|[e H]].
  - rewrite (bind_Return _ _ _ _ _ H). unfold bind, read.
    destruct (is_valid request db); [|split; assumption].
    unfold serializer_update, ret. cbn [snd]. split.
    + apply (consistent_same_keys db); auto; [|simpl; lia].
      unfold ids. simpl. rewrite map_map. apply map_ext. intros x.
      destruct (Z.eqb_spec (id x) (id p)); simpl; congruence.
    + exact Hcan.
  - rewrite (bind_Raise _ _ _ _ _ H). split; assumption.
Qed.

Lemma NoDup_map_filter {A K} (f : A -> K) (p : A -> bool) (l : list A) :
  NoDup (map f l) -> NoDup (map f (filter p l)).
Proof.
  induction l as [|x t IH]; simpl; intros H; [constructor|].
  inversion H as [|? ? Hnotin Hnd]; subst.
  destruct (p x); simpl; auto. constructor; auto.
  intros Hin. apply Hnotin. apply in_map_iff in Hin. destruct Hin as [y [Hy Hin]].
  apply filter_In in Hin. rewrite <- Hy. apply in_map. tauto.
Qed.

Lemma invariant_delete pk db :
  invariant db -> invariant (snd (DeleteProductView.delete pk db)).
Proof.
  intros [C Hcan]. unfold DeleteProductView.delete.
  destruct (get_object_or_404_Product db pk) as [[p [_ [_ H]]]|[e H]];
    [|rewrite (bind_Raise _ _ _ _ _ H); split; assumption].
  rewrite (bind_Return _ _ _ _ _ H). unfold bind, Product_delete. cbn [snd].
  split; [constructor|]; simpl.
  - unfold ids. simpl. apply NoDup_map_filter. apply (unique_ids db C).
  - unfold ids. simpl. intros i Hi. apply (ids_below_seq db C).
    apply in_map_iff in Hi. destruct Hi as [x [Hx Hin]]. apply filter_In in Hin.
    rewrite <- Hx. apply in_map. tauto.
  - intros r Hr. apply filter_In in Hr. apply (keys_set db C). tauto.
  - apply NoDup_map_filter. apply (unique_pks db C).
  - intros r Hr. apply filter_In in Hr. destruct Hr as [Hr Hne].
    apply negb_true_iff, orb_false_iff in Hne. destruct Hne as [Ha Hb].
    apply Z.eqb_neq in Ha, Hb.
    destruct (foreign_keys db C r Hr) as [Fa Fb]. unfold ids in *. simpl.
    apply in_map_iff in Fa, Fb. destruct Fa as [x [Hx Hxin]], Fb as [y [Hy Hyin]].
    split; apply in_map_iff; [exists x | exists y]; (split; [assumption|]);
      apply filter_In; (split; [assumption|]); apply negb_true_iff, Z.eqb_neq; congruence.
  - apply NoDup_map_filter. apply (unique_together db C).
  - intros r Hr. simpl in Hr. apply filter_In in Hr. apply Hcan. tauto.
Qed.

Lemma invariant_run is_valid db op : invariant db -> invariant (run is_valid db op).
Proof.
  intros I. destruct op; simpl.
  - apply invariant_handle. exact I.
  - rewrite detail_readonly. exact I.
  - apply invariant_post. exact I.
  - apply invariant_create. exact I.
  - apply invariant_update. exact I.
  - apply invariant_delete. exact I.
Qed.

Lemma invariant_runs is_valid ops :
  forall db, invariant db -> invariant (fold_left (run is_valid) ops db).
Proof.
  induction ops as [|op t IH]; intros db I; simpl; [exact I|].
  apply IH. apply invariant_run. exact I.
Qed.

Lemma save_orientation fi k a b s db :
  save fi (mkSim k a b s) db = save fi (mkSim k (lo a b) (hi a b) s) db.
Proof.
  unfold save, swap_products, lo, hi. cbn [product_a product_b pk score].
  rewrite !Z.gtb_ltb.
  destruct (Z.ltb_spec b a).
  - rewrite Z.min_r, Z.max_l by lia.
    replace (a <? b) with false by (symmetry; apply Z.ltb_ge; lia). reflexivity.
  - rewrite Z.min_l, Z.max_r by lia.
    replace (b <? a) with false by (symmetry; apply Z.ltb_ge; lia). reflexivity.
Qed.

Lemma save_swapped fi x db :
  product_a x < product_b x -> save fi (swap_products x) db = save fi x db.
Proof.
  intros Hlt. unfold save. cbn [swap_products product_a product_b].
  rewrite !Z.gtb_ltb.
  replace (product_a x <? product_b x) with true by (symmetry; apply Z.ltb_lt; exact Hlt).
  replace (product_b x <? product_a x) with false by (symmetry; apply Z.ltb_ge; lia).
  destruct x; reflexivity.
Qed.

(** C2. The canonical orientation, on every consistent and oriented
    database. Every instance that [save] returns for two different
    products has [product_a] the smaller and [product_b] the larger
    identifier and is a row of the table, and the table stays oriented,
    whichever way round the caller set the fields. Such saves do happen:
    a stored record whose fields were swapped (and whose score was
    changed) is written back in the stored orientation, exactly as when
    the fields are in order; and a new record for two products without
    one is stored as the same row from [(a, b)] and from [(b, a)]. And
    every operation of the system -- the initializer, the detail view, the
    feedback view, and product creation, update and deletion -- keeps all
    stored records at [product_a < product_b] (and the database
    consistent), whether it answers or raises, so this holds after any
    sequence of operations. *)
Theorem canonical_ordering is_valid db ops :
  consistent db -> canonical db ->
  (forall fi r r' db',
     product_a r <> product_b r -> save fi r db = (Return r', db') ->
     product_a r' = Z.min (product_a r) (product_b r)
     /\ product_b r' = Z.max (product_a r) (product_b r)
     /\ In r' (similarities db') /\ canonical db')
  /\ (forall r s, In r (similarities db) ->
       exists db',
         save false (swap_products (set_score r s)) db = (Return (set_score r s), db')
         /\ save false (set_score r s) db = (Return (set_score r s), db')
         /\ product_a (set_score r s) = Z.min (product_a r) (product_b r)
         /\ product_b (set_score r s) = Z.max (product_a r) (product_b r)
         /\ In (set_score r s) (similarities db')
         /\ canonical db')
  /\ (forall a b s,
       In a (ids db) -> In b (ids db) -> a <> b ->
       score_of (lo a b) (hi a b) db = None ->
       exists r' db',
         save true (mkSim None a b s) db = (Return r', db')
         /\ save true (mkSim None b a s) db = (Return r', db')
         /\ product_a r' = Z.min a b /\ product_b r' = Z.max a b
         /\ In r' (similarities db') /\ canonical db')
  /\ canonical (fold_left (run is_valid) ops db)
  /\ consistent (fold_left (run is_valid) ops db).
Proof.
  intros C Hcan.
  assert (Hsave : forall fi r r' db',
            product_a r <> product_b r -> save fi r db = (Return r', db') ->
            product_a r' = Z.min (product_a r) (product_b r)
            /\ product_b r' = Z.max (product_a r) (product_b r)
            /\ In r' (similarities db') /\ canonical db').
  { intros fi r r' db' Hr Hs.
    destruct (save_oriented fi r db r' db' Hs) as [H1 [H2 [_ [H4 H5]]]].
    split; [exact H1|]. split; [exact H2|]. split; [exact H4|].
    intros x Hx. destruct (H5 x Hx) as [Hold| ->]; [apply Hcan; exact Hold | lia]. }
  split; [exact Hsave|]. split; [|split].
  - intros r s Hr. pose proof (Hcan r Hr) as Hlt.
    assert (Hle : product_a r <= product_b r) by lia.
    pose proof (save_adjust db r (fun _ => s) C Hr Hle) as Hs. cbv beta in Hs.
    assert (Hne : product_a (set_score r s) <> product_b (set_score r s))
      by (simpl; lia).
    destruct (Hsave false (set_score r s) _ _ Hne Hs) as [H1 [H2 [H3 H4]]].
    eexists. split; [rewrite save_swapped; [exact Hs | exact Hlt]|].
    split; [exact Hs|]. split; [exact H1|]. split; [exact H2|].
    split; [exact H3 | exact H4].
  - intros a b s Ha Hb Hne Hnone.
    destruct (lo_hi_in db a b Ha Hb) as [Hlo Hhi].
    pose proof (Similarity_create_spec db _ _ s C (lo_le_hi a b) Hlo Hhi) as Hc.
    unfold score_of in Hnone.
    destruct (find (same_pair (lo a b) (hi a b)) (similarities db)) eqn:E;
      [discriminate Hnone|].
    unfold Similarity_create in Hc.
    exists (mkSim (Some (similarity_seq db)) (lo a b) (hi a b) s),
           (add_row db (lo a b) (hi a b) s).
    split; [rewrite save_orientation; exact Hc|].
    split; [rewrite save_orientation; unfold lo, hi;
            rewrite (Z.min_comm b a), (Z.max_comm b a); exact Hc|].
    split; [reflexivity|]. split; [reflexivity|]. split.
    + simpl. apply in_or_app. right. left. reflexivity.
    + apply canonical_add_row; [exact Hcan | apply lo_lt_hi; exact Hne].
  - destruct (invariant_runs is_valid ops db (conj C Hcan)). split; assumption.
Qed.

Lemma canonical_ordering_witness :
  (exists r' db',
     save true (mkSim None 3 1 0.5) sparse_shop = (Return r', db')
     /\ save true (mkSim None 1 3 0.5) sparse_shop = (Return r', db')
     /\ product_a r' = 1 /\ product_b r' = 3)
  /\ (exists db',
        save false (mkSim (Some 3) 4 1 0.6) shop = (Return (mkSim (Some 3) 1 4 0.6), db')
        /\ canonical db')
  /\ canonical
       (fold_left (run (fun _ _ => true))
          [CreateProduct (mkData "lamp" "" 1 []);
           UpdateSimilarity (feedback 4 1 [2; 3]);
           DeleteProduct 2; InitSimilarities]
          shop).
Proof.
  split; [|split].
  - destruct (canonical_ordering (fun _ _ => true) sparse_shop []
                ltac:(sample_db) ltac:(apply canonicalb_sound; reflexivity))
      as [_ [_ [H3 _]]].
    destruct (H3 3 1 0.5%Q) as [r' [db' [H1 [H2 [Ha [Hb _]]]]]];
      [sample_in | sample_in | discriminate | reflexivity |].
    exists r', db'. auto.
  - destruct (canonical_ordering (fun _ _ => true) shop []
                ltac:(sample_db) ltac:(apply canonicalb_sound; reflexivity))
      as [_ [H2 _]].
    destruct (H2 (mkSim (Some 3) 1 4 0.5) 0.6%Q) as [db' [H1 [_ [_ [_ [_ H6]]]]]];
      [sample_in|].
    exists db'. split; [exact H1 | exact H6].
  - destruct (canonical_ordering (fun _ _ => true) shop
                [CreateProduct (mkData "lamp" "" 1 []);
                 UpdateSimilarity (feedback 4 1 [2; 3]);
                 DeleteProduct 2; InitSimilarities]
                ltac:(sample_db) ltac:(apply canonicalb_sound; reflexivity))
      as [_ [_ [_ [H4 _]]]].
    exact H4.
Defined.

(** * Further properties of the views and of the store *)

(** ** Lookup and feedback *)

(** X1. The lookup of the record between two products does not depend on
    the order in which the two products are given, and neither does the
    increase of their score. *)
Theorem similarity_lookup_symmetric p q db :
  UpdateSimilarityView.get_similarity_object p q db
  = UpdateSimilarityView.get_similarity_object q p db
  /\ UpdateSimilarityView.increase p q db = UpdateSimilarityView.increase q p db.
Proof.
  assert (H : forall d, UpdateSimilarityView.get_similarity_object p q d
                        = UpdateSimilarityView.get_similarity_object q p d).
  { intros d. unfold UpdateSimilarityView.get_similarity_object.
    destruct (Z.ltb_spec (id p) (id q)) as [H1|H1];
      destruct (Z.ltb_spec (id q) (id p)) as [H2|H2]; try reflexivity; try lia.
    assert (E : id p = id q) by lia. rewrite E. reflexivity. }
  split; [apply H|].
  unfold UpdateSimilarityView.increase, bind. rewrite H. reflexivity.
Qed.

(** X2. A feedback call whose current or clicked product identifier is
    absent from the payload or is the identifier of no product raises
    [DoesNotExist] (not [Http404]) and writes nothing. *)
Theorem feedback_unknown_product db request :
  consistent db ->
  match current_product_id request with Some c => ~ In c (ids db) | None => True end
  \/ match clicked_product_id request with Some k => ~ In k (ids db) | None => True end ->
  UpdateSimilarityView.post request db = (Raise DoesNotExist, db).
Proof.
  intros C H. destruct request as [oc ok others]. simpl in H.
  unfold UpdateSimilarityView.post. cbn [current_product_id clicked_product_id].
  assert (Hbad : forall o, match o with Some c => ~ In c (ids db) | None => True end ->
                 Product_get_pk o db = (Raise DoesNotExist, db)).
  { intros [c|] Hc; [apply Product_get_missing; exact Hc | reflexivity]. }
  destruct oc as [c|]; [|apply (bind_Raise _ _ _ _ _ (Hbad None I))].
  destruct (in_dec Z.eq_dec c (ids db)) as [Hin|Hout];
    [|apply (bind_Raise _ _ _ _ _ (Hbad (Some c) Hout))].
  destruct H as [H|H]; [contradiction|].
  destruct (Product_get_id db c C Hin) as [p [_ [_ Hget]]].
  unfold Product_get_pk at 1. rewrite (bind_Return _ _ _ _ _ Hget).
  apply (bind_Raise _ _ _ _ _ (Hbad ok H)).
Qed.

Lemma feedback_unknown_product_witness :
  UpdateSimilarityView.post (feedback 1 9 [2]) shop = (Raise DoesNotExist, shop)
  /\ UpdateSimilarityView.post (mkFeedback None (Some 2) None) shop
     = (Raise DoesNotExist, shop).
Proof.
  split; apply feedback_unknown_product.
  - sample_db.
  - right. simpl. lia.
  - sample_db.
  - left. exact I.
Defined.

Lemma no_self_pair db a :
  canonical db -> find (same_pair a a) (similarities db) = None.
Proof.
  intros Hcan. apply find_none_all. intros x Hx.
  destruct (same_pair a a x) eqn:E; [|reflexivity].
  apply same_pair_iff in E. injection E as E1 E2. specialize (Hcan x Hx). lia.
Qed.

(** X3. A feedback call that names the current product as the clicked one
    raises [Http404] and writes nothing: no record pairs a product with
    itself. *)
Theorem feedback_self_click db cur other_ids :
  consistent db -> canonical db -> In cur (products db) ->
  UpdateSimilarityView.post (feedback (id cur) (id cur) other_ids) db
  = (Raise Http404, db).
Proof.
  intros C Hcan Hcur. rewrite (post_spec db cur cur other_ids C Hcur Hcur).
  unfold lo, hi. rewrite Z.min_id, Z.max_id, (no_self_pair db (id cur) Hcan). reflexivity.
Qed.

Lemma feedback_self_click_witness :
  UpdateSimilarityView.post (feedback 2 2 [3; 4]) shop = (Raise Http404, shop).
Proof.
  apply (feedback_self_click shop (sample_product 2) [3; 4]).
  - sample_db.
  - apply canonicalb_sound. reflexivity.
  - sample_in.
Defined.

(** X4. A feedback call, whatever its outcome, leaves the products as they
    are and changes the score of no pair other than (current, clicked) and
    (current, o) for the products [o] selected as unclicked. *)
Theorem feedback_touches_only_its_pairs db cur clicked other_ids a b :
  consistent db -> In cur (products db) -> In clicked (products db) ->
  (a, b) <> (lo (id cur) (id clicked), hi (id cur) (id clicked)) ->
  (forall o, In o (products db) -> In (id o) other_ids ->
             (a, b) <> (lo (id cur) (id o), hi (id cur) (id o))) ->
  products (snd (UpdateSimilarityView.post (feedback (id cur) (id clicked) other_ids) db))
  = products db
  /\ score_of a b
       (snd (UpdateSimilarityView.post (feedback (id cur) (id clicked) other_ids) db))
     = score_of a b db.
Proof.
  intros C Hcur Hclk Hnc Hno. rewrite (post_spec db cur clicked other_ids C Hcur Hclk).
  destruct (find (same_pair (lo (id cur) (id clicked)) (hi (id cur) (id clicked)))
                 (similarities db)); [|split; reflexivity].
  cbv zeta. cbn [snd]. split; [reflexivity|].
  rewrite score_of_final. unfold score_of.
  destruct (find (same_pair a b) (similarities db)) as [x|] eqn:E; [|reflexivity].
  simpl. f_equal. pose proof (found_pair _ _ _ _ E) as Hp.
  destruct (same_pair (lo (id cur) (id clicked)) (hi (id cur) (id clicked)) x) eqn:E1.
  { exfalso. apply Hnc. apply same_pair_iff in E1. congruence. }
  destruct (is_done (id cur) _ x) eqn:E2; [|reflexivity].
  exfalso. apply is_done_iff in E2. destruct E2 as [o [Ho Hpo]].
  apply processed_incl, pk_in_iff in Ho. destruct Ho as [Ho Hin].
  apply (Hno o Ho Hin). congruence.
Qed.

Lemma feedback_touches_only_its_pairs_witness :
  score_of 2 3 (snd (UpdateSimilarityView.post (feedback 1 2 [3; 4]) shop))
  = score_of 2 3 shop
  /\ score_of 1 5 (snd (UpdateSimilarityView.post (feedback 1 2 [3; 4]) shop))
     = score_of 1 5 shop.
Proof.
  split.
  - apply (feedback_touches_only_its_pairs shop (sample_product 1) (sample_product 2)).
    + sample_db.
    + sample_in.
    + sample_in.
    + discriminate.
    + intros o Ho Hin. simpl in Ho.
      repeat (destruct Ho as [<-|Ho]; [try discriminate; simpl in Hin; lia|]).
      contradiction.
  - apply (feedback_touches_only_its_pairs shop (sample_product 1) (sample_product 2)).
    + sample_db.
    + sample_in.
    + sample_in.
    + discriminate.
    + intros o Ho Hin. simpl in Ho.
      repeat (destruct Ho as [<-|Ho]; [try discriminate; simpl in Hin; lia|]).
      contradiction.
Defined.

Lemma inc_saturates s : (0.9 < s)%Q -> inc s = 1.0%Q.
Proof.
  intros H. unfold inc, Py.min, Py.ltb.
  destruct (Qle_bool (s + 0.1) 1.0) eqn:E; [|reflexivity].
  apply Qle_bool_iff in E. exfalso. lra.
Qed.

Lemma dec_saturates s : (s < 0.05)%Q -> dec s = 0.0%Q.
Proof.
  intros H. unfold dec, Py.max, Py.ltb.
  destruct (Qle_bool 0.0 (s - 0.05)) eqn:E; [|reflexivity].
  apply Qle_bool_iff in E. exfalso. lra.
Qed.

(** X5. Saturation at the bounds: in a feedback call whose records all
    exist, a clicked score above 0.9 becomes exactly 1.0 and an unclicked
    score below 0.05 becomes exactly 0.0. *)
Theorem feedback_saturates db cur clicked other_ids s :
  consistent db -> In cur (products db) -> In clicked (products db) ->
  score_of (lo (id cur) (id clicked)) (hi (id cur) (id clicked)) db = Some s ->
  (forall o, In o (products db) -> In (id o) other_ids ->
             score_of (lo (id cur) (id o)) (hi (id cur) (id o)) db <> None) ->
  ~ In (id clicked) other_ids ->
  exists db',
    UpdateSimilarityView.post (feedback (id cur) (id clicked) other_ids) db
    = (Return (mkResponse tt 204), db')
    /\ ((0.9 < s)%Q ->
        score_of (lo (id cur) (id clicked)) (hi (id cur) (id clicked)) db' = Some 1.0%Q)
    /\ (forall o so,
          In o (products db) -> In (id o) other_ids ->
          score_of (lo (id cur) (id o)) (hi (id cur) (id o)) db = Some so ->
          (so < 0.05)%Q ->
          score_of (lo (id cur) (id o)) (hi (id cur) (id o)) db' = Some 0.0%Q).
Proof.
  intros C Hcur Hclk Hs Hall Hn. eexists. split.
  { apply (post_ok db cur clicked other_ids s); assumption. }
  split.
  - intros Hhigh.
    rewrite (final_clicked db cur clicked other_ids s (similarity_seq db) Hclk Hs).
    replace (existsb (Z.eqb (id clicked)) other_ids) with false.
    + rewrite (inc_saturates s Hhigh). reflexivity.
    + symmetry. destruct (existsb _ _) eqn:E; [|reflexivity].
      apply existsb_eqb_In in E. contradiction.
  - intros o so Ho Hin Hso Hlow.
    assert (Hne : id o <> id clicked) by (intros E; apply Hn; rewrite <- E; exact Hin).
    rewrite (final_unclicked db cur clicked o other_ids so _ Ho Hin Hne Hso).
    rewrite (dec_saturates so Hlow). reflexivity.
Qed.

Lemma feedback_saturates_witness :
  exists db',
    UpdateSimilarityView.post (feedback 1 2 [3]) shop = (Return (mkResponse tt 204), db')
    /\ score_of 1 2 db' = Some 1.0%Q.
Proof.
  destruct (feedback_saturates shop (sample_product 1) (sample_product 2) [3] 0.95)
    as [db' [H1 [H2 _]]].
  - sample_db.
  - sample_in.
  - sample_in.
  - reflexivity.
  - intros o Ho Hin. simpl in Ho.
    repeat (destruct Ho as [<-|Ho]; [try discriminate; simpl in Hin; lia|]).
    contradiction.
  - simpl. lia.
  - exists db'. split; [exact H1|]. apply H2. reflexivity.
Defined.

(** X6. In a catalog where every two distinct products have a record, a
    feedback call between existing products succeeds (204) as soon as the
    clicked product is not the current one and the current product is not
    listed as unclicked; unknown and repeated unclicked identifiers do
    not matter. *)
Theorem feedback_succeeds_when_complete db cur clicked other_ids :
  consistent db -> complete db ->
  In cur (products db) -> In clicked (products db) ->
  id cur <> id clicked -> ~ In (id cur) other_ids ->
  exists db',
    UpdateSimilarityView.post (feedback (id cur) (id clicked) other_ids) db
    = (Return (mkResponse tt 204), db')
    /\ map key (similarities db') = map key (similarities db).
Proof.
  intros C Hcomplete Hcur Hclk Hne Hn.
  pose proof (Hcomplete cur clicked Hcur Hclk Hne) as Hs.
  destruct (score_of _ _ db) as [s|] eqn:E; [clear Hs | contradiction].
  eexists. split.
  - apply (post_ok db cur clicked other_ids s); auto.
    intros o Ho Hin. apply Hcomplete; auto.
    intros Heq. apply Hn. rewrite Heq. exact Hin.
  - simpl. rewrite decreased_keys, adjust_keys. reflexivity.
Qed.

Lemma complete_sample db :
  forallb (fun p => forallb (fun q =>
             (id p =? id q)
             || existsb (same_pair (lo (id p) (id q)) (hi (id p) (id q))) (similarities db))
           (products db)) (products db) = true ->
  complete db.
Proof.
  intros H p q Hp Hq Hne. rewrite forallb_forall in H. specialize (H p Hp).
  rewrite forallb_forall in H. specialize (H q Hq).
  apply orb_prop in H. destruct H as [H|H]; [apply Z.eqb_eq in H; contradiction|].
  rewrite find_existsb in H. unfold score_of.
  destruct (find _ _); [discriminate | discriminate H].
Qed.

Lemma feedback_succeeds_when_complete_witness :
  exists db',
    UpdateSimilarityView.post (feedback 3 5 [4; 4; 77]) shop
    = (Return (mkResponse tt 204), db')
    /\ map key (similarities db') = map key (similarities shop).
Proof.
  apply (feedback_succeeds_when_complete shop (sample_product 3) (sample_product 5)).
  - sample_db.
  - apply complete_sample. reflexivity.
  - sample_in.
  - sample_in.
  - discriminate.
  - simpl. lia.
Defined.

(** ** The store and the initializer *)

Lemma find_add_row db a b s :
  find (same_pair a b) (similarities db) = None ->
  find (same_pair a b) (similarities (add_row db a b s))
  = Some (mkSim (Some (similarity_seq db)) a b s).
Proof.
  intros H. simpl. rewrite find_app, H. simpl. unfold same_pair. simpl.
  rewrite !Z.eqb_refl. reflexivity.
Qed.

(** X7. The three outcomes of the initializer's
    [get_or_create(product_a, product_b, score=0.5)] for an oriented pair
    of products: a pair without a record gets one at 0.5 ([created] is
    true); a pair whose record is at 0.5 is returned as it is and nothing
    is written; a pair whose record is at another score raises
    [IntegrityError] and nothing is written. *)
Theorem get_or_create_outcomes db a b :
  consistent db -> a <= b -> In a (ids db) -> In b (ids db) ->
  (score_of a b db = None ->
   exists r db',
     Similarity_get_or_create a b 0.5 db = (Return (r, true), db')
     /\ similarities db' = similarities db ++ [r]
     /\ pair_of r = (a, b)
     /\ score_of a b db' = Some 0.5%Q)
  /\ (forall s, score_of a b db = Some s -> Qeq_bool s 0.5 = true ->
      exists r, Similarity_get_or_create a b 0.5 db = (Return (r, false), db)
                /\ score r = s /\ In r (similarities db))
  /\ (forall s, score_of a b db = Some s -> Qeq_bool s 0.5 = false ->
      Similarity_get_or_create a b 0.5 db = (Raise IntegrityError, db)).
Proof.
  intros C Hle Ha Hb. pose proof (get_or_create_spec db a b 0.5 C Hle Ha Hb) as Hg.
  unfold score_of.
  destruct (find (same_pair a b) (similarities db)) as [r|] eqn:E; simpl.
  - split; [discriminate|]. split; intros s Hs Hq; injection Hs as <-; rewrite Hq in Hg.
    + exists r. split; [exact Hg|]. split; [reflexivity|]. apply (find_some _ _ E).
    + exact Hg.
  - split; [|split; discriminate]. intros _. eexists. eexists. split; [exact Hg|].
    split; [reflexivity|]. split; [reflexivity|].
    rewrite (find_add_row db a b 0.5 E). reflexivity.
Qed.

Lemma get_or_create_outcomes_witness :
  Similarity_get_or_create 1 2 0.5 drifted_shop = (Raise IntegrityError, drifted_shop)
  /\ (exists r, Similarity_get_or_create 1 2 0.5 sparse_shop = (Return (r, false), sparse_shop))
  /\ (exists r db', Similarity_get_or_create 1 3 0.5 sparse_shop = (Return (r, true), db')).
Proof.
  split; [|split].
  - refine (proj2 (proj2 (get_or_create_outcomes drifted_shop 1 2 _ _ _ _)) 0.6%Q _ _).
    + sample_db.
    + lia.
    + sample_in.
    + sample_in.
    + reflexivity.
    + reflexivity.
  - destruct (proj1 (proj2 (get_or_create_outcomes sparse_shop 1 2
                              ltac:(sample_db) ltac:(lia) ltac:(sample_in) ltac:(sample_in)))
                0.5%Q eq_refl eq_refl) as [r [H _]].
    exists r. exact H.
  - destruct (proj1 (get_or_create_outcomes sparse_shop 1 3
                       ltac:(sample_db) ltac:(lia) ltac:(sample_in) ltac:(sample_in))
                eq_refl) as [r [db' [H _]]].
    exists r, db'. exact H.
Defined.

(** X8. When the initializer completes, the two numbers it reports are
    right whatever records existed before: the first is N(N-1)/2 for the
    N products of the catalog, the second is the number of records the
    run added, which lies between 0 and the first. *)
Theorem init_similarities_counts db t c db' :
  consistent db -> canonical db ->
  Command.handle db = (Return (t, c), db') ->
  let N := Z.of_nat (List.length (products db)) in
  t = N * (N - 1) / 2
  /\ Z.of_nat (List.length (similarities db'))
     = Z.of_nat (List.length (similarities db)) + c
  /\ 0 <= c <= t.
Proof.
  intros C Hcan Hrun N.
  destruct (handle_loop_appends _ db 0 0 C Hcan (combinations2_ok db C))
    as [new [H1 [_ [_ [H4 [_ [H6 H7]]]]]]].
  rewrite <- handle_unfold, Hrun in H1, H4, H7. cbn [fst snd] in H1, H4, H7.
  destruct (H7 t c eq_refl) as [Ht Hc].
  assert (Hlen : (List.length new <= List.length (Py.combinations2 (products db)))%nat).
  { rewrite <- (length_map pair_of new), <- (length_map norm (Py.combinations2 _)).
    apply NoDup_incl_length.
    - pose proof (unique_together _ H4) as Hnd. rewrite H1, map_app in Hnd.
      apply (NoDup_app_remove_l _ _ Hnd).
    - intros ab Hab. apply in_map_iff in Hab. destruct Hab as [x [<- Hx]].
      apply (H6 x Hx). }
  split; [|split].
  - unfold N. rewrite combinations2_count. lia.
  - rewrite H1, length_app, Nat2Z.inj_add. lia.
  - lia.
Qed.

Lemma init_similarities_counts_witness :
  exists db', Command.handle sparse_shop = (Return (3, 2), db')
              /\ Z.of_nat (List.length (similarities db')) = 1 + 2.
Proof.
  eexists. split; [reflexivity|].
  refine (proj1 (proj2 (init_similarities_counts sparse_shop 3 2 _ _ _ eq_refl))).
  - sample_db.
  - apply canonicalb_sound. reflexivity.
Defined.

(** X9. [save] compares the two products with [>] only: a record whose
    two products are the same one is not rejected, it is stored as it
    is, and the stored orientation [product_a < product_b] no longer
    holds for it. *)
Theorem save_accepts_self_pair db a s :
  consistent db -> In a (ids db) -> score_of a a db = None ->
  exists r' db',
    save true (mkSim None a a s) db = (Return r', db')
    /\ product_a r' = a /\ product_b r' = a
    /\ In r' (similarities db')
    /\ ~ canonical db'.
Proof.
  intros C Ha Hnone.
  pose proof (Similarity_create_spec db a a s C (Z.le_refl a) Ha Ha) as Hc.
  unfold score_of in Hnone.
  destruct (find (same_pair a a) (similarities db)) eqn:E; [discriminate Hnone|].
  unfold Similarity_create in Hc.
  exists (mkSim (Some (similarity_seq db)) a a s), (add_row db a a s).
  split; [exact Hc|]. split; [reflexivity|]. split; [reflexivity|].
  assert (Hin : In (mkSim (Some (similarity_seq db)) a a s)
                   (similarities (add_row db a a s)))
    by (simpl; apply in_or_app; right; left; reflexivity).
  split; [exact Hin|]. intros Hcan. specialize (Hcan _ Hin). simpl in Hcan. lia.
Qed.

Lemma save_accepts_self_pair_witness :
  exists r' db',
    save true (mkSim None 2 2 0.5) sparse_shop = (Return r', db')
    /\ product_a r' = 2 /\ product_b r' = 2.
Proof.
  destruct (save_accepts_self_pair sparse_shop 2 0.5) as [r' [db' [H1 [H2 [H3 _]]]]].
  - sample_db.
  - sample_in.
  - reflexivity.
  - exists r', db'. auto.
Defined.

(** X10. Insert then look up: a record created for two different
    products, with the products given in either order, is the record
    that [get_similarity_object] returns afterwards for the two products
    in either order, at the score it was created with. *)
Theorem create_then_lookup db p q s :
  consistent db -> In p (products db) -> In q (products db) -> id p <> id q ->
  score_of (lo (id p) (id q)) (hi (id p) (id q)) db = None ->
  exists r db',
    Similarity_create (id p) (id q) s db = (Return r, db')
    /\ Similarity_create (id q) (id p) s db = (Return r, db')
    /\ UpdateSimilarityView.get_similarity_object p q db' = (Return r, db')
    /\ UpdateSimilarityView.get_similarity_object q p db' = (Return r, db')
    /\ score r = s.
Proof.
  intros C Hp Hq Hne Hnone.
  pose proof (in_map id _ _ Hp) as Hip. pose proof (in_map id _ _ Hq) as Hiq.
  destruct (lo_hi_in db _ _ Hip Hiq) as [Hlo Hhi].
  pose proof (Similarity_create_spec db _ _ s C (lo_le_hi (id p) (id q)) Hlo Hhi) as Hc.
  unfold score_of in Hnone.
  destruct (find (same_pair (lo (id p) (id q)) (hi (id p) (id q))) (similarities db))
    eqn:E; [discriminate Hnone|].
  assert (C1 : consistent (add_row db (lo (id p) (id q)) (hi (id p) (id q)) s))
    by (apply consistent_add_row; auto).
  exists (mkSim (Some (similarity_seq db)) (lo (id p) (id q)) (hi (id p) (id q)) s),
         (add_row db (lo (id p) (id q)) (hi (id p) (id q)) s).
  unfold Similarity_create in *.
  split; [rewrite save_orientation; exact Hc|].
  split; [rewrite save_orientation; unfold lo, hi;
          rewrite (Z.min_comm (id q)), (Z.max_comm (id q)); exact Hc|].
  split; [|split; [|reflexivity]].
  - rewrite (get_similarity_object_spec _ p q C1), (find_add_row db _ _ s E). reflexivity.
  - rewrite (get_similarity_object_spec _ q p C1). unfold lo, hi.
    rewrite (Z.min_comm (id q)), (Z.max_comm (id q)).
    fold (lo (id p) (id q)). fold (hi (id p) (id q)).
    rewrite (find_add_row db _ _ s E). reflexivity.
Qed.

Lemma create_then_lookup_witness :
  exists r db',
    Similarity_create 3 1 0.5 sparse_shop = (Return r, db')
    /\ UpdateSimilarityView.get_similarity_object (sample_product 1) (sample_product 3) db'
       = (Return r, db').
Proof.
  destruct (create_then_lookup sparse_shop (sample_product 3) (sample_product 1) 0.5)
    as [r [db' [H1 [_ [_ [H4 _]]]]]].
  - sample_db.
  - sample_in.
  - sample_in.
  - discriminate.
  - reflexivity.
  - exists r, db'. auto.
Defined.

(** ** Product deletion, update and creation *)

Lemma get_object_or_404_found db p :
  consistent db -> In p (products db) ->
  get_object_or_404 (Product_get (id p)) db = (Return p, db).
Proof. intros C Hp. apply try_Return. apply Product_get_found; assumption. Qed.

Lemma get_object_or_404_missing db i :
  ~ In i (ids db) -> get_object_or_404 (Product_get i) db = (Raise Http404, db).
Proof.
  intros Hi. unfold get_object_or_404.
  rewrite (try_Raise _ _ _ _ _ _ (Product_get_missing db i Hi)). reflexivity.
Qed.

Lemma find_filter {A} (p f : A -> bool) (l : list A) :
  (forall x, In x l -> p x = true -> f x = true) -> find p (filter f l) = find p l.
Proof.
  induction l as [|y t IH]; simpl; intros H; [reflexivity|].
  assert (IH' : find p (filter f t) = find p t)
    by (apply IH; intros x Hx; apply H; right; exact Hx).
  destruct (f y) eqn:Ef; simpl.
  - rewrite IH'. reflexivity.
  - destruct (p y) eqn:Ep; [|exact IH'].
    rewrite (H y (or_introl eq_refl) Ep) in Ef. discriminate.
Qed.

(** X11. Deleting a product answers 204 and cascades: the product is
    gone, exactly the records that involve it are gone with it, every
    other product and every other record (score included) is as before;
    for an identifier of no product the view raises [Http404] and writes
    nothing. *)
Theorem delete_cascades db p :
  consistent db -> In p (products db) ->
  exists db',
    DeleteProductView.delete (id p) db = (Return (mkResponse tt 204), db')
    /\ ~ In (id p) (ids db')
    /\ (forall q, In q (products db') <-> In q (products db) /\ id q <> id p)
    /\ (forall r, In r (similarities db') <->
                  In r (similarities db) /\ product_a r <> id p /\ product_b r <> id p)
    /\ (forall a b, a <> id p -> b <> id p -> score_of a b db' = score_of a b db)
    /\ (forall pk, ~ In pk (ids db) ->
          DeleteProductView.delete pk db = (Raise Http404, db)).
Proof.
  intros C Hp. eexists. split.
  { unfold DeleteProductView.delete.
    rewrite (bind_Return _ _ _ _ _ (get_object_or_404_found db p C Hp)).
    unfold bind, Product_delete. reflexivity. }
  assert (Hq : forall q, In q (filter (fun x => negb (id x =? id p)) (products db))
                         <-> In q (products db) /\ id q <> id p).
  { intros q. rewrite filter_In, negb_true_iff, Z.eqb_neq. reflexivity. }
  split; [|split; [|split; [|split]]].
  - unfold ids. simpl. intros H. apply in_map_iff in H. destruct H as [q [Hid Hin]].
    apply Hq in Hin. tauto.
  - exact Hq.
  - intros r. simpl. rewrite filter_In, negb_true_iff, orb_false_iff, !Z.eqb_neq.
    reflexivity.
  - intros a b Ha Hb. unfold score_of. simpl. rewrite find_filter; [reflexivity|].
    intros x _ Hx. apply same_pair_iff in Hx. injection Hx as H1 H2.
    rewrite negb_true_iff, orb_false_iff, !Z.eqb_neq. subst. auto.
  - intros pk Hpk. unfold DeleteProductView.delete.
    apply (bind_Raise _ _ _ _ _ (get_object_or_404_missing db pk Hpk)).
Qed.

Lemma delete_cascades_witness :
  exists db',
    DeleteProductView.delete 2 shop = (Return (mkResponse tt 204), db')
    /\ score_of 1 3 db' = score_of 1 3 shop
    /\ ~ In 2 (ids db').
Proof.
  destruct (delete_cascades shop (sample_product 2)) as [db' [H1 [H2 [_ [_ [H5 _]]]]]].
  - sample_db.
  - sample_in.
  - exists db'. split; [exact H1|]. split; [apply H5; discriminate | exact H2].
Defined.

(** X12. Updating a product with a valid payload answers 200, rewrites
    the attributes of that product only, keeps its identifier and leaves
    all similarity records and all other products as they are; an
    invalid payload answers 400 and an identifier of no product raises
    [Http404], both without writing. *)
Theorem update_keeps_links is_valid request db p :
  consistent db -> In p (products db) ->
  (is_valid request db = true ->
   exists p' db',
     UpdateProductView.put is_valid request (id p) db
     = (Return (mkResponse (Some p') 200), db')
     /\ id p' = id p /\ name p' = d_name request
     /\ description p' = d_description request
     /\ category p' = d_category request /\ tags p' = d_tags request
     /\ In p' (products db')
     /\ ids db' = ids db
     /\ similarities db' = similarities db
     /\ (forall q, In q (products db) -> id q <> id p -> In q (products db')))
  /\ (is_valid request db = false ->
      UpdateProductView.put is_valid request (id p) db
      = (Return (mkResponse None 400), db))
  /\ (forall pk, ~ In pk (ids db) ->
        UpdateProductView.put is_valid request pk db = (Raise Http404, db)).
Proof.
  intros C Hp.
  pose proof (get_object_or_404_found db p C Hp) as Hget.
  split; [|split].
  - intros Hvalid. eexists. eexists. split.
    { unfold UpdateProductView.put. rewrite (bind_Return _ _ _ _ _ Hget).
      unfold bind, read. rewrite Hvalid. reflexivity. }
    do 5 (split; [reflexivity|]). split; [|split; [|split; [reflexivity|]]].
    + simpl. apply in_map_iff. exists p. rewrite Z.eqb_refl. auto.
    + unfold ids. simpl. rewrite map_map. apply map_ext. intros x.
      destruct (Z.eqb_spec (id x) (id p)); simpl; congruence.
    + intros q Hq Hne. simpl. apply in_map_iff. exists q.
      replace (id q =? id p) with false by (symmetry; apply Z.eqb_neq; exact Hne). auto.
  - intros Hvalid. unfold UpdateProductView.put. rewrite (bind_Return _ _ _ _ _ Hget).
    unfold bind, read. rewrite Hvalid. reflexivity.
  - intros pk Hpk. unfold UpdateProductView.put.
    apply (bind_Raise _ _ _ _ _ (get_object_or_404_missing db pk Hpk)).
Qed.

Lemma update_keeps_links_witness :
  exists p' db',
    UpdateProductView.put (fun _ _ => true) (mkData "shade" "green" 2 [7]) 2 shop
    = (Return (mkResponse (Some p') 200), db')
    /\ id p' = 2 /\ similarities db' = similarities shop.
Proof.
  destruct (proj1 (update_keeps_links (fun _ _ => true) (mkData "shade" "green" 2 [7])
                     shop (sample_product 2) ltac:(sample_db) ltac:(sample_in)) eq_refl)
    as [p' [db' [H1 [H2 [_ [_ [_ [_ [_ [_ [H9 _]]]]]]]]]]].
  exists p', db'. auto.
Defined.

(** X13. The detail view never writes, whatever its arguments and
    outcome; for an identifier of no product it raises [Http404]; with
    [raw=1] it answers the product alone, without recommendations. *)
Theorem detail_view_reads_only raw pk db :
  snd (ProductDetailView.get raw pk db) = db
  /\ (~ In pk (ids db) -> ProductDetailView.get raw pk db = (Raise Http404, db))
  /\ (forall p, consistent db -> In p (products db) ->
        ProductDetailView.get (Some "1"%string) (id p) db
        = (Return (mkResponse (p, None) 200), db)).
Proof.
  split; [apply detail_readonly|]. split.
  - intros Hpk. unfold ProductDetailView.get.
    apply (bind_Raise _ _ _ _ _ (get_object_or_404_missing db pk Hpk)).
  - intros p C Hp. unfold ProductDetailView.get.
    rewrite (bind_Return _ _ _ _ _ (get_object_or_404_found db p C Hp)). reflexivity.
Qed.

Lemma detail_view_reads_only_witness :
  ProductDetailView.get None 9 shop = (Raise Http404, shop)
  /\ ProductDetailView.get (Some "1"%string) 2 shop
     = (Return (mkResponse (sample_product 2, None) 200), shop).
Proof.
  destruct (detail_view_reads_only None 9 shop) as [_ [H2 H3]].
  split; [apply H2; simpl; lia|].
  apply (H3 (sample_product 2)); [sample_db | sample_in].
Defined.

Lemma filter_all {A} (f : A -> bool) (l : list A) :
  (forall x, In x l -> f x = true) -> filter f l = l.
Proof.
  induction l as [|y t IH]; simpl; intros H; [reflexivity|].
  rewrite (H y) by auto. f_equal. apply IH. intros x Hx. apply H. auto.
Qed.

(** X14. Creating a product and deleting it again is a round trip on the
    catalog: the products and the similarity records (keys and scores
    included) are exactly those from before the creation. *)
Theorem create_then_delete is_valid request db :
  consistent db -> is_valid request db = true ->
  exists new_product db1 db2,
    CreateProductView.post is_valid request db
    = (Return (mkResponse (Some new_product) 201), db1)
    /\ DeleteProductView.delete (id new_product) db1 = (Return (mkResponse tt 204), db2)
    /\ products db2 = products db
    /\ similarities db2 = similarities db.
Proof.
  intros C Hvalid.
  pose proof (create_post_spec is_valid request db C Hvalid) as Hpost. cbv zeta in Hpost.
  set (new_product := {| id := product_seq db; name := d_name request;
                         description := d_description request;
                         category := d_category request; tags := d_tags request |}) in *.
  set (db1 := {| products := products db ++ [new_product];
                 similarities := similarities db
                   ++ rows (links new_product (products db)) (similarity_seq db) 0.5;
                 product_seq := product_seq db + 1;
                 similarity_seq := similarity_seq db
                                   + Z.of_nat (List.length (products db)) |}) in *.
  assert (Hget : get_object_or_404 (Product_get (id new_product)) db1
                 = (Return new_product, db1)).
  { apply try_Return. unfold Product_get, objects_get. simpl.
    rewrite filter_app. simpl. rewrite Z.eqb_refl.
    rewrite filter_none; [reflexivity|].
    intros x Hx. apply Z.eqb_neq.
    pose proof (ids_below_seq db C _ (in_map id _ _ Hx)). lia. }
  exists new_product, db1. eexists. split; [exact Hpost|]. split.
  { unfold DeleteProductView.delete. rewrite (bind_Return _ _ _ _ _ Hget).
    unfold bind, Product_delete. reflexivity. }
  split.
  - simpl. apply (exclude_new db request C).
  - simpl. rewrite filter_app, filter_all, filter_none; [apply app_nil_r | |].
    + intros r Hr. apply rows_in in Hr. destruct Hr as [_ Hr].
      unfold links in Hr. apply in_map_iff in Hr. destruct Hr as [o [Ho Hin]].
      unfold pair_of in Ho. injection Ho as Ha Hb.
      pose proof (ids_below_seq db C _ (in_map id _ _ Hin)) as Hlt.
      apply negb_false_iff, orb_true_iff. right. apply Z.eqb_eq.
      rewrite <- Hb. unfold hi. simpl id. lia.
    + intros r Hr. destruct (foreign_keys db C r Hr) as [Ha Hb].
      apply (ids_below_seq db C) in Ha, Hb.
      apply negb_true_iff, orb_false_iff. split; apply Z.eqb_neq; lia.
Qed.

Lemma create_then_delete_witness :
  exists new_product db1 db2,
    CreateProductView.post (fun _ _ => true) (mkData "lamp" "" 1 []) shop
    = (Return (mkResponse (Some new_product) 201), db1)
    /\ DeleteProductView.delete (id new_product) db1 = (Return (mkResponse tt 204), db2)
    /\ products db2 = products shop
    /\ similarities db2 = similarities shop.
Proof.
  apply (create_then_delete (fun _ _ => true) (mkData "lamp" "" 1 []) shop).
  - sample_db.
  - reflexivity.
Defined.

(** ** Completeness of the links *)

Lemma complete_transfer db db' :
  (forall i, In i (ids db') -> In i (ids db)) ->
  (forall a b, In a (ids db') -> In b (ids db') ->
     find (same_pair a b) (similarities db) <> None ->
     find (same_pair a b) (similarities db') <> None) ->
  complete db -> complete db'.
Proof.
  intros Hids Hfind Hc p q Hp Hq Hne.
  pose proof (in_map id _ _ Hp) as Hip. pose proof (in_map id _ _ Hq) as Hiq.
  pose proof (Hids _ Hip) as Hip0. pose proof (Hids _ Hiq) as Hiq0.
  apply in_map_iff in Hip0, Hiq0.
  destruct Hip0 as [p0 [Ep0 Hp0]], Hiq0 as [q0 [Eq0 Hq0]].
  assert (Hne0 : id p0 <> id q0) by congruence.
  specialize (Hc p0 q0 Hp0 Hq0 Hne0). rewrite Ep0, Eq0 in Hc.
  unfold score_of in *.
  assert (Hf : find (same_pair (lo (id p) (id q)) (hi (id p) (id q))) (similarities db')
               <> None).
  { destruct (lo_hi_in db' _ _ Hip Hiq) as [Hlo Hhi]. apply Hfind; auto.
    destruct (find _ (similarities db)); [discriminate | exfalso; apply Hc; reflexivity]. }
  destruct (find _ (similarities db')); [discriminate | contradiction].
Qed.

Lemma find_same_keys a b (l l' : list ProductSimilarity) :
  map key l' = map key l ->
  find (same_pair a b) l <> None -> find (same_pair a b) l' <> None.
Proof.
  intros Hk H. pose proof (existsb_same_keys a b l l' Hk) as He.
  rewrite !find_existsb in He.
  destruct (find (same_pair a b) l); [|contradiction].
  destruct (find (same_pair a b) l'); [discriminate | discriminate He].
Qed.

Lemma complete_run is_valid db op :
  invariant db -> complete db -> complete (run is_valid db op).
Proof.
  intros [C Hcan] Hc. destruct op as [|raw i|request|request|request i|i]; simpl.
  - (* the initializer appends *)
    rewrite handle_unfold.
    destruct (handle_loop_appends _ db 0 0 C Hcan (combinations2_ok db C))
      as [new [H1 [H2 _]]].
    apply (complete_transfer db); auto.
    + unfold ids. rewrite H2. auto.
    + intros a b _ _ H. rewrite H1, find_app.
      destruct (find _ (similarities db)); [discriminate | contradiction].
  - rewrite detail_readonly. exact Hc.
  - destruct (post_keeps_keys db request C) as [H1 [_ [_ H4]]].
    apply (complete_transfer db); auto.
    + rewrite H1. auto.
    + intros a b _ _. apply find_same_keys. exact H4.
  - (* creation links the new product with every other one *)
    destruct (is_valid request db) eqn:Hvalid.
    + rewrite (create_post_spec is_valid request db C Hvalid). cbv zeta. cbn [snd].
      set (new_product := {| id := product_seq db; name := d_name request;
                             description := d_description request;
                             category := d_category request; tags := d_tags request |}).
      assert (Hnew : forall o, In o (products db) ->
                score_of (lo (id new_product) (id o)) (hi (id new_product) (id o))
                  {| products := products db ++ [new_product];
                     similarities := similarities db
                       ++ rows (links new_product (products db)) (similarity_seq db) 0.5;
                     product_seq := product_seq db + 1;
                     similarity_seq := similarity_seq db
                                       + Z.of_nat (List.length (products db)) |} <> None).
      { intros o Ho. unfold score_of. simpl similarities. rewrite find_app.
        destruct (find _ (similarities db)); [discriminate|].
        destruct (rows_find (links new_product (products db)) (similarity_seq db) 0.5%Q
                    (lo (id new_product) (id o)) (hi (id new_product) (id o)))
          as [r [Hr _]].
        - unfold links. apply in_map_iff. exists o. auto.
        - rewrite Hr. discriminate. }
      intros p q Hp Hq Hne. simpl products in Hp, Hq.
      apply in_app_or in Hp, Hq.
      destruct Hp as [Hp|[<-|[]]], Hq as [Hq|[<-|[]]].
      * specialize (Hc p q Hp Hq Hne). unfold score_of in *. simpl similarities.
        rewrite find_app. destruct (find _ (similarities db)); [discriminate | contradiction].
      * unfold lo, hi. rewrite Z.min_comm, Z.max_comm. apply (Hnew p Hp).
      * apply (Hnew q Hq).
      * contradiction.
    + unfold CreateProductView.post, bind, read. rewrite Hvalid. exact Hc.
  - unfold UpdateProductView.put.
    destruct (get_object_or_404_Product db i) as [[p [_ [_ H]]]|[e H]].
    + rewrite (bind_Return _ _ _ _ _ H). unfold bind, read.
      destruct (is_valid request db); [|exact Hc].
      unfold serializer_update, ret. cbn [snd].
      apply (complete_transfer db); auto.
      unfold ids. simpl. intros j Hi. rewrite map_map in Hi.
      apply in_map_iff in Hi. destruct Hi as [x [Hx Hin]].
      apply in_map_iff. exists x. split; [|exact Hin].
      destruct (Z.eqb_spec (id x) (id p)); simpl in Hx; congruence.
    + rewrite (bind_Raise _ _ _ _ _ H). exact Hc.
  - (* deletion removes only records of the deleted product *)
    unfold DeleteProductView.delete.
    destruct (get_object_or_404_Product db i) as [[p [_ [_ H]]]|[e H]];
      [|rewrite (bind_Raise _ _ _ _ _ H); exact Hc].
    rewrite (bind_Return _ _ _ _ _ H). unfold bind, Product_delete. cbn [snd].
    assert (Hkept : forall j,
              In j (map id (filter (fun x => negb (id x =? id p)) (products db))) ->
              In j (ids db) /\ j <> id p).
    { intros j Hi. apply in_map_iff in Hi. destruct Hi as [x [Hx Hin]].
      apply filter_In in Hin. destruct Hin as [Hin Hne].
      apply negb_true_iff, Z.eqb_neq in Hne. subst.
      split; [apply in_map; exact Hin | exact Hne]. }
    apply (complete_transfer db); auto.
    + intros j Hi. apply (Hkept j Hi).
    + intros a b Ha Hb Hf. simpl similarities. rewrite find_filter; [exact Hf|].
      intros x _ Hx. apply same_pair_iff in Hx. injection Hx as H1 H2.
      destruct (Hkept a Ha) as [_ Ha']. destruct (Hkept b Hb) as [_ Hb'].
      rewrite negb_true_iff, orb_false_iff, !Z.eqb_neq. subst. auto.
Qed.

(** X15. Completeness of the links is kept by every operation: in a
    catalog where every two distinct products have a record, this is
    still so after any sequence of initializer runs, detail views,
    feedback calls and product creations, updates and deletions,
    whether they answer or raise. *)
Theorem links_stay_complete is_valid ops :
  forall db, consistent db -> canonical db -> complete db ->
  complete (fold_left (run is_valid) ops db).
Proof.
  induction ops as [|op t IH]; intros db C Hcan Hc; simpl; [exact Hc|].
  destruct (invariant_run is_valid db op (conj C Hcan)) as [C1 Hcan1].
  apply IH; auto. apply complete_run; [split; assumption | exact Hc].
Qed.

Lemma links_stay_complete_witness :
  complete
    (fold_left (run (fun _ _ => true))
       [CreateProduct (mkData "lamp" "" 1 []);
        UpdateSimilarity (feedback 6 1 [2; 3]);
        DeleteProduct 2;
        UpdateProduct (mkData "desk" "" 2 []) 3]
       shop).
Proof.
  apply links_stay_complete.
  - sample_db.
  - apply canonicalb_sound. reflexivity.
  - apply complete_sample. reflexivity.
Defined.

(** X16. A catalog of N products in which every two distinct products
    have a record holds exactly N(N-1)/2 similarity records. *)
Theorem complete_catalog_size db :
  consistent db -> canonical db -> complete db ->
  let N := Z.of_nat (List.length (products db)) in
  Z.of_nat (List.length (similarities db)) = N * (N - 1) / 2.
Proof.
  intros C Hcan Hc N. unfold N. rewrite combinations2_count.
  rewrite <- (length_map pair_of (similarities db)),
          <- (length_map norm (Py.combinations2 (products db))).
  f_equal. apply Permutation_length. apply NoDup_Permutation.
  - apply (unique_together db C).
  - apply combinations2_NoDup. apply (unique_ids db C).
  - intros [a b]. split.
    + intros H. apply in_map_iff in H. destruct H as [r [Hr Hin]].
      unfold pair_of in Hr. injection Hr as Ha Hb.
      pose proof (Hcan r Hin) as Hlt. rewrite Ha, Hb in Hlt.
      destruct (foreign_keys db C r Hin) as [Fa Fb]. rewrite Ha in Fa. rewrite Hb in Fb.
      apply in_map_iff in Fa, Fb. destruct Fa as [p [Ep Hp]], Fb as [q [Eq Hq]].
      assert (Hpq : p <> q) by (intros ->; lia).
      assert (Hn : norm (p, q) = (a, b)).
      { unfold norm, lo, hi. simpl. rewrite Ep, Eq, Z.min_l, Z.max_r by lia. reflexivity. }
      rewrite <- Hn.
      destruct (combinations2_complete (products db) p q Hp Hq Hpq) as [H|H].
      * apply in_map. exact H.
      * rewrite <- norm_sym. apply in_map. exact H.
    + intros H. apply in_map_iff in H. destruct H as [[p q] [Hn Hin]].
      destruct (combinations2_in _ _ _ Hin) as [Hp Hq].
      pose proof (combinations2_ids _ _ _ (unique_ids db C) Hin) as Hne.
      specialize (Hc p q Hp Hq Hne). unfold score_of in Hc.
      destruct (find (same_pair (lo (id p) (id q)) (hi (id p) (id q))) (similarities db))
        as [r|] eqn:E; [|exfalso; apply Hc; reflexivity].
      apply in_map_iff. exists r. split; [|apply (find_some _ _ E)].
      rewrite (found_pair _ _ _ _ E). exact Hn.
Qed.

Lemma complete_catalog_size_witness :
  Z.of_nat (List.length (similarities shop)) = 5 * (5 - 1) / 2.
Proof.
  apply (complete_catalog_size shop).
  - sample_db.
  - apply canonicalb_sound. reflexivity.
  - apply complete_sample. reflexivity.
Defined.

(** ** Recommendations *)

Lemma similarity_objs_in db product r :
  In r (ProductDetailView.similarity_objs product db) ->
  In r (similarities db) /\ (product_a r = id product \/ product_b r = id product).
Proof.
  intros Hr. apply (involved_in db product r).
  apply (Permutation_in _ (order_by_perm _)).
  unfold ProductDetailView.similarity_objs in Hr.
  rewrite <- (firstn_skipn 3 (ProductDetailView.order_by_score_desc _)).
  apply in_or_app. left. exact Hr.
Qed.

(** The answer of the detail view for a product of the catalog. *)
Lemma detail_spec db product raw :
  consistent db -> In product (products db) -> raw <> Some "1"%string ->
  exists recs,
    ProductDetailView.get raw (id product) db
    = (Return (mkResponse (product, Some recs) 200), db)
    /\ map id recs
       = map (ProductDetailView.other_id product)
             (ProductDetailView.similarity_objs product db)
    /\ forall p, In p recs -> In p (products db).
Proof.
  intros C Hp Hraw.
  destruct (for_each_related db (ProductDetailView.other_id product)
              (ProductDetailView.similarity_objs product db) C) as [recs [H1 [H2 H3]]].
  { intros sim Hsim. destruct (similarity_objs_in db product sim Hsim) as [Hin _].
    destruct (foreign_keys db C sim Hin) as [Ha Hb].
    unfold ProductDetailView.other_id. destruct (product_a sim =? id product); assumption. }
  exists recs. split; [|split; assumption].
  unfold ProductDetailView.get.
  rewrite (bind_Return _ _ _ _ _ (get_object_or_404_found db product C Hp)).
  assert (Hr : match raw with Some s => String.eqb s "1" | None => false end = false).
  { destruct raw as [s|]; [|reflexivity]. apply String.eqb_neq. congruence. }
  rewrite Hr. unfold bind at 1. unfold read.
  rewrite (bind_Return _ _ _ _ _ H1). reflexivity.
Qed.

Lemma similarity_objs_NoDup db product :
  consistent db -> NoDup (ProductDetailView.similarity_objs product db).
Proof.
  intros C. unfold ProductDetailView.similarity_objs.
  set (sorted := ProductDetailView.order_by_score_desc _).
  assert (Hnd : NoDup sorted).
  { apply (Permutation_NoDup (Permutation_sym (order_by_perm _))).
    apply NoDup_filter. apply (NoDup_map_inv pair_of). apply (unique_together db C). }
  rewrite <- (firstn_skipn 3 sorted) in Hnd. apply (NoDup_app_remove_r _ _ Hnd).
Qed.

(** X17. The recommendations of a product never list a product twice:
    they are at most three products of the catalog with pairwise
    different identifiers, each one linked to the queried product by a
    record. *)
Theorem recommendations_distinct db product raw :
  consistent db -> canonical db -> In product (products db) ->
  raw <> Some "1"%string ->
  exists recs,
    ProductDetailView.get raw (id product) db
    = (Return (mkResponse (product, Some recs) 200), db)
    /\ NoDup (map id recs)
    /\ (List.length recs <= 3)%nat
    /\ (forall p, In p recs ->
          In p (products db)
          /\ score_of (lo (id product) (id p)) (hi (id product) (id p)) db <> None).
Proof.
  intros C Hcan Hp Hraw.
  destruct (detail_spec db product raw C Hp Hraw) as [recs [H1 [H2 H3]]].
  exists recs. split; [exact H1|]. split; [|split].
  - rewrite H2. apply Finite.Injective_map_NoDup_in; [|apply similarity_objs_NoDup; exact C].
    intros x y Hx Hy Heq.
    destruct (similarity_objs_in db product x Hx) as [Hxin Hxi].
    destruct (similarity_objs_in db product y Hy) as [Hyin Hyi].
    pose proof (Hcan x Hxin) as Hxl. pose proof (Hcan y Hyin) as Hyl.
    apply (NoDup_map_inj pair_of (similarities db)); auto; [apply (unique_together db C)|].
    unfold ProductDetailView.other_id in Heq. unfold pair_of.
    destruct (Z.eqb_spec (product_a x) (id product));
      destruct (Z.eqb_spec (product_a y) (id product)); f_equal; lia.
  - rewrite <- (length_map id recs), H2, length_map.
    unfold ProductDetailView.similarity_objs. rewrite length_firstn. lia.
  - intros p Hin. split; [apply H3; exact Hin|].
    apply (in_map id) in Hin. rewrite H2 in Hin. apply in_map_iff in Hin.
    destruct Hin as [r [Hr Hrin]].
    destruct (similarity_objs_in db product r Hrin) as [Hsim Hinv].
    pose proof (Hcan r Hsim) as Hlt.
    assert (Hpair : pair_of r = (lo (id product) (id p), hi (id product) (id p))).
    { unfold pair_of, lo, hi. rewrite <- Hr. unfold ProductDetailView.other_id.
      destruct (Z.eqb_spec (product_a r) (id product)) as [E|E].
      - rewrite <- E, Z.min_l, Z.max_r by lia. reflexivity.
      - destruct Hinv as [Hinv|Hinv]; [contradiction|].
        rewrite <- Hinv, Z.min_r, Z.max_l by lia. reflexivity. }
    unfold pair_of in Hpair. injection Hpair as Ha Hb.
    unfold score_of. rewrite <- Ha, <- Hb.
    rewrite (find_unique db r C Hsim). discriminate.
Qed.

Lemma recommendations_distinct_witness :
  exists recs,
    ProductDetailView.get None 1 ranked_shop
    = (Return (mkResponse (sample_product 1, Some recs) 200), ranked_shop)
    /\ NoDup (map id recs).
Proof.
  destruct (recommendations_distinct ranked_shop (sample_product 1) None)
    as [recs [H1 [H2 _]]].
  - sample_db.
  - apply canonicalb_sound. reflexivity.
  - sample_in.
  - discriminate.
  - exists recs. auto.
Defined.

(** X18. A deleted product is no longer recommended: after the deletion
    of a product, the detail view of any other product of the catalog
    answers with recommendations that do not contain it. *)
Theorem deleted_product_not_recommended db p q raw :
  consistent db -> canonical db ->
  In p (products db) -> In q (products db) -> id q <> id p ->
  raw <> Some "1"%string ->
  exists db' recs,
    DeleteProductView.delete (id p) db = (Return (mkResponse tt 204), db')
    /\ ProductDetailView.get raw (id q) db'
       = (Return (mkResponse (q, Some recs) 200), db')
    /\ ~ In (id p) (map id recs).
Proof.
  intros C Hcan Hp Hq Hne Hraw.
  destruct (invariant_delete (id p) db (conj C Hcan)) as [C1 _].
  assert (Hdel : DeleteProductView.delete (id p) db
                 = (Return (mkResponse tt 204), snd (DeleteProductView.delete (id p) db))).
  { unfold DeleteProductView.delete.
    rewrite (bind_Return _ _ _ _ _ (get_object_or_404_found db p C Hp)).
    unfold bind, Product_delete. reflexivity. }
  set (db' := snd (DeleteProductView.delete (id p) db)) in *.
  assert (Hprod : forall x, In x (products db') -> id x <> id p).
  { intros x Hx. unfold db', DeleteProductView.delete in Hx.
    rewrite (bind_Return _ _ _ _ _ (get_object_or_404_found db p C Hp)) in Hx.
    unfold bind, Product_delete in Hx. simpl in Hx. apply filter_In in Hx.
    destruct Hx as [_ Hx]. apply negb_true_iff, Z.eqb_neq in Hx. exact Hx. }
  assert (Hq' : In q (products db')).
  { unfold db', DeleteProductView.delete.
    rewrite (bind_Return _ _ _ _ _ (get_object_or_404_found db p C Hp)).
    unfold bind, Product_delete. simpl. apply filter_In. split; [exact Hq|].
    apply negb_true_iff, Z.eqb_neq. exact Hne. }
  destruct (detail_spec db' q raw C1 Hq' Hraw) as [recs [H1 [_ H3]]].
  exists db', recs. split; [exact Hdel|]. split; [exact H1|].
  intros Hin. apply in_map_iff in Hin. destruct Hin as [x [Hx Hxin]].
  apply (Hprod x (H3 x Hxin)). exact Hx.
Qed.

Lemma deleted_product_not_recommended_witness :
  exists db' recs,
    DeleteProductView.delete 2 ranked_shop = (Return (mkResponse tt 204), db')
    /\ ProductDetailView.get None 1 db'
       = (Return (mkResponse (sample_product 1, Some recs) 200), db')
    /\ ~ In 2 (map id recs).
Proof.
  apply (deleted_product_not_recommended ranked_shop (sample_product 2) (sample_product 1)).
  - sample_db.
  - apply canonicalb_sound. reflexivity.
  - sample_in.
  - sample_in.
  - discriminate.
  - discriminate.
Defined.

(** ** The product list *)




















(** X21. Feedback moves scores in one direction only: in a call whose
    records all exist, the score of the clicked pair (at most 1 before)
    does not go down, and the score of an unclicked pair (at least 0
    before) does not go up. *)
Theorem feedback_monotone db cur clicked other_ids s :
  consistent db -> In cur (products db) -> In clicked (products db) ->
  score_of (lo (id cur) (id clicked)) (hi (id cur) (id clicked)) db = Some s ->
  (forall o, In o (products db) -> In (id o) other_ids ->
             score_of (lo (id cur) (id o)) (hi (id cur) (id o)) db <> None) ->
  ~ In (id clicked) other_ids ->
  exists db',
    UpdateSimilarityView.post (feedback (id cur) (id clicked) other_ids) db
    = (Return (mkResponse tt 204), db')
    /\ ((s <= 1)%Q ->
        exists s', score_of (lo (id cur) (id clicked)) (hi (id cur) (id clicked)) db'
                   = Some s' /\ (s <= s')%Q)
    /\ (forall o so,
          In o (products db) -> In (id o) other_ids ->
          score_of (lo (id cur) (id o)) (hi (id cur) (id o)) db = Some so ->
          (0 <= so)%Q ->
          exists so', score_of (lo (id cur) (id o)) (hi (id cur) (id o)) db' = Some so'
                      /\ (so' <= so)%Q).
Proof.
  intros C Hcur Hclk Hs Hall Hn. eexists. split.
  { apply (post_ok db cur clicked other_ids s); assumption. }
  split.
  - intros Hle. exists (inc s). split.
    + rewrite (final_clicked db cur clicked other_ids s (similarity_seq db) Hclk Hs).
      replace (existsb (Z.eqb (id clicked)) other_ids) with false; [reflexivity|].
      symmetry. destruct (existsb _ _) eqn:E; [|reflexivity].
      apply existsb_eqb_In in E. contradiction.
    + unfold inc, Py.min, Py.ltb. destruct (Qle_bool (s + 0.1) 1.0); simpl; lra.
  - intros o so Ho Hin Hso Hge. exists (dec so). split.
    + assert (Hne : id o <> id clicked) by (intros E; apply Hn; rewrite <- E; exact Hin).
      apply (final_unclicked db cur clicked o other_ids so _ Ho Hin Hne Hso).
    + unfold dec, Py.max, Py.ltb. destruct (Qle_bool 0.0 (so - 0.05)); simpl; lra.
Qed.

Lemma feedback_monotone_witness :
  exists db',
    UpdateSimilarityView.post (feedback 2 3 [4; 5]) shop = (Return (mkResponse tt 204), db')
    /\ exists s', score_of 2 3 db' = Some s' /\ (0.5 <= s')%Q.
Proof.
  destruct (feedback_monotone shop (sample_product 2) (sample_product 3) [4; 5] 0.5)
    as [db' [H1 [H2 _]]].
  - sample_db.
  - sample_in.
  - sample_in.
  - reflexivity.
  - intros o Ho Hin. simpl in Ho.
    repeat (destruct Ho as [<-|Ho]; [try discriminate; simpl in Hin; lia|]).
    contradiction.
  - simpl. lia.
  - exists db'. split; [exact H1|]. apply H2. unfold Qle. simpl. lia.
Defined.
